(** * eth-keymanager: a shallow embedding of [keymanager.py]

    The program is a command-line client of a validator keymanager HTTP
    API.  Its three functions ([request], [set_fee_recipients],
    [import_keystores]) and the top-level script are embedded below as
    computations in a small monad that threads the remote server's state,
    records every observable effect (a line printed, a write to the error
    stream, an HTTP request) in a trace, and propagates Python exceptions.

    Conventions.
    - A Python [str] is a [string]; its characters are read as the code
      points 0..255.  [bytes] are [string]s too, read as octets.
    - The values [json.loads] produces (dict, list, str, int, float, bool,
      None) are the inductive type [value].
    - What the program cannot decide itself is a parameter of the
      development: the standard library's parser [json_loads], the iteration
      order of a Python set [set_iter], the file system [read_text], the
      remote server [serve], and the URLs that urllib's Request constructor
      accepts [Request_accepts].
    - The top-level script is modelled from the point where argparse has
      accepted the command line; what argparse does on its own (printing
      help, rejecting an unknown subcommand) happens before that point.
    - Header names are kept as the source writes them (urllib capitalizes
      them on the wire). *)

From Stdlib Require Import String Ascii List ZArith Bool Arith Lia.
From Stdlib Require Import DecimalString Permutation.
Import ListNotations.
Set Warnings "-register-all".
Local Open Scope list_scope.
Local Open Scope string_scope.
Local Open Scope nat_scope.

(** ** Strings *)

Definition str := string.
Definition bytes := string.
Definition path := string.

Definition dquote : ascii := "034"%char.
Definition backslash : ascii := "092"%char.
Definition newline : ascii := "010"%char.

Definition chr (c : ascii) : str := String c EmptyString.

(** [str.lower] on the code points 0..255: the ASCII capitals and the
    Latin-1 capitals U+00C0..U+00DE (the multiplication sign U+00D7 apart)
    move up by 32, every other character is kept. *)
Definition lower_char (c : ascii) : ascii :=
  let n := nat_of_ascii c in
  if ((65 <=? n) && (n <=? 90))
     || ((192 <=? n) && (n <=? 222) && negb (n =? 215))
  then ascii_of_nat (n + 32) else c.

Fixpoint lower (s : str) : str :=
  match s with
  | EmptyString => EmptyString
  | String c r => String (lower_char c) (lower r)
  end.

(** [s.startswith(p)] *)
Definition startswith (s p : str) : bool := String.prefix p s.

(** [str.encode()]: UTF-8. *)
Fixpoint encode (s : str) : bytes :=
  match s with
  | EmptyString => EmptyString
  | String c r =>
      let n := nat_of_ascii c in
      if n <? 128 then String c (encode r)
      else String (ascii_of_nat (192 + n / 64))
             (String (ascii_of_nat (128 + n mod 64)) (encode r))
  end.

(** The characters U+0020..U+007E, which UTF-8 leaves as they are. *)
Fixpoint printable (s : str) : bool :=
  match s with
  | EmptyString => true
  | String c r =>
      (32 <=? nat_of_ascii c) && (nat_of_ascii c <=? 126) && printable r
  end.

(** [x in s] for a set (or list) of strings. *)
Definition mem (x : str) (s : list str) : bool := existsb (String.eqb x) s.

(** ** Python values and exceptions *)

Inductive value : Type :=
| JNull
| JBool (b : bool)
| JInt (n : Z)
| JFloat (repr : str)
| JStr (s : str)
| JList (l : list value)
| JDict (d : list (str * value)).

Inductive exn : Type :=
| KeyError | TypeError | AttributeError | JSONDecodeError | OSError | URLError
| ValueError.

Inductive result (A : Type) : Type :=
| Ok (a : A)
| Exn (e : exn).
Arguments Ok {A} a.
Arguments Exn {A} e.

Definition rbind {A B} (r : result A) (f : A -> result B) : result B :=
  match r with Ok a => f a | Exn e => Exn e end.

(** A comprehension over [l] whose element expression may raise: the first
    exception ends it. *)
Fixpoint rmap {A B} (f : A -> result B) (l : list A) : result (list B) :=
  match l with
  | [] => Ok []
  | x :: r => rbind (f x) (fun y => rbind (rmap f r) (fun ys => Ok (y :: ys)))
  end.

(** A dict is an association list with distinct keys, in insertion order. *)
Fixpoint dict_get (d : list (str * value)) (k : str) : option value :=
  match d with
  | [] => None
  | (k', v) :: r => if String.eqb k' k then Some v else dict_get r k
  end.

(** [v[k]] for a string key [k]. *)
Definition getitem (v : value) (k : str) : result value :=
  match v with
  | JDict d => match dict_get d k with Some x => Ok x | None => Exn KeyError end
  | _ => Exn TypeError
  end.

(** [for x in v]: the elements of a list, the keys of a dict, the characters
    of a str; other values are not iterable. *)
Definition py_iter (v : value) : result (list value) :=
  match v with
  | JList l => Ok l
  | JDict d => Ok (map (fun kv => JStr (fst kv)) d)
  | JStr s => Ok (map (fun c => JStr (chr c)) (list_ascii_of_string s))
  | _ => Exn TypeError
  end.

(** [v.lower()] *)
Definition py_lower (v : value) : result str :=
  match v with
  | JStr s => Ok (lower s)
  | _ => Exn AttributeError
  end.

(** ** [json.dumps] (default arguments: [ensure_ascii], separators
    comma-space and colon-space) *)

Definition hex_digit (n : nat) : ascii :=
  if n <? 10 then ascii_of_nat (48 + n) else ascii_of_nat (87 + n).

Definition escape_char (c : ascii) : str :=
  let n := nat_of_ascii c in
  if Ascii.eqb c dquote then String backslash (chr dquote)
  else if Ascii.eqb c backslash then String backslash (chr backslash)
  else if n =? 8 then String backslash "b"
  else if n =? 12 then String backslash "f"
  else if n =? 10 then String backslash "n"
  else if n =? 13 then String backslash "r"
  else if n =? 9 then String backslash "t"
  else if (32 <=? n) && (n <=? 126) then chr c
  else String backslash
         ("u00" ++ String (hex_digit (n / 16)) (chr (hex_digit (n mod 16)))).

Fixpoint escape (s : str) : str :=
  match s with
  | EmptyString => EmptyString
  | String c r => escape_char c ++ escape r
  end.

Definition dumps_str (s : str) : str :=
  String dquote (escape s ++ chr dquote).

Fixpoint join (sep : str) (l : list str) : str :=
  match l with
  | [] => EmptyString
  | [x] => x
  | x :: r => x ++ sep ++ join sep r
  end.

Fixpoint json_dumps (v : value) : str :=
  match v with
  | JNull => "null"
  | JBool true => "true"
  | JBool false => "false"
  | JInt n => NilZero.string_of_int (Z.to_int n)
  | JFloat r => r
  | JStr s => dumps_str s
  | JList l => "[" ++ join ", " (map json_dumps l) ++ "]"
  | JDict d =>
      "{" ++ join ", "
               (map (fun kv => dumps_str (fst kv) ++ ": " ++ json_dumps (snd kv)) d)
          ++ "}"
  end.

(** ** Requests ([urllib.request.Request]) and observable effects *)

Inductive method : Type := GET | POST.

Record Request : Type := mkRequest {
  full_url : str;
  data : option bytes;
  headers : list (str * str)
}.

(** [Request(url, data=data)] parses the URL and raises ValueError for one
    that it does not accept: a URL without a type, as when the host is given
    without http://, or one whose host part is malformed.  Which URLs are
    accepted is the library's business. *)
Class UrlCheck : Type := Request_accepts : str -> bool.

Definition add_header (req : Request) (key val : str) : Request :=
  mkRequest (full_url req) (data req) (headers req ++ [(key, val)]).

(** urllib sends POST exactly when [data] is not [None]. *)
Definition get_method (req : Request) : method :=
  match data req with Some _ => POST | None => GET end.

Inductive event : Type :=
| Stdout (line : str)          (* print(line) *)
| Stderr (text : str)          (* sys.stderr.write(text) *)
| Usage (message : str)        (* parser.error(message) *)
| Traceback (e : exn)          (* an exception nobody caught *)
| Http (req : Request).        (* urlopen(req) *)

Definition is_write (e : event) : bool :=
  match e with
  | Http req => match get_method req with POST => true | GET => false end
  | _ => false
  end.

Definition is_read (e : event) : bool :=
  match e with
  | Http req => match get_method req with GET => true | POST => false end
  | _ => false
  end.

Definition is_http (e : event) : bool :=
  match e with Http _ => true | _ => false end.

Definition writes (t : list event) : list event := filter is_write t.
Definition reads (t : list event) : list event := filter is_read t.

(** ** Command line *)

Inductive command : Type :=
| SetFeeRecipients (file : path)
| ImportKeystores (keystore_passwd : str) (keystores : list path).

Record Namespace : Type := mkNamespace {
  host : option str;
  auth : option str;
  func : command
}.

(** What the user typed, once argparse has accepted it. *)
Record cmdline : Type := mkCmdline {
  host_flag : option str;
  auth_flag : option str;
  subcommand : command
}.

(** An optional string inside an f-string. *)
Definition fmt (o : option str) : str :=
  match o with Some s => s | None => "None" end.

(** Truth value of [bytes | None] and of [str | None]. *)
Definition truthy (o : option string) : bool :=
  match o with Some (String _ _) => true | _ => false end.

Fixpoint repeat_str (s : str) (n : nat) : str :=
  match n with O => EmptyString | S k => s ++ repeat_str s k end.

Definition thematic_break : str := repeat_str "-" 70.
Definition api_host_env_key : str := "ETH_KEYMANAGER_API_HOST".
Definition api_auth_env_key : str := "ETH_KEYMANAGER_API_AUTH".

Record entry : Type := mkEntry {
  validating_pubkey : str;
  ethaddress : str
}.

(** The test of line 37. *)
Definition unmanaged (managed : list str) (d : entry) : bool :=
  negb (mem (validating_pubkey d) managed).

(** The element expression of the comprehension of line 26. *)
Definition load_entry (d : value) : result entry :=
  rbind (getitem d "validating_pubkey") (fun p =>
  rbind (py_lower p) (fun p' =>
  rbind (getitem d "ethaddress") (fun a =>
  rbind (py_lower a) (fun a' =>
  Ok (mkEntry p' a'))))).

(** The set comprehension of lines 30 and 64. *)
Definition managed_set (resp_obj : value) : result (list str) :=
  rbind (getitem resp_obj "data") (fun d =>
  rbind (py_iter d)
        (rmap (fun validator_data =>
                 rbind (getitem validator_data "validating_pubkey") py_lower))).

(** Lines 74-75. *)
Definition keystore_pubkey (d : value) : result str :=
  rbind (getitem d "pubkey") (fun pubkey =>
  match pubkey with
  | JStr s => Ok (if startswith s "0x" then s else "0x" ++ s)
  | _ => Exn AttributeError
  end).

(** The specification's words for lines 74-75 (section 4.4, step 2): the
    pubkey is normalized "to include a 0x prefix if absent". *)
Definition with_0x_prefix (raw : str) : str :=
  match raw with
  | String "0" (String "x" _) => raw
  | _ => "0x" ++ raw
  end.

Definition fee_path (pubkey : str) : str :=
  "/eth/v1/validator/" ++ pubkey ++ "/feerecipient".

Definition not_managed_message (pubkey : str) : str :=
  "ERROR: Validator " ++ pubkey
    ++ " is not managed by the connected node." ++ chr newline.

Definition usage_message : str :=
  "Must provide keymanager API host and auth via command line options or environment variables ("
    ++ api_host_env_key ++ " and " ++ api_auth_env_key ++ ")".

Section Program.

(** [json.loads]; [None] when it raises. *)
Variable json_loads : str -> option value.
(** The order in which a set built from these elements is iterated. *)
Variable set_iter : list str -> list str.
(** [p.read_bytes().decode()]; [None] when either raises. *)
Variable read_text : path -> option str.
(** The remote node: its state, and its answer to a request (the decoded
    response body; [None] when urlopen, read or decode raises). *)
Variable Srv : Type.
Variable serve : Srv -> Request -> option str * Srv.
(** [Request]'s check of the URL. *)
Context {url_check : UrlCheck}.

(** Computations: the server's state is threaded, the effects are
    collected in order, an exception ends the computation. *)
Definition M (A : Type) : Type := Srv -> result A * Srv * list event.

Definition ret {A} (a : A) : M A := fun s => (Ok a, s, []).

Definition bind {A B} (m : M A) (f : A -> M B) : M B :=
  fun s =>
    match m s with
    | (Ok a, s1, t1) =>
        match f a s1 with (r, s2, t2) => (r, s2, (t1 ++ t2)%list) end
    | (Exn e, s1, t1) => (Exn e, s1, t1)
    end.

Notation "x <- c ;; k" := (bind c (fun x => k))
  (at level 61, c at next level, right associativity).
Notation "c ;; k" := (bind c (fun _ => k))
  (at level 61, right associativity).

Definition lift {A} (r : result A) : M A := fun s => (r, s, []).
Definition emit (e : event) : M unit := fun s => (Ok tt, s, [e]).
Definition print (line : str) : M unit := emit (Stdout line).
Definition stderr_write (text : str) : M unit := emit (Stderr text).

(** A [for] loop whose body may [continue]. *)
Fixpoint iter {A} (l : list A) (body : A -> M unit) : M unit :=
  match l with
  | [] => ret tt
  | x :: r => body x ;; iter r body
  end.

(** A [for] loop whose body may [return v] ([Some v]). *)
Fixpoint iter_ret {A R} (l : list A) (body : A -> M (option R))
  : M (option R) :=
  match l with
  | [] => ret None
  | x :: r =>
      o <- body x ;;
      match o with Some v => ret (Some v) | None => iter_ret r body end
  end.

Definition urlopen (req : Request) : M str :=
  fun s =>
    match serve s req with
    | (Some content_str, s') => (Ok content_str, s', [Http req])
    | (None, s') => (Exn URLError, s', [Http req])
    end.

Definition loads (text : str) : M value :=
  lift (match json_loads text with
        | Some v => Ok v
        | None => Exn JSONDecodeError
        end).

Definition read_file (p : path) : M str :=
  lift (match read_text p with Some t => Ok t | None => Exn OSError end).

(** Line 9: the constructor raises ValueError for a URL it does not accept;
    the object keeps the URL and the body, and has no header yet. *)
Definition new_Request (url : str) (d : option bytes) : result Request :=
  if Request_accepts url then Ok (mkRequest url d []) else Exn ValueError.

(** Lines 10-15. *)
Definition add_headers (args : Namespace) (d : option bytes) (req : Request)
  : Request :=
  let req := add_header req "authorization" ("Bearer " ++ fmt (auth args)) in
  if truthy d then
    add_header (add_header req "accept" "*/*")
               "content-type" "application/json"
  else add_header req "accept" "application/json".

(** The request that [request] hands to [urlopen] (lines 9-15), once the
    constructor has accepted its URL. *)
Definition build_request (args : Namespace) (resource : str)
           (d : option bytes) : Request :=
  add_headers args d (mkRequest (fmt (host args) ++ resource) d []).

Definition request (args : Namespace) (resource : str) (d : option bytes)
  : M value :=
  req <- lift (new_Request (fmt (host args) ++ resource) d) ;;
  content_str <- urlopen (add_headers args d req) ;;
  if truthy d then ret (JStr content_str) else loads content_str.

(** The body of the first loop of [set_fee_recipients] (lines 36-39). *)
Definition check_managed (managed_keystores : list str) (d : entry)
  : M (option Z) :=
  if negb (mem (validating_pubkey d) managed_keystores) then
    stderr_write (not_managed_message (validating_pubkey d)) ;;
    ret (Some 1%Z)
  else ret None.

(** The body of the write of line 52. *)
Definition fee_body (new_ethaddress : str) : bytes :=
  encode (json_dumps (JDict [("ethaddress", JStr new_ethaddress)])).

(** The body of its second loop (lines 42-54). *)
Definition sync_entry (args : Namespace) (d : entry) : M unit :=
  print thematic_break ;;
  let pubkey := validating_pubkey d in
  let new_ethaddress := ethaddress d in
  resp_obj <- request args (fee_path pubkey) None ;;
  old_ethaddress <-
    lift (rbind (getitem resp_obj "data") (fun x =>
          rbind (getitem x "ethaddress") py_lower)) ;;
  print ("Configuring " ++ pubkey ++ "...") ;;
  if String.eqb old_ethaddress new_ethaddress then
    print "Fee recipient already in sync"
  else
    let req_data := fee_body new_ethaddress in
    _ <- request args (fee_path pubkey) (Some req_data) ;;
    print ("Fee recipient updated. Previously " ++ old_ethaddress
           ++ ". Now " ++ new_ethaddress).

Definition set_fee_recipients (args : Namespace) (file : path) : M Z :=
  text <- read_file file ;;
  fee_recipient_data <- loads text ;;
  fee_recipient_data <-
    lift (rbind (py_iter fee_recipient_data) (rmap load_entry)) ;;
  resp_obj <- request args "/eth/v1/keystores" None ;;
  managed_keystores <- lift (managed_set resp_obj) ;;
  print "The node manages the following validators:" ;;
  iter (set_iter managed_keystores) print ;;
  r <- iter_ret fee_recipient_data (check_managed managed_keystores) ;;
  match r with
  | Some code => ret code
  | None =>
      iter fee_recipient_data (sync_entry args) ;;
      print thematic_break ;;
      print "Success. All fee recipients synchronized." ;;
      ret 0%Z
  end.

(** The body of the loop of [import_keystores] (lines 71-82). *)
Definition keystores_body (text passwd : str) : bytes :=
  encode (json_dumps (JDict [("keystores", JList [JStr text]);
                             ("passwords", JList [JStr passwd])])).

Definition import_file (args : Namespace) (keystore_passwd : str)
           (managed_keystores : list str) (p : path) : M unit :=
  print thematic_break ;;
  text <- read_file p ;;
  d <- loads text ;;
  pubkey <- lift (keystore_pubkey d) ;;
  print ("Importing " ++ pubkey ++ "...") ;;
  if mem pubkey managed_keystores then
    print "The node already manages this validating pubkey. Skipping this one."
  else
    let req_data := keystores_body text keystore_passwd in
    _ <- request args "/eth/v1/keystores" (Some req_data) ;;
    print "Keystore imported".

Definition import_keystores (args : Namespace) (keystore_passwd : str)
           (keystores : list path) : M Z :=
  resp_obj <- request args "/eth/v1/keystores" None ;;
  managed_keystores <- lift (managed_set resp_obj) ;;
  print "The node manages the following validators:" ;;
  iter (set_iter managed_keystores) print ;;
  iter keystores (import_file args keystore_passwd managed_keystores) ;;
  print thematic_break ;;
  print "Success. All keystores imported." ;;
  ret 0%Z.

(** The top-level script (lines 95-133): the flags default to the
    environment, both must be truthy, the subcommand's exit code is the
    process's, and an uncaught exception exits with 1. *)
Definition parse_args (environ : str -> option str) (cl : cmdline)
  : Namespace :=
  mkNamespace
    (match host_flag cl with Some h => Some h
                           | None => environ api_host_env_key end)
    (match auth_flag cl with Some a => Some a
                           | None => environ api_auth_env_key end)
    (subcommand cl).

Definition run_command (args : Namespace) : M Z :=
  match func args with
  | SetFeeRecipients file => set_fee_recipients args file
  | ImportKeystores keystore_passwd keystores =>
      import_keystores args keystore_passwd keystores
  end.

Definition main (environ : str -> option str) (cl : cmdline)
  : Srv -> Z * Srv * list event :=
  fun s =>
    let args := parse_args environ cl in
    if negb (truthy (auth args)) || negb (truthy (host args)) then
      (2%Z, s, [Usage usage_message])
    else
      match run_command args s with
      | (Ok exit_code, s', t) => (exit_code, s', t)
      | (Exn e, s', t) => (1%Z, s', (t ++ [Traceback e])%list)
      end.

(** *** Notions used to state the properties *)

(** What a keystore file holds for the import loop: its text and its
    normalized pubkey, when the file can be read, parses, and has a string
    under the key pubkey. *)
Definition keystore_of (p : path) : option (str * str) :=
  match read_text p with
  | Some text =>
      match json_loads text with
      | Some d =>
          match keystore_pubkey d with
          | Ok pubkey => Some (text, pubkey)
          | Exn _ => None
          end
      | None => None
      end
  | None => None
  end.

(** The file's pubkey is in the managed set. *)
Definition already_managed (managed : list str) (p : path) : bool :=
  match keystore_of p with
  | Some (_, pubkey) => mem pubkey managed
  | None => false
  end.

(** The entries the synchronization loads from its file (lines 25-26). *)
Definition fee_entries (file : path) : option (list entry) :=
  match read_text file with
  | Some text =>
      match json_loads text with
      | Some v =>
          match rbind (py_iter v) (rmap load_entry) with
          | Ok es => Some es
          | Exn _ => None
          end
      | None => None
      end
  | None => None
  end.

(** The listing request can be built (the constructor accepts its URL), and
    from state [s] the node answers it with a document whose managed set is
    [managed], and moves to [s1]. *)
Definition lists_keystores (args : Namespace) (s : Srv)
           (managed : list str) (s1 : Srv) : Prop :=
  Request_accepts (fmt (host args) ++ "/eth/v1/keystores") = true
  /\ exists txt resp,
       serve s (build_request args "/eth/v1/keystores" None) = (Some txt, s1)
       /\ json_loads txt = Some resp
       /\ managed_set resp = Ok managed.

(** The request for the fee recipient of [pubkey] can be built, and from
    state [s] the node answers it with the fee recipient [remote] (as sent,
    in any letter case), and moves to [s1]. *)
Definition reports_fee (args : Namespace) (s : Srv) (pubkey remote : str)
           (s1 : Srv) : Prop :=
  Request_accepts (fmt (host args) ++ fee_path pubkey) = true
  /\ exists txt resp d,
       serve s (build_request args (fee_path pubkey) None) = (Some txt, s1)
       /\ json_loads txt = Some resp
       /\ getitem resp "data" = Ok d
       /\ getitem d "ethaddress" = Ok (JStr remote).

(** The request that imports the keystore text [text]. *)
Definition import_request (args : Namespace) (keystore_passwd text : str)
  : Request :=
  build_request args "/eth/v1/keystores"
                (Some (keystores_body text keystore_passwd)).

Definition listing_request (args : Namespace) : Request :=
  build_request args "/eth/v1/keystores" None.

(** The write requests an import of [keystores] sends when every one of
    them is accepted: one per file whose pubkey is not in [managed], in the
    order of the command line. *)
Definition import_requests (args : Namespace) (keystore_passwd : str)
           (managed : list str) (keystores : list path) : list event :=
  flat_map (fun p =>
              match keystore_of p with
              | Some (text, pubkey) =>
                  if mem pubkey managed then []
                  else [Http (import_request args keystore_passwd text)]
              | None => []
              end) keystores.

(** Every file can be read, parses, and has a string pubkey. *)
Definition well_formed_keystores (keystores : list path) : Prop :=
  Forall (fun p => keystore_of p <> None) keystores.

(** Whatever its state, the node accepts the import of every one of the
    files that is not in [managed]. *)
Definition accepts_imports (args : Namespace) (keystore_passwd : str)
           (managed : list str) (keystores : list path) : Prop :=
  forall s p text pubkey,
    In p keystores ->
    keystore_of p = Some (text, pubkey) ->
    mem pubkey managed = false ->
    exists txt s', serve s (import_request args keystore_passwd text) = (Some txt, s').

(** The request that writes a fee recipient (lines 52-53). *)
Definition fee_write_request (args : Namespace) (pubkey new_ethaddress : str)
  : Request :=
  build_request args (fee_path pubkey) (Some (fee_body new_ethaddress)).

(** A node that keeps the fee recipients it is given, in the states that
    satisfy [Inv]: [fee_of s pubkey] is the address that state [s] holds for
    [pubkey].  The listing answers [managed] and a read answers [fee_of],
    both leaving [fee_of] as it is; a write for a managed validator is
    accepted and sets the address of that validator (up to letter case) and
    of no other managed one. *)
Definition keeps_fee_recipients (args : Namespace) (managed : list str)
           (Inv : Srv -> Prop) (fee_of : Srv -> str -> str) : Prop :=
  (forall s, Inv s ->
      exists s1,
        lists_keystores args s managed s1 /\ Inv s1
        /\ forall pubkey, fee_of s1 pubkey = fee_of s pubkey)
  /\ (forall s pubkey,
        Inv s -> mem pubkey managed = true ->
        exists s1,
          reports_fee args s pubkey (fee_of s pubkey) s1 /\ Inv s1
          /\ forall pubkey', fee_of s1 pubkey' = fee_of s pubkey')
  /\ (forall s pubkey a,
        Inv s -> mem pubkey managed = true ->
        exists txt s1,
          serve s (fee_write_request args pubkey a) = (Some txt, s1)
          /\ Inv s1
          /\ lower (fee_of s1 pubkey) = lower a
          /\ forall pubkey', mem pubkey' managed = true ->
                             pubkey' <> pubkey ->
                             fee_of s1 pubkey' = fee_of s pubkey').

(** No validator is given two different addresses. *)
Definition consistent (es : list entry) : Prop :=
  forall d d', In d es -> In d' es ->
               validating_pubkey d = validating_pubkey d' ->
               ethaddress d = ethaddress d'.

(** *** The specification's words for the import

    [spec_pubkey], [spec_already_managed] and [spec_import_requests] follow
    section 4.4 of the specification, not the code: for each file, "read
    and parse the file as JSON, extract its pubkey field, normalize it to
    include a 0x prefix if absent"; the file is already managed when "that
    normalized pubkey is already present in the managed set"; "otherwise,
    issue a write request".  The theorems about the number of writes
    compare the code with them. *)

(** The normalized pubkey of a keystore file, when the file can be read and
    holds a JSON object with a string under pubkey. *)
Definition spec_pubkey (p : path) : option str :=
  match read_text p with
  | Some text =>
      match json_loads text with
      | Some (JDict d) =>
          match dict_get d "pubkey" with
          | Some (JStr raw) => Some (with_0x_prefix raw)
          | _ => None
          end
      | _ => None
      end
  | None => None
  end.

Definition spec_already_managed (managed : list str) (p : path) : bool :=
  match spec_pubkey p with
  | Some pubkey => if in_dec string_dec pubkey managed then true else false
  | None => false
  end.

(** One write request per file that is not already managed, in the order of
    the command line. *)
Definition spec_import_requests (args : Namespace) (keystore_passwd : str)
           (managed : list str) (keystores : list path) : list event :=
  flat_map (fun p =>
              match read_text p, spec_pubkey p with
              | Some text, Some pubkey =>
                  if in_dec string_dec pubkey managed then []
                  else [Http (import_request args keystore_passwd text)]
              | _, _ => []
              end) keystores.

(** Whatever its state, the node accepts the import of every one of the
    files that is not already managed. *)
Definition accepts_new_keystores (args : Namespace) (keystore_passwd : str)
           (managed : list str) (keystores : list path) : Prop :=
  forall s p text pubkey,
    In p keystores ->
    read_text p = Some text ->
    spec_pubkey p = Some pubkey ->
    ~ In pubkey managed ->
    exists txt s', serve s (import_request args keystore_passwd text) = (Some txt, s').

(** *** The shape of the documents *)

(** What a fee recipient file must hold in each of its items (section 4.3):
    an object with strings under validating_pubkey and ethaddress. *)
Definition fee_item (v : value) : Prop :=
  exists d p a,
    v = JDict d
    /\ dict_get d "validating_pubkey" = Some (JStr p)
    /\ dict_get d "ethaddress" = Some (JStr a).

(** What the listing must hold in each item of its data (section 4.2): an
    object with a string under validating_pubkey. *)
Definition listed_item (v : value) : Prop :=
  exists d k, v = JDict d /\ dict_get d "validating_pubkey" = Some (JStr k).

End Program.

Arguments M Srv A : clear implicits.
Arguments ret {Srv A} a _.
Arguments bind {Srv A B} m f _.
Arguments lift {Srv A} r _.
Arguments emit {Srv} e _.
Arguments print {Srv} line _.
Arguments stderr_write {Srv} text _.
Arguments iter {Srv A} l body _.
Arguments iter_ret {Srv A R} l body _.
Arguments urlopen {Srv} serve req _.
Arguments loads json_loads {Srv} text _.
Arguments read_file read_text {Srv} p _.
Arguments request json_loads {Srv} serve {url_check} args resource d _.
Arguments check_managed {Srv} managed_keystores d _.
Arguments sync_entry json_loads {Srv} serve {url_check} args d _.
Arguments set_fee_recipients json_loads set_iter read_text {Srv} serve {url_check} args file _.
Arguments import_file json_loads read_text {Srv} serve {url_check} args keystore_passwd managed_keystores p _.
Arguments import_keystores json_loads set_iter read_text {Srv} serve {url_check} args keystore_passwd keystores _.
Arguments run_command json_loads set_iter read_text {Srv} serve {url_check} args _.
Arguments main json_loads set_iter read_text {Srv} serve {url_check} environ cl _.
Arguments lists_keystores json_loads {Srv} serve {url_check} args s managed s1.
Arguments reports_fee json_loads {Srv} serve {url_check} args s pubkey remote s1.
Arguments accepts_imports json_loads read_text {Srv} serve args keystore_passwd managed keystores.
Arguments accepts_new_keystores json_loads read_text {Srv} serve args keystore_passwd managed keystores.
Arguments keeps_fee_recipients json_loads {Srv} serve {url_check} args managed Inv fee_of.


(** ** Notions about all runs *)

(** Every event of every run of [m], from every state, satisfies [P]. *)
Definition always {Srv A} (P : event -> Prop) (m : M Srv A) : Prop :=
  forall s, Forall P (snd (m s)).

(** No run of [m] has more than [n] events that satisfy [f]. *)
Definition at_most {Srv A} (f : event -> bool) (n : nat) (m : M Srv A)
  : Prop :=
  forall s, length (filter f (snd (m s))) <= n.

(** A request goes to the configured host, to a path under /eth/v1/, and
    carries the bearer token. *)
Definition authorized (args : Namespace) (e : event) : Prop :=
  forall req,
    e = Http req ->
    In ("authorization", "Bearer " ++ fmt (auth args)) (headers req)
    /\ exists resource,
         full_url req = fmt (host args) ++ resource
         /\ startswith resource "/eth/v1/" = true.

(** The request that reads a fee recipient (line 46). *)
Definition fee_read_request (args : Namespace) (pubkey : str) : Request :=
  build_request args (fee_path pubkey) None.


(** ** A reference environment

    The program is run on concrete inputs against the definitions below: a
    parser of JSON texts (objects, arrays, strings and integers; a number
    with a fraction or an exponent, or a character escape above U+00FF, is
    outside it), a set iteration order (insertion order), and a node that
    keeps its keys and fee recipients and answers the four requests of the
    keymanager API, and the type test of urllib's Request constructor. *)

Definition is_ws (c : ascii) : bool :=
  let n := nat_of_ascii c in (n =? 32) || (n =? 9) || (n =? 10) || (n =? 13).

Fixpoint skip_ws (s : str) : str :=
  match s with
  | String c r => if is_ws c then skip_ws r else s
  | EmptyString => EmptyString
  end.

Definition hex_value (c : ascii) : option nat :=
  let n := nat_of_ascii c in
  if (48 <=? n) && (n <=? 57) then Some (n - 48)
  else if (97 <=? n) && (n <=? 102) then Some (n - 87)
  else if (65 <=? n) && (n <=? 70) then Some (n - 55)
  else None.

Definition unescape_simple (c : ascii) : option ascii :=
  let n := nat_of_ascii c in
  if (n =? 34) || (n =? 92) || (n =? 47) then Some c
  else if n =? 98 then Some (ascii_of_nat 8)
  else if n =? 102 then Some (ascii_of_nat 12)
  else if n =? 110 then Some (ascii_of_nat 10)
  else if n =? 114 then Some (ascii_of_nat 13)
  else if n =? 116 then Some (ascii_of_nat 9)
  else None.

(** The characters after an opening quote, up to the closing one. *)
Fixpoint parse_string (s : str) : option (str * str) :=
  match s with
  | EmptyString => None
  | String c r =>
      if Ascii.eqb c dquote then Some (EmptyString, r)
      else if Ascii.eqb c backslash then
        match r with
        | String "u" (String "0" (String "0" (String a (String b r')))) =>
            match hex_value a, hex_value b, parse_string r' with
            | Some x, Some y, Some (t, rest) =>
                Some (String (ascii_of_nat (16 * x + y)) t, rest)
            | _, _, _ => None
            end
        | String e r' =>
            match unescape_simple e, parse_string r' with
            | Some c', Some (t, rest) => Some (String c' t, rest)
            | _, _ => None
            end
        | EmptyString => None
        end
      else if nat_of_ascii c <? 32 then None
      else
        match parse_string r with
        | Some (t, rest) => Some (String c t, rest)
        | None => None
        end
  end.

Definition is_digit (c : ascii) : bool :=
  let n := nat_of_ascii c in (48 <=? n) && (n <=? 57).

Fixpoint parse_digits (s : str) (acc : Z) : Z * str :=
  match s with
  | String c r =>
      if is_digit c
      then parse_digits r (10 * acc + Z.of_nat (nat_of_ascii c - 48))%Z
      else (acc, s)
  | EmptyString => (acc, s)
  end.

Definition ends_number (s : str) : bool :=
  match s with
  | String c _ =>
      negb (is_digit c || Ascii.eqb c "." || Ascii.eqb c "e" || Ascii.eqb c "E")
  | EmptyString => true
  end.

Definition parse_nat (s : str) : option (Z * str) :=
  match s with
  | String "0" r => if ends_number r then Some (0%Z, r) else None
  | String c _ =>
      if is_digit c then
        match parse_digits s 0%Z with
        | (n, r) => if ends_number r then Some (n, r) else None
        end
      else None
  | EmptyString => None
  end.

Fixpoint dict_set (d : list (str * value)) (k : str) (v : value)
  : list (str * value) :=
  match d with
  | [] => [(k, v)]
  | (k', v') :: r =>
      if String.eqb k' k then (k', v) :: r else (k', v') :: dict_set r k v
  end.

Fixpoint parse_value (fuel : nat) (s : str) {struct fuel}
  : option (value * str) :=
  match fuel with
  | O => None
  | S k =>
      match skip_ws s with
      | EmptyString => None
      | String c r =>
          if Ascii.eqb c "{" then
            match skip_ws r with
            | String "}" r' => Some (JDict [], r')
            | _ => parse_members k r []
            end
          else if Ascii.eqb c "[" then
            match skip_ws r with
            | String "]" r' => Some (JList [], r')
            | _ => parse_elements k r []
            end
          else if Ascii.eqb c dquote then
            match parse_string r with
            | Some (t, r') => Some (JStr t, r')
            | None => None
            end
          else if Ascii.eqb c "-" then
            match parse_nat r with
            | Some (n, r') => Some (JInt (- n), r')
            | None => None
            end
          else if startswith (String c r) "true" then
            Some (JBool true, substring 4 (String.length r) (String c r))
          else if startswith (String c r) "false" then
            Some (JBool false, substring 5 (String.length r) (String c r))
          else if startswith (String c r) "null" then
            Some (JNull, substring 4 (String.length r) (String c r))
          else
            match parse_nat (String c r) with
            | Some (n, r') => Some (JInt n, r')
            | None => None
            end
      end
  end
with parse_elements (fuel : nat) (s : str) (acc : list value) {struct fuel}
  : option (value * str) :=
  match fuel with
  | O => None
  | S k =>
      match parse_value k s with
      | Some (v, r) =>
          match skip_ws r with
          | String "," r' => parse_elements k r' (acc ++ [v])%list
          | String "]" r' => Some (JList (acc ++ [v])%list, r')
          | _ => None
          end
      | None => None
      end
  end
with parse_members (fuel : nat) (s : str) (acc : list (str * value))
  {struct fuel} : option (value * str) :=
  match fuel with
  | O => None
  | S k =>
      match skip_ws s with
      | String c r =>
          if Ascii.eqb c dquote then
            match parse_string r with
            | Some (key, r1) =>
                match skip_ws r1 with
                | String ":" r2 =>
                    match parse_value k r2 with
                    | Some (v, r3) =>
                        match skip_ws r3 with
                        | String "," r4 => parse_members k r4 (dict_set acc key v)
                        | String "}" r4 => Some (JDict (dict_set acc key v), r4)
                        | _ => None
                        end
                    | None => None
                    end
                | _ => None
                end
            | None => None
            end
          else None
      | EmptyString => None
      end
  end.

Definition json_loads_ref (s : str) : option value :=
  match parse_value (S (String.length s)) s with
  | Some (v, r) =>
      match skip_ws r with EmptyString => Some v | _ => None end
  | None => None
  end.

(** Insertion order, each element once. *)
Fixpoint set_iter_ref (l : list str) : list str :=
  match l with
  | [] => []
  | x :: r => x :: filter (fun y => negb (String.eqb x y)) (set_iter_ref r)
  end.

Record node : Type := mkNode {
  node_keys : list str;              (* the validators the node manages *)
  node_fees : list (str * str);      (* pubkey (lower case), fee recipient *)
  node_default_fee : str
}.

Fixpoint assoc_get (l : list (str * str)) (k : str) : option str :=
  match l with
  | [] => None
  | (k', v) :: r => if String.eqb k' k then Some v else assoc_get r k
  end.

Fixpoint assoc_set (l : list (str * str)) (k v : str) : list (str * str) :=
  match l with
  | [] => [(k, v)]
  | (k', v') :: r =>
      if String.eqb k' k then (k', v) :: r else (k', v') :: assoc_set r k v
  end.

Definition node_fee (n : node) (k : str) : str :=
  match assoc_get (node_fees n) (lower k) with
  | Some a => a
  | None => node_default_fee n
  end.

Definition keystores_response (n : node) : str :=
  json_dumps
    (JDict [("data",
             JList (map (fun k => JDict [("validating_pubkey", JStr k)])
                        (node_keys n)))]).

Definition fee_response (a : str) : str :=
  json_dumps (JDict [("data", JDict [("ethaddress", JStr a)])]).

Definition imported_response : str :=
  json_dumps (JDict [("data", JList [JDict [("status", JStr "imported")]])]).

Definition opt_bind {A B} (o : option A) (f : A -> option B) : option B :=
  match o with Some a => f a | None => None end.

Definition posted_pubkey (body : bytes) : option str :=
  opt_bind (json_loads_ref body) (fun v =>
  match getitem v "keystores" with
  | Ok (JList (JStr text :: _)) =>
      opt_bind (json_loads_ref text) (fun k =>
      match keystore_pubkey k with Ok p => Some p | Exn _ => None end)
  | _ => None
  end).

Definition posted_ethaddress (body : bytes) : option str :=
  opt_bind (json_loads_ref body) (fun v =>
  match getitem v "ethaddress" with
  | Ok (JStr a) => Some a
  | _ => None
  end).

Definition serve_ref (base : str) (n : node) (req : Request)
  : option str * node :=
  let for_key k := String.eqb (full_url req) (base ++ fee_path (lower k)) in
  match data req with
  | None =>
      if String.eqb (full_url req) (base ++ "/eth/v1/keystores")
      then (Some (keystores_response n), n)
      else match find for_key (node_keys n) with
           | Some k => (Some (fee_response (node_fee n k)), n)
           | None => (None, n)
           end
  | Some body =>
      if String.eqb (full_url req) (base ++ "/eth/v1/keystores") then
        match posted_pubkey body with
        | Some p =>
            (Some imported_response,
             if mem (lower p) (map lower (node_keys n)) then n
             else mkNode (node_keys n ++ [p])%list (node_fees n)
                         (node_default_fee n))
        | None => (None, n)
        end
      else match find for_key (node_keys n), posted_ethaddress body with
           | Some k, Some a =>
               (Some EmptyString,
                mkNode (node_keys n) (assoc_set (node_fees n) (lower k) a)
                       (node_default_fee n))
           | _, _ => (None, n)
           end
  end.

(** The URL check of the reference environment is the type test of
    [Request] (unwrap, _splittag and _splittype of urllib.parse): the URL,
    stripped of surrounding white space, of a wrapping <...> and of a
    leading URL:, and cut at its last #, must begin with one character or
    more other than / and :, followed by a colon. *)
Definition is_space (c : ascii) : bool :=
  let n := nat_of_ascii c in
  ((9 <=? n) && (n <=? 13)) || ((28 <=? n) && (n <=? 32))
  || (n =? 133) || (n =? 160).

Fixpoint lstrip (s : str) : str :=
  match s with
  | String c r => if is_space c then lstrip r else s
  | EmptyString => EmptyString
  end.

Fixpoint rstrip (s : str) : str :=
  match s with
  | EmptyString => EmptyString
  | String c r =>
      match rstrip r with
      | EmptyString => if is_space c then EmptyString else chr c
      | r' => String c r'
      end
  end.

Definition strip (s : str) : str := rstrip (lstrip s).

Fixpoint last_char (s : str) : option ascii :=
  match s with
  | EmptyString => None
  | String c r => match r with EmptyString => Some c | _ => last_char r end
  end.

Fixpoint drop_last (s : str) : str :=
  match s with
  | EmptyString => EmptyString
  | String c r =>
      match r with EmptyString => EmptyString | _ => String c (drop_last r) end
  end.

Definition unwrap (url : str) : str :=
  let url := strip url in
  let url :=
    match url, last_char url with
    | String c (String c' r), Some z =>
        if Ascii.eqb c "<" && Ascii.eqb z ">"
        then strip (drop_last (String c' r)) else url
    | _, _ => url
    end in
  if startswith url "URL:"
  then strip (substring 4 (String.length url - 4) url) else url.

(** The URL without its fragment: what stands before the last #. *)
Fixpoint before_last_hash (s : str) : option str :=
  match s with
  | EmptyString => None
  | String c r =>
      match before_last_hash r with
      | Some path => Some (String c path)
      | None => if Ascii.eqb c "#" then Some EmptyString else None
      end
  end.

Definition splittag (url : str) : str :=
  match before_last_hash url with Some path => path | None => url end.

(** The characters before the first colon, when no slash stands before it. *)
Fixpoint before_colon (s : str) : option str :=
  match s with
  | EmptyString => None
  | String c r =>
      if Ascii.eqb c ":" then Some EmptyString
      else if Ascii.eqb c "/" then None
      else match before_colon r with
           | Some t => Some (String c t)
           | None => None
           end
  end.

Definition splittype (url : str) : option str :=
  match before_colon url with
  | Some (String c t) => Some (lower (String c t))
  | _ => None
  end.

Definition has_url_type : UrlCheck :=
  fun url =>
    match splittype (splittag (unwrap url)) with
    | Some _ => true
    | None => false
    end.

(** A file system given by its files. *)
Definition read_text_ref (files : list (path * str)) (p : path)
  : option str := assoc_get files p.

Definition q (s : str) : str := String dquote (s ++ chr dquote).

Definition localhost : str := "http://127.0.0.1:5052".
Definition ref_args (c : command) : Namespace :=
  mkNamespace (Some localhost) (Some "secret") c.

Definition run_ref (files : list (path * str)) (c : command) (n : node)
  : result Z * node * list event :=
  run_command (url_check := has_url_type)
              json_loads_ref set_iter_ref (read_text_ref files)
              (serve_ref localhost) (ref_args c) n.

(** ** Concrete inputs *)

(** A keystore file with the given pubkey (the other fields play no part). *)
Definition keystore_text (pubkey : str) : str :=
  "{" ++ q "crypto" ++ ": {}, " ++ q "pubkey" ++ ": " ++ q pubkey ++ "}".

(** A fee recipient file with the given (pubkey, address) entries. *)
Definition fee_text (entries : list (str * str)) : str :=
  "[" ++ join ","
           (map (fun e =>
                   "{" ++ q "validating_pubkey" ++ ":" ++ q (fst e) ++ ","
                       ++ q "ethaddress" ++ ":" ++ q (snd e) ++ "}")
                entries)
      ++ "]".

Definition ref_main (environ : str -> option str) (cl : cmdline)
           (files : list (path * str)) (n : node) : Z * node * list event :=
  main (url_check := has_url_type)
       json_loads_ref set_iter_ref (read_text_ref files)
       (serve_ref localhost) environ cl n.

Definition no_environ : str -> option str := fun _ => None.


Definition import_args : Namespace := ref_args (ImportKeystores "pw" []).
Definition fee_args : Namespace := ref_args (SetFeeRecipients "fees.json").

Definition node_none : node := mkNode [] [] "0xcc".
Definition node_aa : node := mkNode ["0xaa"] [] "0xcc".
Definition node_aa_synced : node := mkNode ["0xaa"] [("0xaa", "0xbb")] "0xcc".
Definition node_abc : node := mkNode ["0xabc"] [] "0xcc".
Definition node_ABC : node := mkNode ["0xABC"] [] "0xcc".
Definition node_abc123 : node := mkNode ["0xabc123"] [] "0xcc".

Definition two_keystores : list (path * str) :=
  [("a.json", keystore_text "0xaa"); ("b.json", keystore_text "0xbb")].
Definition twin_keystores : list (path * str) :=
  [("first.json", keystore_text "0xbb"); ("second.json", keystore_text "0xbb")].
Definition keystore_ABC : list (path * str) :=
  [("keystore.json", keystore_text "0xABC")].
Definition keystore_abc123 : list (path * str) :=
  [("keystore.json", keystore_text "abc123")].

Definition fees_AA : list (path * str) :=
  [("fees.json", fee_text [("0xAA", "0xBB")])].
Definition fees_empty : list (path * str) := [("fees.json", fee_text [])].
Definition fees_twice : list (path * str) :=
  [("fees.json", fee_text [("0xaa", "0xb1"); ("0xaa", "0xb2")])].

(** A server that answers every request with an empty JSON object. *)
Definition echo (s : unit) (req : Request) : option str * unit :=
  (Some "{}", s).


(** A node without state: it lists [keys], reports [fee] for each of them
    except those in [broken], whose read it fails, and accepts every write
    with an empty response. *)
Definition fixed_node (keys broken : list str) (fee : str)
           (s : unit) (req : Request) : option str * unit :=
  let is_for k := String.eqb (full_url req) (localhost ++ fee_path k) in
  match data req with
  | None =>
      if String.eqb (full_url req) (localhost ++ "/eth/v1/keystores")
      then (Some (keystores_response (mkNode keys [] fee)), s)
      else if existsb is_for broken then (None, s)
      else if existsb is_for keys then (Some (fee_response fee), s)
      else (None, s)
  | Some _ => (Some EmptyString, s)
  end.

(** A node that cannot be reached. *)
Definition unreachable (s : unit) (req : Request) : option str * unit :=
  (None, s).

Definition fees_aa_bb : list (path * str) :=
  [("fees.json", fee_text [("0xaa", "0xcc"); ("0xbb", "0xdd")])].

(** An entry without ethaddress. *)
Definition fees_incomplete : list (path * str) :=
  [("fees.json", "[{" ++ q "validating_pubkey" ++ ":" ++ q "0xaa" ++ "}]")].

(** Four keystore files; the pubkey of the first lacks the 0x prefix. *)
Definition four_keystores : list (path * str) :=
  [("bare.json", keystore_text "aa"); ("a.json", keystore_text "0xaa");
   ("b.json", keystore_text "0xbb"); ("c.json", keystore_text "0xcc")].

(** A node without state that lists [keys] and refuses every write. *)
Definition read_only_node (keys : list str)
           (s : unit) (req : Request) : option str * unit :=
  match data req with
  | None =>
      if String.eqb (full_url req) (localhost ++ "/eth/v1/keystores")
      then (Some (keystores_response (mkNode keys [] "0xcc")), s)
      else (None, s)
  | Some _ => (None, s)
  end.

(** The host given without http://. *)
Definition bare_host_args : Namespace :=
  mkNamespace (Some "localhost") (Some "secret") (ImportKeystores "pw" []).

(** A fee recipient file that holds an empty object. *)
Definition fees_object : list (path * str) := [("fees.json", "{}")].


(** * Facts about strings and JSON texts *)

Lemma append_assoc (a b c : string) : (a ++ b) ++ c = a ++ (b ++ c).
Proof. induction a as [|x a IH]; [reflexivity|]. cbn. now rewrite IH. Qed.

Lemma lower_char_idempotent c : lower_char (lower_char c) = lower_char c.
Proof. destruct c as [[] [] [] [] [] [] [] []]; reflexivity. Qed.

Lemma lower_idempotent s : lower (lower s) = lower s.
Proof.
  induction s as [|c s IH]; [reflexivity|].
  cbn. now rewrite lower_char_idempotent, IH.
Qed.

Lemma mem_In x l : mem x l = true <-> In x l.
Proof.
  unfold mem. rewrite existsb_exists. split.
  - intros (y & Hy & He). apply String.eqb_eq in He. now subst.
  - intros H. exists x. split; [exact H|apply String.eqb_refl].
Qed.

Lemma rmap_Forall {A B} (f : A -> result B) (P : B -> Prop) l ys :
  (forall x y, f x = Ok y -> P y) ->
  rmap f l = Ok ys -> Forall P ys.
Proof.
  intros Hf. revert ys. induction l as [|x l IH]; intros ys H.
  - injection H as <-. constructor.
  - cbn in H. destruct (f x) as [y|] eqn:Hy; [|discriminate].
    cbn in H. destruct (rmap f l) as [ys'|]; [|discriminate].
    injection H as <-. constructor; [eapply Hf; eassumption|now apply IH].
Qed.

(** The managed set holds lower-case strings only (lines 30 and 64). *)
Lemma managed_set_is_lower resp managed :
  managed_set resp = Ok managed -> Forall (fun x => lower x = x) managed.
Proof.
  unfold managed_set. intros H.
  destruct (getitem resp "data") as [d|]; [|discriminate].
  cbn [rbind] in H. destruct (py_iter d) as [items|]; [|discriminate].
  cbn [rbind] in H. eapply rmap_Forall; [|exact H].
  intros x y Hx. cbn beta in Hx.
  destruct (getitem x "validating_pubkey") as [v|]; [|discriminate].
  destruct v; try discriminate. injection Hx as <-. apply lower_idempotent.
Qed.

Lemma encode_printable s : printable s = true -> encode s = s.
Proof.
  induction s as [|c s IH]; [reflexivity|].
  cbn [printable encode]. intros H.
  apply andb_true_iff in H as [H1 H2]. apply andb_true_iff in H1 as [H0 H1].
  apply Nat.leb_le in H1.
  destruct (Nat.ltb_spec (nat_of_ascii c) 128); [|lia].
  now rewrite IH.
Qed.

Lemma printable_app a b : printable (a ++ b) = printable a && printable b.
Proof.
  induction a as [|c a IH]; [reflexivity|].
  cbn [append printable]. rewrite IH. now rewrite andb_assoc.
Qed.

(** [json.dumps] writes a string with printable ASCII characters only. *)
Lemma printable_escape s : printable (escape s) = true.
Proof.
  induction s as [|c s IH]; [reflexivity|].
  cbn [escape]. rewrite printable_app, IH, andb_true_r.
  destruct c as [[] [] [] [] [] [] [] []]; reflexivity.
Qed.

Lemma printable_dumps_str s : printable (dumps_str s) = true.
Proof.
  unfold dumps_str. cbn [printable]. rewrite printable_app, printable_escape.
  reflexivity.
Qed.

Lemma parse_string_unfold c r :
  parse_string (String c r)
  = if Ascii.eqb c dquote then Some (EmptyString, r)
    else if Ascii.eqb c backslash then
      match r with
      | String "u" (String "0" (String "0" (String a (String b r')))) =>
          match hex_value a, hex_value b, parse_string r' with
          | Some x, Some y, Some (t, rest) =>
              Some (String (ascii_of_nat (16 * x + y)) t, rest)
          | _, _, _ => None
          end
      | String e r' =>
          match unescape_simple e, parse_string r' with
          | Some c', Some (t, rest) => Some (String c' t, rest)
          | _, _ => None
          end
      | EmptyString => None
      end
    else if nat_of_ascii c <? 32 then None
    else
      match parse_string r with
      | Some (t, rest) => Some (String c t, rest)
      | None => None
      end.
Proof. reflexivity. Qed.

(** Reading back what [json.dumps] wrote for a string gives the string. *)
Lemma parse_string_escape t rest :
  parse_string (escape t ++ String dquote rest) = Some (t, rest).
Proof.
  induction t as [|c t IH]; [reflexivity|].
  cbn [escape].
  destruct c as [[] [] [] [] [] [] [] []];
    match goal with
    | |- context [escape_char ?c] =>
        let v := eval vm_compute in (escape_char c) in
        change (escape_char c) with v
    end;
    cbn [append]; rewrite parse_string_unfold; lazy beta iota;
    rewrite IH; reflexivity.
Qed.

(** The body of an import request, as text. *)
Lemma keystores_body_text text passwd :
  keystores_body text passwd
  = "{" ++ q "keystores" ++ ": [" ++ dumps_str text ++ "], "
        ++ q "passwords" ++ ": [" ++ dumps_str passwd ++ "]}".
Proof.
  unfold keystores_body. rewrite encode_printable.
  - cbn [json_dumps map fst snd join].
    rewrite !append_assoc. reflexivity.
  - cbn [json_dumps map fst snd join].
    rewrite !printable_app, !printable_dumps_str. reflexivity.
Qed.

(** Steps of the reference parser on the text of a request body. *)

Lemma skip_ws_stop c r : is_ws c = false -> skip_ws (String c r) = String c r.
Proof. intros H. cbn [skip_ws]. now rewrite H. Qed.

Lemma parse_value_space k s :
  parse_value (S k) (String " " s) = parse_value (S k) s.
Proof. reflexivity. Qed.

Lemma parse_members_space k s acc :
  parse_members (S k) (String " " s) acc = parse_members (S k) s acc.
Proof. reflexivity. Qed.

Lemma parse_value_string k t rest :
  parse_value (S k) (String dquote (escape t ++ String dquote rest))
  = Some (JStr t, rest).
Proof.
  change (parse_value (S k) (String dquote (escape t ++ String dquote rest)))
    with (match parse_string (escape t ++ String dquote rest) with
          | Some (t, r') => Some (JStr t, r')
          | None => None
          end).
  now rewrite parse_string_escape.
Qed.

Lemma parse_value_singleton k t rest :
  parse_value (S (S (S k)))
    (String "[" (String dquote (escape t ++ String dquote (String "]" rest))))
  = Some (JList [JStr t], rest).
Proof.
  change (parse_value (S (S (S k)))
            (String "[" (String dquote (escape t ++ String dquote (String "]" rest)))))
    with (match parse_value (S k)
                  (String dquote (escape t ++ String dquote (String "]" rest))) with
          | Some (v, r) =>
              match skip_ws r with
              | String "," r' => parse_elements (S k) r' ([] ++ [v])%list
              | String "]" r' => Some (JList ([] ++ [v])%list, r')
              | _ => None
              end
          | None => None
          end).
  rewrite parse_value_string. reflexivity.
Qed.

Lemma parse_value_object k R :
  parse_value (S k) (String "{" (String dquote R))
  = parse_members k (String dquote R) [].
Proof. reflexivity. Qed.

(** One member of an object: the key, a colon, the value. *)
Lemma parse_members_unfold k X key r2 acc :
  parse_string X = Some (key, String ":" r2) ->
  parse_members (S k) (String dquote X) acc
  = match parse_value k r2 with
    | Some (v, r3) =>
        match skip_ws r3 with
        | String "," r4 => parse_members k r4 (dict_set acc key v)
        | String "}" r4 => Some (JDict (dict_set acc key v), r4)
        | _ => None
        end
    | None => None
    end.
Proof.
  intros H.
  change (parse_members (S k) (String dquote X) acc)
    with (match parse_string X with
          | Some (key, r1) =>
              match skip_ws r1 with
              | String ":" r2 =>
                  match parse_value k r2 with
                  | Some (v, r3) =>
                      match skip_ws r3 with
                      | String "," r4 => parse_members k r4 (dict_set acc key v)
                      | String "}" r4 => Some (JDict (dict_set acc key v), r4)
                      | _ => None
                      end
                  | None => None
                  end
              | _ => None
              end
          | None => None
          end).
  rewrite H. rewrite (skip_ws_stop ":") by reflexivity. reflexivity.
Qed.

Ltac text_normal :=
  repeat (progress (cbn [append q chr String.length]; rewrite ?append_assoc)).

(** Parsed back, the body is an object with the file text as the one
    element of keystores and the password as the one element of
    passwords. *)
Lemma keystores_body_loads text passwd :
  json_loads_ref (keystores_body text passwd)
  = Some (JDict [("keystores", JList [JStr text]);
                 ("passwords", JList [JStr passwd])]).
Proof.
  rewrite keystores_body_text. unfold json_loads_ref, dumps_str.
  text_normal.
  rewrite parse_value_object.
  erewrite parse_members_unfold by exact (parse_string_escape "keystores" _).
  rewrite parse_value_space, parse_value_singleton.
  rewrite (skip_ws_stop ",") by reflexivity.
  rewrite parse_members_space.
  erewrite parse_members_unfold by exact (parse_string_escape "passwords" _).
  rewrite parse_value_space, parse_value_singleton.
  reflexivity.
Qed.

Lemma fee_body_text a :
  fee_body a = "{" ++ q "ethaddress" ++ ": " ++ dumps_str a ++ "}".
Proof.
  unfold fee_body. rewrite encode_printable.
  - cbn [json_dumps map fst snd join]. rewrite !append_assoc. reflexivity.
  - cbn [json_dumps map fst snd join].
    rewrite !printable_app, !printable_dumps_str. reflexivity.
Qed.

Lemma fee_body_loads a :
  json_loads_ref (fee_body a) = Some (JDict [("ethaddress", JStr a)]).
Proof.
  rewrite fee_body_text. unfold json_loads_ref, dumps_str.
  text_normal.
  rewrite parse_value_object.
  erewrite parse_members_unfold by exact (parse_string_escape "ethaddress" _).
  rewrite parse_value_space, parse_value_string.
  reflexivity.
Qed.

Lemma fee_response_loads a :
  json_loads_ref (fee_response a)
  = Some (JDict [("data", JDict [("ethaddress", JStr a)])]).
Proof.
  unfold fee_response, json_loads_ref.
  cbn [json_dumps map fst snd join]. unfold dumps_str.
  change (escape "data") with "data".
  change (escape "ethaddress") with "ethaddress".
  text_normal.
  rewrite parse_value_object.
  erewrite parse_members_unfold by exact (parse_string_escape "data" _).
  rewrite parse_value_space, parse_value_object.
  erewrite parse_members_unfold by exact (parse_string_escape "ethaddress" _).
  rewrite parse_value_space, parse_value_string.
  reflexivity.
Qed.

Lemma assoc_get_set l k v : assoc_get (assoc_set l k v) k = Some v.
Proof.
  induction l as [|[k' v'] l IH]; cbn.
  - now rewrite String.eqb_refl.
  - destruct (String.eqb k' k) eqn:E; cbn; rewrite E; [reflexivity|exact IH].
Qed.

Lemma posted_ethaddress_fee_body a : posted_ethaddress (fee_body a) = Some a.
Proof. unfold posted_ethaddress. now rewrite fee_body_loads. Qed.

(** The specification's normalization is the code's. *)
Lemma with_0x_prefix_startswith raw :
  with_0x_prefix raw = if startswith raw "0x" then raw else "0x" ++ raw.
Proof.
  destruct raw as [|c1 r]; [reflexivity|].
  destruct c1 as [[] [] [] [] [] [] [] []]; try reflexivity.
  destruct r as [|c2 r]; [reflexivity|].
  destruct c2 as [[] [] [] [] [] [] [] []]; try reflexivity.
  now destruct r.
Qed.

Lemma mem_in_dec x l :
  mem x l = if in_dec string_dec x l then true else false.
Proof.
  destruct (in_dec string_dec x l) as [H|H].
  - now apply mem_In.
  - destruct (mem x l) eqn:E; [|reflexivity]. now apply mem_In in E.
Qed.

Lemma mem_singleton x y : mem x [y] = true -> x = y.
Proof. cbn. rewrite orb_false_r. apply String.eqb_eq. Qed.

(** * Properties *)

Section Properties.

Variable json_loads : str -> option value.
Variable set_iter : list str -> list str.
Variable read_text : path -> option str.
Variable Srv : Type.
Variable serve : Srv -> Request -> option str * Srv.
Context {url_check : UrlCheck}.

Local Abbreviation request_ := (request json_loads serve).
Local Abbreviation main_ := (main json_loads set_iter read_text serve).

(** ** The request helper *)

Lemma build_request_url args resource d :
  full_url (build_request args resource d) = fmt (host args) ++ resource.
Proof. unfold build_request, add_headers. destruct (truthy d); reflexivity. Qed.

Lemma build_request_data args resource d :
  data (build_request args resource d) = d.
Proof. unfold build_request, add_headers. destruct (truthy d); reflexivity. Qed.

Lemma build_request_method args resource d :
  get_method (build_request args resource d)
  = match d with Some _ => POST | None => GET end.
Proof. unfold get_method. now rewrite build_request_data. Qed.

(** Once the constructor has accepted the URL, the call is the exchange
    with the node and the reading of its answer (lines 16-21). *)
Lemma request_accepted args resource d s :
  Request_accepts (fmt (host args) ++ resource) = true ->
  request_ args resource d s
  = bind (urlopen serve (build_request args resource d))
         (fun content_str =>
            if truthy d then ret (JStr content_str)
            else loads json_loads content_str) s.
Proof.
  intros H. unfold request, new_Request. rewrite H.
  unfold bind at 1. unfold lift at 1.
  fold (build_request args resource d).
  match goal with |- _ = ?x => destruct x as [[r s'] t] end.
  reflexivity.
Qed.

(** A URL that the constructor refuses: ValueError, and nothing is sent. *)
Lemma request_refused args resource d s :
  Request_accepts (fmt (host args) ++ resource) = false ->
  request_ args resource d s = (Exn ValueError, s, []).
Proof.
  intros H. unfold request, new_Request, bind, lift. now rewrite H.
Qed.

Lemma request_trace args resource d s :
  snd (request_ args resource d s)
  = if Request_accepts (fmt (host args) ++ resource)
    then [Http (build_request args resource d)] else [].
Proof.
  destruct (Request_accepts (fmt (host args) ++ resource)) eqn:H.
  - rewrite (request_accepted _ _ _ _ H). unfold bind, urlopen.
    destruct (serve s (build_request args resource d)) as [[txt|] s'];
      [|reflexivity].
    destruct (truthy d); cbn; [reflexivity|].
    unfold loads, lift. reflexivity.
  - now rewrite (request_refused _ _ _ _ H).
Qed.

(** An accepted call without body that the node answers with [txt]. *)
Lemma request_get args resource s txt s' :
  Request_accepts (fmt (host args) ++ resource) = true ->
  serve s (build_request args resource None) = (Some txt, s') ->
  request_ args resource None s
  = (match json_loads txt with
     | Some v => Ok v
     | None => Exn JSONDecodeError
     end, s', [Http (build_request args resource None)]).
Proof.
  intros H Hs. rewrite (request_accepted _ _ _ _ H).
  unfold bind, urlopen. rewrite Hs. cbn. unfold loads, lift. reflexivity.
Qed.

(** An accepted call with a body: what the node says decides. *)
Lemma request_post args resource d s :
  Request_accepts (fmt (host args) ++ resource) = true ->
  truthy d = true ->
  request_ args resource d s
  = match serve s (build_request args resource d) with
    | (Some txt, s') =>
        (Ok (JStr txt), s', [Http (build_request args resource d)])
    | (None, s') =>
        (Exn URLError, s', [Http (build_request args resource d)])
    end.
Proof.
  intros H Hd. rewrite (request_accepted _ _ _ _ H).
  unfold bind, urlopen. rewrite Hd.
  destruct (serve s _) as [[txt|] s']; reflexivity.
Qed.

(** An accepted call that the node fails. *)
Lemma request_fails args resource d s s' :
  Request_accepts (fmt (host args) ++ resource) = true ->
  serve s (build_request args resource d) = (None, s') ->
  request_ args resource d s
  = (Exn URLError, s', [Http (build_request args resource d)]).
Proof.
  intros H Hs. rewrite (request_accepted _ _ _ _ H).
  unfold bind, urlopen. now rewrite Hs.
Qed.

(** C7 (amended): every call builds one request, to host + path, with the
    header authorization: Bearer <token>; the request is sent when urllib's
    constructor accepts the URL, and the call raises ValueError and sends
    nothing when it does not.  With a non-empty body the method is POST, the
    headers include accept: */* and content-type: application/json, and the
    decoded response text is returned as it is.  With no body the method is
    GET, the accept header is application/json, and the response text goes
    through the JSON parser, whose value (or failure) is the result. *)
Theorem request_contract args resource d s :
  let req := build_request args resource d in
  let accepted := Request_accepts (fmt (host args) ++ resource) in
  snd (request_ args resource d s) = (if accepted then [Http req] else [])
  /\ (accepted = false -> request_ args resource d s = (Exn ValueError, s, []))
  /\ full_url req = fmt (host args) ++ resource
  /\ In ("authorization", "Bearer " ++ fmt (auth args)) (headers req)
  /\ (forall b, d = Some b -> b <> EmptyString ->
      get_method req = POST
      /\ In ("accept", "*/*") (headers req)
      /\ In ("content-type", "application/json") (headers req)
      /\ forall txt s', serve s req = (Some txt, s') ->
           request_ args resource d s
           = if accepted then (Ok (JStr txt), s', [Http req])
             else (Exn ValueError, s, []))
  /\ (d = None ->
      get_method req = GET
      /\ headers req = [("authorization", "Bearer " ++ fmt (auth args));
                        ("accept", "application/json")]
      /\ forall txt s', serve s req = (Some txt, s') ->
           request_ args resource d s
           = if accepted
             then (match json_loads txt with
                   | Some v => Ok v
                   | None => Exn JSONDecodeError
                   end, s', [Http req])
             else (Exn ValueError, s, [])).
Proof.
  cbv zeta. split; [apply request_trace|].
  split; [apply request_refused|].
  split; [apply build_request_url|].
  split.
  { unfold build_request, add_headers. destruct (truthy d); cbn; auto. }
  split.
  - intros b Hd Hb.
    assert (Ht : truthy d = true).
    { subst d. destruct b; [congruence|reflexivity]. }
    split; [now rewrite build_request_method, Hd|].
    split; [unfold build_request, add_headers; rewrite Ht; cbn; auto|].
    split; [unfold build_request, add_headers; rewrite Ht; cbn; auto|].
    intros txt s' Hs.
    destruct (Request_accepts (fmt (host args) ++ resource)) eqn:H;
      [|now apply request_refused].
    rewrite (request_post _ _ _ _ H Ht). now rewrite Hs.
  - intros ->. repeat split.
    intros txt s' Hs.
    destruct (Request_accepts (fmt (host args) ++ resource)) eqn:H;
      [now apply request_get|now apply request_refused].
Qed.

(** ** The top-level script *)

(** C8: when the host, or the auth token, comes neither from its flag nor
    from its environment variable, the script reports a usage error and
    exits with code 2; the remote state is untouched and the only effect is
    the usage message: no subcommand ran, no request was sent. *)
Theorem missing_host_or_auth_is_usage_error environ cl s :
  (host_flag cl = None /\ environ api_host_env_key = None)
  \/ (auth_flag cl = None /\ environ api_auth_env_key = None) ->
  main_ environ cl s = (2%Z, s, [Usage usage_message])
  /\ filter is_http (snd (main_ environ cl s)) = [].
Proof.
  intros H.
  assert (E : main_ environ cl s = (2%Z, s, [Usage usage_message])).
  { unfold main, parse_args; cbn.
    destruct H as [[-> ->] | [-> ->]]; cbn.
    - now rewrite orb_true_r.
    - reflexivity. }
  rewrite E. split; reflexivity.
Qed.

(** ** The monad *)

Lemma bind_Ok {A B} (m : M Srv A) (f : A -> M Srv B) s a s1 t1 :
  m s = (Ok a, s1, t1) ->
  bind m f s = (fst (fst (f a s1)), snd (fst (f a s1)), (t1 ++ snd (f a s1))%list).
Proof.
  intros H. unfold bind. rewrite H. destruct (f a s1) as [[r s2] t2]. reflexivity.
Qed.

Lemma bind_run {A B} (m : M Srv A) (f : A -> M Srv B) s a s1 t1 r s2 t2 :
  m s = (Ok a, s1, t1) ->
  f a s1 = (r, s2, t2) ->
  bind m f s = (r, s2, (t1 ++ t2)%list).
Proof. intros H1 H2. unfold bind. now rewrite H1, H2. Qed.

Lemma bind_Exn {A B} (m : M Srv A) (f : A -> M Srv B) s e s1 t1 :
  m s = (Exn e, s1, t1) -> bind m f s = (Exn e, s1, t1).
Proof. intros H. unfold bind. now rewrite H. Qed.

Lemma filter_app_nil {A} (f : A -> bool) (l1 l2 : list A) :
  filter f l1 = [] -> filter f (l1 ++ l2) = filter f l2.
Proof. intros H. now rewrite filter_app, H. Qed.

(** Printing the managed set sends nothing and cannot fail. *)
Lemma iter_print (l : list str) (s : Srv) :
  iter l print s = (Ok tt, s, map Stdout l).
Proof.
  induction l as [|x l IH]; [reflexivity|].
  cbn [iter]. unfold bind. cbn. rewrite IH. reflexivity.
Qed.

Lemma writes_Stdout (l : list str) : writes (map Stdout l) = [].
Proof. induction l; cbn; auto. Qed.

Lemma reads_Stdout (l : list str) : reads (map Stdout l) = [].
Proof. induction l; cbn; auto. Qed.

Lemma http_Stdout (l : list str) : filter is_http (map Stdout l) = [].
Proof. induction l; cbn; auto. Qed.

(** The listing request and the lines that show its result (lines 29-33 and
    63-67). *)
Lemma request_listing args s managed s1 :
  lists_keystores json_loads serve args s managed s1 ->
  exists resp,
    request_ args "/eth/v1/keystores" None s
    = (Ok resp, s1, [Http (listing_request args)])
    /\ managed_set resp = Ok managed.
Proof.
  intros (Hacc & txt & resp & Hs & Hj & Hm). exists resp. split; [|exact Hm].
  unfold listing_request. rewrite (request_get _ _ _ _ _ Hacc Hs), Hj.
  reflexivity.
Qed.

Lemma lists_keystores_accepted args s managed s1 :
  lists_keystores json_loads serve args s managed s1 ->
  Request_accepts (fmt (host args) ++ "/eth/v1/keystores") = true.
Proof. now intros (Hacc & _). Qed.

Lemma keystores_body_truthy text passwd :
  truthy (Some (keystores_body text passwd)) = true.
Proof. reflexivity. Qed.

Lemma fee_body_truthy a : truthy (Some (fee_body a)) = true.
Proof. reflexivity. Qed.

(** ** Keystore import: one file *)

Local Abbreviation keystore_of_ := (keystore_of json_loads read_text).
Local Abbreviation already_managed_ := (already_managed json_loads read_text).
Local Abbreviation import_file_ := (import_file json_loads read_text serve).
Local Abbreviation import_keystores_ :=
  (import_keystores json_loads set_iter read_text serve).

Lemma keystore_of_inv p text pubkey :
  keystore_of_ p = Some (text, pubkey) ->
  exists d, read_text p = Some text /\ json_loads text = Some d
            /\ keystore_pubkey d = Ok pubkey.
Proof.
  unfold keystore_of.
  destruct (read_text p) as [t|]; [|discriminate].
  destruct (json_loads t) as [d|] eqn:Hd; [|discriminate].
  destruct (keystore_pubkey d) as [k|] eqn:Hk; [|discriminate].
  intros [= <- <-]. now exists d.
Qed.

(** A file whose pubkey is managed: three lines, no request. *)
Lemma import_file_skip args passwd managed p text pubkey s :
  keystore_of_ p = Some (text, pubkey) ->
  mem pubkey managed = true ->
  import_file_ args passwd managed p s
  = (Ok tt, s,
     [Stdout thematic_break;
      Stdout ("Importing " ++ pubkey ++ "...");
      Stdout "The node already manages this validating pubkey. Skipping this one."]).
Proof.
  intros H Hm. apply keystore_of_inv in H as (d & Hr & Hj & Hk).
  unfold import_file, bind, print, emit, read_file, loads, lift.
  rewrite Hr, Hj, Hk, Hm. reflexivity.
Qed.

(** A file whose pubkey is not managed: one POST carrying its text. *)
Lemma import_file_new args passwd managed p text pubkey s :
  Request_accepts (fmt (host args) ++ "/eth/v1/keystores") = true ->
  keystore_of_ p = Some (text, pubkey) ->
  mem pubkey managed = false ->
  import_file_ args passwd managed p s
  = match serve s (import_request args passwd text) with
    | (Some _, s') =>
        (Ok tt, s',
         [Stdout thematic_break;
          Stdout ("Importing " ++ pubkey ++ "...");
          Http (import_request args passwd text);
          Stdout "Keystore imported"])
    | (None, s') =>
        (Exn URLError, s',
         [Stdout thematic_break;
          Stdout ("Importing " ++ pubkey ++ "...");
          Http (import_request args passwd text)])
    end.
Proof.
  intros Hacc H Hm. apply keystore_of_inv in H as (d & Hr & Hj & Hk).
  unfold import_file, bind, print, emit, read_file, loads, lift.
  rewrite Hr, Hj, Hk, Hm.
  rewrite (request_post _ _ _ _ Hacc (keystores_body_truthy text passwd)).
  unfold import_request.
  destruct (serve s _) as [[txt|] s']; reflexivity.
Qed.

(** The same file when the constructor refuses the URL: nothing is sent. *)
Lemma import_file_refused args passwd managed p text pubkey s :
  Request_accepts (fmt (host args) ++ "/eth/v1/keystores") = false ->
  keystore_of_ p = Some (text, pubkey) ->
  mem pubkey managed = false ->
  import_file_ args passwd managed p s
  = (Exn ValueError, s,
     [Stdout thematic_break; Stdout ("Importing " ++ pubkey ++ "...")]).
Proof.
  intros Hacc H Hm. apply keystore_of_inv in H as (d & Hr & Hj & Hk).
  unfold import_file, bind, print, emit, read_file, loads, lift.
  rewrite Hr, Hj, Hk, Hm.
  now rewrite (request_refused _ _ _ _ Hacc).
Qed.

(** ** Keystore import: the loop and the whole workflow *)

Local Abbreviation import_requests_ := (import_requests json_loads read_text).
Local Abbreviation well_formed_keystores_ :=
  (well_formed_keystores json_loads read_text).
Local Abbreviation accepts_imports_ :=
  (accepts_imports json_loads read_text serve).

Lemma import_requests_are_writes args passwd managed ks :
  writes (import_requests_ args passwd managed ks)
  = import_requests_ args passwd managed ks
  /\ reads (import_requests_ args passwd managed ks) = [].
Proof.
  induction ks as [|p ks [IHw IHr]]; [split; reflexivity|].
  unfold import_requests in *. cbn [flat_map].
  unfold writes, reads in *. rewrite !filter_app, IHw, IHr.
  destruct (keystore_of_ p) as [[text pk]|]; [|split; reflexivity].
  destruct (mem pk managed); split; reflexivity.
Qed.

Lemma import_requests_length args passwd managed ks :
  well_formed_keystores_ ks ->
  length (import_requests_ args passwd managed ks)
  = length ks - length (filter (already_managed_ managed) ks).
Proof.
  induction 1 as [|p ks Hp _ IH]; [reflexivity|].
  unfold import_requests in *. cbn [flat_map filter].
  rewrite length_app, IH. unfold already_managed at 2.
  destruct (keystore_of_ p) as [[text pk]|]; [|congruence].
  assert (length (filter (already_managed_ managed) ks) <= length ks)
    by apply filter_length_le.
  destruct (mem pk managed); cbn [length]; lia.
Qed.

Lemma import_loop args passwd managed ks :
  Request_accepts (fmt (host args) ++ "/eth/v1/keystores") = true ->
  accepts_imports_ args passwd managed ks ->
  well_formed_keystores_ ks ->
  forall s, exists s' t,
    iter ks (import_file_ args passwd managed) s = (Ok tt, s', t)
    /\ filter is_http t = import_requests_ args passwd managed ks.
Proof.
  intros Hurl Hacc Hwf. induction Hwf as [|p ks Hp _ IH]; intros s.
  - exists s, []. split; reflexivity.
  - assert (Hacc' : accepts_imports_ args passwd managed ks).
    { intros s0 p0 text0 pk0 Hin. apply Hacc. now right. }
    specialize (IH Hacc').
    destruct (keystore_of_ p) as [[text pk]|] eqn:Hk; [|congruence].
    unfold import_requests. cbn [flat_map iter]. rewrite Hk.
    destruct (mem pk managed) eqn:Hm.
    + destruct (IH s) as (s' & t & Hrun & Ht).
      eexists s', _. split.
      * eapply bind_run; [|exact Hrun].
        eapply import_file_skip; eassumption.
      * cbn. exact Ht.
    + destruct (Hacc s p text pk (or_introl eq_refl) Hk Hm)
        as (txt & s1 & Hs).
      destruct (IH s1) as (s' & t & Hrun & Ht).
      eexists s', _. split.
      * eapply bind_run; [|exact Hrun].
        erewrite import_file_new by eassumption. rewrite Hs. reflexivity.
      * cbn. now rewrite Ht.
Qed.

(** The whole import: the listing request first, then one write per file
    that is not managed, the success summary last, exit code 0. *)
Lemma import_run args passwd ks s managed s1 :
  lists_keystores json_loads serve args s managed s1 ->
  accepts_imports_ args passwd managed ks ->
  well_formed_keystores_ ks ->
  exists s' t,
    import_keystores_ args passwd ks s
    = (Ok 0%Z, s',
       (Http (listing_request args) :: t
        ++ [Stdout thematic_break; Stdout "Success. All keystores imported."])%list)
    /\ filter is_http t = import_requests_ args passwd managed ks.
Proof.
  intros Hl Hacc Hwf.
  destruct (request_listing _ _ _ _ Hl) as (resp & Hreq & Hm).
  destruct (import_loop args passwd managed ks
              (lists_keystores_accepted _ _ _ _ Hl) Hacc Hwf s1)
    as (s' & t & Hrun & Ht).
  exists s'.
  exists ((Stdout "The node manages the following validators:"
           :: map Stdout (set_iter managed)) ++ t)%list.
  split.
  - unfold import_keystores.
    eapply eq_trans.
    { eapply bind_run; [exact Hreq|].
      eapply bind_run; [unfold lift; rewrite Hm; reflexivity|].
      eapply bind_run; [reflexivity|].
      eapply bind_run; [apply iter_print|].
      eapply bind_run; [exact Hrun|].
      reflexivity. }
    cbn [app]. rewrite <- !app_assoc. reflexivity.
  - rewrite filter_app. cbn. rewrite http_Stdout. exact Ht.
Qed.

Lemma writes_of_http t : writes t = writes (filter is_http t).
Proof.
  unfold writes. induction t as [|e t IH]; [reflexivity|].
  destruct e; cbn; try exact IH.
  destruct (get_method req); cbn; now rewrite IH.
Qed.

Lemma reads_of_http t : reads t = reads (filter is_http t).
Proof.
  unfold reads. induction t as [|e t IH]; [reflexivity|].
  destruct e; cbn; try exact IH.
  destruct (get_method req); cbn; now rewrite IH.
Qed.

Lemma listing_request_is_read args :
  get_method (listing_request args) = GET.
Proof. unfold listing_request. now rewrite build_request_method. Qed.

Lemma import_request_is_write args passwd text :
  get_method (import_request args passwd text) = POST.
Proof. unfold import_request. now rewrite build_request_method. Qed.

(** The requests of a whole import, reads and writes apart. *)
Lemma import_run_requests args passwd ks s managed s1 :
  lists_keystores json_loads serve args s managed s1 ->
  accepts_imports_ args passwd managed ks ->
  well_formed_keystores_ ks ->
  exists s' t,
    import_keystores_ args passwd ks s
    = (Ok 0%Z, s',
       (Http (listing_request args) :: t
        ++ [Stdout thematic_break; Stdout "Success. All keystores imported."])%list)
    /\ reads (Http (listing_request args) :: t
              ++ [Stdout thematic_break;
                  Stdout "Success. All keystores imported."])
       = [Http (listing_request args)]
    /\ writes (Http (listing_request args) :: t
               ++ [Stdout thematic_break;
                   Stdout "Success. All keystores imported."])
       = import_requests_ args passwd managed ks.
Proof.
  intros Hl Hacc Hwf.
  destruct (import_run args passwd ks s managed s1 Hl Hacc Hwf)
    as (s' & t & Hrun & Ht).
  exists s', t. split; [exact Hrun|].
  destruct (import_requests_are_writes args passwd managed ks) as [Hw Hr].
  split.
  - rewrite reads_of_http. cbn [filter is_http]. rewrite filter_app, Ht.
    cbn [filter is_http]. rewrite app_nil_r.
    unfold reads at 1. cbn [filter is_read].
    rewrite listing_request_is_read. fold (reads (import_requests_ args passwd managed ks)).
    now rewrite Hr.
  - rewrite writes_of_http. cbn [filter is_http]. rewrite filter_app, Ht.
    cbn [filter is_http]. rewrite app_nil_r.
    unfold writes at 1. cbn [filter is_write].
    rewrite listing_request_is_read. exact Hw.
Qed.

Lemma filter_length_Permutation {A} (f : A -> bool) (l l' : list A) :
  Permutation l l' -> length (filter f l) = length (filter f l').
Proof.
  induction 1 as [|x l l' _ IH|x y l|l l' l'' _ IH1 _ IH2]; cbn.
  - reflexivity.
  - destruct (f x); cbn; now rewrite IH.
  - destruct (f x), (f y); reflexivity.
  - now rewrite IH1.
Qed.

Lemma well_formed_Permutation ks ks' :
  Permutation ks ks' ->
  well_formed_keystores_ ks -> well_formed_keystores_ ks'.
Proof.
  unfold well_formed_keystores. rewrite !Forall_forall.
  intros HP H p Hp. apply H. eapply Permutation_in; [|exact Hp].
  now apply Permutation_sym.
Qed.

(** C4: for a keystore file that is imported, the loop body sends exactly
    one request (and none when urllib's constructor refuses the URL): a POST
    to host + /eth/v1/keystores whose body is the UTF-8 encoding of
    json.dumps of the dict with keystores = [text] and passwords =
    [keystore_passwd], where [text] is the text read from the file, not a
    serialization of the parsed document.  As text the body is the object
    written below, and parsed back it gives a keystores list of length one
    holding [text] itself and a passwords list holding the one password. *)
Theorem imported_keystore_carries_raw_text
        args passwd managed p text pubkey s :
  keystore_of_ p = Some (text, pubkey) ->
  mem pubkey managed = false ->
  let req := import_request args passwd text in
  read_text p = Some text
  /\ filter is_http (snd (import_file_ args passwd managed p s))
     = (if Request_accepts (fmt (host args) ++ "/eth/v1/keystores")
        then [Http req] else [])
  /\ get_method req = POST
  /\ full_url req = fmt (host args) ++ "/eth/v1/keystores"
  /\ data req
     = Some (encode (json_dumps
                       (JDict [("keystores", JList [JStr text]);
                               ("passwords", JList [JStr passwd])])))
  /\ data req
     = Some ("{" ++ q "keystores" ++ ": [" ++ dumps_str text ++ "], "
                 ++ q "passwords" ++ ": [" ++ dumps_str passwd ++ "]}")
  /\ exists body,
       data req = Some body
       /\ json_loads_ref body
          = Some (JDict [("keystores", JList [JStr text]);
                         ("passwords", JList [JStr passwd])]).
Proof.
  intros Hk Hm req.
  destruct (keystore_of_inv _ _ _ Hk) as (d & Hr & _).
  split; [exact Hr|]. split.
  { destruct (Request_accepts (fmt (host args) ++ "/eth/v1/keystores"))
      eqn:Hacc.
    - rewrite (import_file_new args passwd managed p text pubkey s Hacc Hk Hm).
      fold req. destruct (serve s req) as [[txt|] s']; reflexivity.
    - now rewrite (import_file_refused args passwd managed p text pubkey s
                     Hacc Hk Hm). }
  split; [apply import_request_is_write|].
  split; [apply build_request_url|].
  assert (Hd : data req = Some (keystores_body text passwd))
    by apply build_request_data.
  split; [exact Hd|].
  split; [now rewrite Hd, keystores_body_text|].
  exists (keystores_body text passwd). split; [exact Hd|].
  apply keystores_body_loads.
Qed.

(** The managed set is lower case, the pubkey of a file is taken as it is:
    a file whose pubkey has a capital letter is never found in the set. *)
Lemma capital_pubkey_is_not_found args s managed s1 pubkey :
  lists_keystores json_loads serve args s managed s1 ->
  lower pubkey <> pubkey ->
  mem pubkey managed = false.
Proof.
  intros (_ & txt & resp & _ & _ & Hm) Hne.
  destruct (mem pubkey managed) eqn:E; [|reflexivity].
  apply mem_In in E. apply managed_set_is_lower in Hm.
  rewrite Forall_forall in Hm. now apply Hm in E.
Qed.


(** *** The code against the specification's words *)

Local Abbreviation spec_pubkey_ := (spec_pubkey json_loads read_text).
Local Abbreviation spec_already_managed_ :=
  (spec_already_managed json_loads read_text).
Local Abbreviation spec_import_requests_ :=
  (spec_import_requests json_loads read_text).
Local Abbreviation accepts_new_keystores_ :=
  (accepts_new_keystores json_loads read_text serve).

(** What the import loop takes from a file is the file's text and the
    pubkey that the specification describes. *)
Lemma keystore_of_spec p :
  keystore_of_ p
  = match read_text p, spec_pubkey_ p with
    | Some text, Some pubkey => Some (text, pubkey)
    | _, _ => None
    end.
Proof.
  unfold keystore_of, spec_pubkey.
  destruct (read_text p) as [text|]; [|reflexivity].
  destruct (json_loads text) as [v|]; [|reflexivity].
  destruct v as [| | | | |l|d]; try reflexivity.
  unfold keystore_pubkey, getitem.
  destruct (dict_get d "pubkey") as [[| | | |raw| |]|]; try reflexivity.
  cbn [rbind]. now rewrite with_0x_prefix_startswith.
Qed.

Lemma spec_pubkey_read p pubkey :
  spec_pubkey_ p = Some pubkey -> exists text, read_text p = Some text.
Proof.
  unfold spec_pubkey. destruct (read_text p) as [text|]; [|discriminate].
  intros _. now exists text.
Qed.

Lemma already_managed_spec managed p :
  already_managed_ managed p = spec_already_managed_ managed p.
Proof.
  unfold already_managed, spec_already_managed. rewrite keystore_of_spec.
  destruct (spec_pubkey_ p) as [pk|] eqn:E.
  - destruct (spec_pubkey_read _ _ E) as (text & ->). apply mem_in_dec.
  - now destruct (read_text p).
Qed.

Lemma import_requests_spec args passwd managed ks :
  import_requests_ args passwd managed ks
  = spec_import_requests_ args passwd managed ks.
Proof.
  unfold import_requests, spec_import_requests.
  induction ks as [|p ks IH]; [reflexivity|].
  cbn [flat_map]. rewrite IH, keystore_of_spec. f_equal.
  destruct (read_text p) as [text|]; [|reflexivity].
  destruct (spec_pubkey_ p) as [pk|]; [|reflexivity].
  rewrite mem_in_dec. now destruct (in_dec string_dec pk managed).
Qed.

Lemma well_formed_spec ks :
  Forall (fun p => spec_pubkey_ p <> None) ks -> well_formed_keystores_ ks.
Proof.
  unfold well_formed_keystores. apply Forall_impl. intros p H.
  rewrite keystore_of_spec.
  destruct (spec_pubkey_ p) as [pk|] eqn:E; [|congruence].
  destruct (spec_pubkey_read _ _ E) as (text & ->). discriminate.
Qed.

Lemma spec_well_formed ks :
  well_formed_keystores_ ks -> Forall (fun p => spec_pubkey_ p <> None) ks.
Proof.
  unfold well_formed_keystores. apply Forall_impl. intros p H.
  rewrite keystore_of_spec in H.
  destruct (spec_pubkey_ p); [discriminate|].
  now destruct (read_text p).
Qed.

Lemma accepts_new_keystores_imports args passwd managed ks :
  accepts_new_keystores_ args passwd managed ks ->
  accepts_imports_ args passwd managed ks.
Proof.
  intros H s p text pk Hin Hk Hm. rewrite keystore_of_spec in Hk.
  destruct (read_text p) as [text'|] eqn:Hr; [|discriminate].
  destruct (spec_pubkey_ p) as [pk'|] eqn:Hp; [|discriminate].
  injection Hk as -> ->.
  apply (H s p text pk Hin Hr Hp).
  intros Hin'. apply mem_In in Hin'. congruence.
Qed.


(** C9: the managed set is fetched by the first request of the import and
    by no other (the listing request is the only read), and the write
    requests are decided against that one set, whatever the node answers or
    becomes afterwards: when two files further down the command line hold
    the same pubkey and the fetched set lacks it, each of the two gets a
    write request of its own. *)
Theorem managed_set_is_fetched_once args passwd ks s managed s1 :
  lists_keystores json_loads serve args s managed s1 ->
  accepts_imports_ args passwd managed ks ->
  well_formed_keystores_ ks ->
  exists s' t,
    import_keystores_ args passwd ks s
    = (Ok 0%Z, s', Http (listing_request args) :: t)
    /\ reads (Http (listing_request args) :: t) = [Http (listing_request args)]
    /\ writes (Http (listing_request args) :: t)
       = import_requests_ args passwd managed ks
    /\ forall ks1 p ks2 p' ks3 text text' pubkey,
         ks = (ks1 ++ p :: ks2 ++ p' :: ks3)%list ->
         keystore_of_ p = Some (text, pubkey) ->
         keystore_of_ p' = Some (text', pubkey) ->
         mem pubkey managed = false ->
         exists w1 w2 w3,
           writes (Http (listing_request args) :: t)
           = (w1 ++ Http (import_request args passwd text)
                 :: w2 ++ Http (import_request args passwd text') :: w3)%list.
Proof.
  intros Hl Hacc Hwf.
  destruct (import_run_requests args passwd ks s managed s1 Hl Hacc Hwf)
    as (s' & t & Hrun & Hr & Hw).
  eexists s', _. split; [exact Hrun|]. split; [exact Hr|].
  split; [exact Hw|].
  intros ks1 p ks2 p' ks3 text text' pk -> Hk Hk' Hm. rewrite Hw.
  exists (import_requests_ args passwd managed ks1),
         (import_requests_ args passwd managed ks2),
         (import_requests_ args passwd managed ks3).
  unfold import_requests.
  rewrite flat_map_app. cbn [flat_map]. rewrite Hk, Hm.
  rewrite flat_map_app. cbn [flat_map]. rewrite Hk', Hm.
  reflexivity.
Qed.

(** C6: a keystore file whose pubkey, with 0x put in front when it does
    not start with it, is in the managed set is skipped: the loop body
    prints the separator, the Importing line and the skip notice, sends
    nothing, leaves the node as it is, and ends normally, so that the loop
    goes on.  An import of that file alone sends the listing request only,
    prints the skip notice and the success summary, and returns 0. *)
Theorem managed_keystore_is_skipped args passwd managed p text d raw :
  read_text p = Some text ->
  json_loads text = Some d ->
  getitem d "pubkey" = Ok (JStr raw) ->
  let pubkey := if startswith raw "0x" then raw else "0x" ++ raw in
  mem pubkey managed = true ->
  (forall s,
      import_file_ args passwd managed p s
      = (Ok tt, s,
         [Stdout thematic_break;
          Stdout ("Importing " ++ pubkey ++ "...");
          Stdout "The node already manages this validating pubkey. Skipping this one."]))
  /\ (forall s s1,
        lists_keystores json_loads serve args s managed s1 ->
        import_keystores_ args passwd [p] s
        = (Ok 0%Z, s1,
           Http (listing_request args)
           :: Stdout "The node manages the following validators:"
           :: app (map Stdout (set_iter managed))
                [Stdout thematic_break;
                 Stdout ("Importing " ++ pubkey ++ "...");
                 Stdout "The node already manages this validating pubkey. Skipping this one.";
                 Stdout thematic_break;
                 Stdout "Success. All keystores imported."])
        /\ writes (snd (import_keystores_ args passwd [p] s)) = []).
Proof.
  intros Hr Hj Hg pubkey Hm.
  assert (Hk : keystore_of_ p = Some (text, pubkey)).
  { unfold keystore_of, keystore_pubkey. now rewrite Hr, Hj, Hg. }
  assert (Hskip := fun s => import_file_skip args passwd managed p text pubkey s Hk Hm).
  split; [exact Hskip|].
  intros s s1 Hl.
  destruct (request_listing _ _ _ _ Hl) as (resp & Hreq & Hms).
  match goal with |- ?x = ?y /\ _ => assert (E : x = y) end.
  { unfold import_keystores.
    eapply eq_trans.
    { eapply bind_run; [exact Hreq|].
      eapply bind_run; [unfold lift; rewrite Hms; reflexivity|].
      eapply bind_run; [reflexivity|].
      eapply bind_run; [apply iter_print|].
      eapply bind_run.
      { cbn [iter]. eapply bind_run; [apply Hskip|reflexivity]. }
      reflexivity. }
    cbn [app]. reflexivity. }
  split; [exact E|].
  rewrite E. cbn [snd]. rewrite writes_of_http. cbn [filter is_http].
  rewrite filter_app, http_Stdout. reflexivity.
Qed.

(** ** Fee recipient synchronization *)

Local Abbreviation fee_entries_ := (fee_entries json_loads read_text).
Local Abbreviation sync_entry_ := (sync_entry json_loads serve).
Local Abbreviation set_fee_recipients_ :=
  (set_fee_recipients json_loads set_iter read_text serve).

(** The validation loop stops at the first entry that is not managed. *)
Lemma check_loop managed es (s : Srv) :
  iter_ret es (check_managed managed) s
  = match find (unmanaged managed) es with
    | Some d =>
        (Ok (Some 1%Z), s, [Stderr (not_managed_message (validating_pubkey d))])
    | None => (Ok None, s, [])
    end.
Proof.
  induction es as [|d es IH]; [reflexivity|].
  cbn [iter_ret find]. unfold bind.
  unfold check_managed at 1. unfold unmanaged at 1.
  destruct (negb (mem (validating_pubkey d) managed)); cbn.
  - reflexivity.
  - rewrite IH. destruct (find _ es); reflexivity.
Qed.

(** Lines 25-33: the file is loaded, the managed set fetched and shown. *)
Lemma fee_prelude {A} args file es s managed s1 (k : list entry -> list str -> M Srv A) r s2 t2 :
  fee_entries_ file = Some es ->
  lists_keystores json_loads serve args s managed s1 ->
  k es managed s1 = (r, s2, t2) ->
  bind (read_file read_text file) (fun text =>
  bind (loads json_loads text) (fun v =>
  bind (lift (rbind (py_iter v) (rmap load_entry))) (fun es =>
  bind (request_ args "/eth/v1/keystores" None) (fun resp_obj =>
  bind (lift (managed_set resp_obj)) (fun managed =>
  bind (print "The node manages the following validators:") (fun _ =>
  bind (iter (set_iter managed) print) (fun _ => k es managed))))))) s
  = (r, s2,
     Http (listing_request args)
     :: Stdout "The node manages the following validators:"
     :: app (map Stdout (set_iter managed)) t2).
Proof.
  intros He Hl Hk.
  unfold fee_entries in He.
  destruct (read_text file) as [text|] eqn:Hr; [|discriminate].
  destruct (json_loads text) as [v|] eqn:Hj; [|discriminate].
  destruct (rbind (py_iter v) (rmap load_entry)) as [es'|] eqn:Hes;
    [|discriminate].
  injection He as ->.
  destruct (request_listing _ _ _ _ Hl) as (resp & Hreq & Hms).
  eapply eq_trans.
  { eapply bind_run; [unfold read_file, lift; rewrite Hr; reflexivity|].
    eapply bind_run; [unfold loads, lift; rewrite Hj; reflexivity|].
    eapply bind_run; [unfold lift; rewrite Hes; reflexivity|].
    eapply bind_run; [exact Hreq|].
    eapply bind_run; [unfold lift; rewrite Hms; reflexivity|].
    eapply bind_run; [reflexivity|].
    eapply bind_run; [apply iter_print|].
    exact Hk. }
  reflexivity.
Qed.

(** The first element that satisfies a test, and what stands before it. *)
Lemma find_split {A} (f : A -> bool) l d :
  find f l = Some d ->
  exists l1 l2,
    l = app l1 (d :: l2) /\ Forall (fun x => f x = false) l1 /\ f d = true.
Proof.
  induction l as [|x l IH]; [discriminate|]. cbn [find].
  destruct (f x) eqn:E.
  - intros [= ->]. now exists [], l.
  - intros H. destruct (IH H) as (l1 & l2 & -> & Hall & Hd).
    exists (x :: l1), l2. repeat split; [now constructor|exact Hd].
Qed.

(** C2: when some entry of the file names a validator that the node does
    not manage, the synchronization sends the listing request and nothing
    else (no write, and no read of a fee recipient, for any entry, the ones
    before the offending entry included); writes to the error stream the
    line ERROR: Validator <pubkey> is not managed by the connected node.,
    where <pubkey> is the pubkey (in lower case, as loaded) of the first
    entry of the file that is not managed; and returns 1. *)
Theorem unmanaged_validator_aborts_synchronization
        args file es s managed s1 :
  fee_entries_ file = Some es ->
  lists_keystores json_loads serve args s managed s1 ->
  (exists d, In d es /\ mem (validating_pubkey d) managed = false) ->
  exists d,
    find (unmanaged managed) es = Some d
    /\ In d es
    /\ mem (validating_pubkey d) managed = false
    /\ (exists es1 es2,
          es = app es1 (d :: es2)
          /\ Forall (fun e => In (validating_pubkey e) managed) es1
          /\ ~ In (validating_pubkey d) managed)
    /\ set_fee_recipients_ args file s
       = (Ok 1%Z, s1,
          Http (listing_request args)
          :: Stdout "The node manages the following validators:"
          :: app (map Stdout (set_iter managed))
               [Stderr ("ERROR: Validator " ++ validating_pubkey d
                        ++ " is not managed by the connected node."
                        ++ chr newline)])
    /\ writes (snd (set_fee_recipients_ args file s)) = []
    /\ filter is_http (snd (set_fee_recipients_ args file s))
       = [Http (listing_request args)].
Proof.
  intros He Hl (d0 & Hin0 & Hm0).
  destruct (find (unmanaged managed) es) as [d|] eqn:Hf.
  2:{ exfalso. eapply find_none in Hf; [|exact Hin0].
      unfold unmanaged in Hf. now rewrite Hm0 in Hf. }
  exists d. split; [reflexivity|].
  destruct (find_some _ _ Hf) as [Hin Hun].
  split; [exact Hin|].
  assert (Hmd : mem (validating_pubkey d) managed = false).
  { unfold unmanaged in Hun. now apply negb_true_iff in Hun. }
  split; [exact Hmd|].
  split.
  { destruct (find_split _ _ _ Hf) as (es1 & es2 & -> & Hall & _).
    exists es1, es2. split; [reflexivity|]. split.
    - eapply Forall_impl; [|exact Hall]. intros e He1.
      unfold unmanaged in He1. apply negb_false_iff in He1.
      now apply mem_In.
    - intros Hin'. apply mem_In in Hin'. congruence. }
  match goal with |- ?x = ?y /\ _ => assert (E : x = y) end.
  { unfold set_fee_recipients.
    eapply fee_prelude; [exact He|exact Hl|].
    eapply eq_trans.
    { eapply bind_run; [rewrite check_loop, Hf; reflexivity|]. reflexivity. }
    reflexivity. }
  split; [exact E|]. rewrite E. cbn [snd].
  rewrite writes_of_http. cbn [filter is_http].
  rewrite filter_app, http_Stdout. split; reflexivity.
Qed.

(** C10: a file holding an empty JSON array is synchronized successfully
    whatever the managed set is, the empty one included: the listing request
    is the only request, the success summary is printed, the result is 0. *)
Theorem empty_fee_file_succeeds args file text s managed s1 :
  read_text file = Some text ->
  json_loads text = Some (JList []) ->
  lists_keystores json_loads serve args s managed s1 ->
  set_fee_recipients_ args file s
  = (Ok 0%Z, s1,
     Http (listing_request args)
     :: Stdout "The node manages the following validators:"
     :: app (map Stdout (set_iter managed))
          [Stdout thematic_break;
           Stdout "Success. All fee recipients synchronized."])
  /\ filter is_http (snd (set_fee_recipients_ args file s))
     = [Http (listing_request args)]
  /\ reads (snd (set_fee_recipients_ args file s))
     = [Http (listing_request args)]
  /\ writes (snd (set_fee_recipients_ args file s)) = [].
Proof.
  intros Hr Hj Hl.
  assert (He : fee_entries_ file = Some []).
  { unfold fee_entries. now rewrite Hr, Hj. }
  match goal with |- ?x = ?y /\ _ => assert (E : x = y) end.
  { unfold set_fee_recipients.
    eapply fee_prelude; [exact He|exact Hl|]. reflexivity. }
  split; [exact E|]. rewrite E. cbn [snd].
  rewrite reads_of_http, writes_of_http. cbn [filter is_http].
  rewrite filter_app, http_Stdout. repeat split; reflexivity.
Qed.

Lemma load_entry_ethaddress raw d desired :
  load_entry raw = Ok d ->
  getitem raw "ethaddress" = Ok (JStr desired) ->
  ethaddress d = lower desired.
Proof.
  unfold load_entry. intros H Hg.
  destruct (getitem raw "validating_pubkey") as [p|]; [|discriminate].
  cbn [rbind] in H. destruct (py_lower p) as [p'|]; [|discriminate].
  cbn [rbind] in H. rewrite Hg in H. cbn in H. now injection H as <-.
Qed.

(** An entry whose remote address is the desired one: one read, no write. *)
Lemma sync_entry_in_sync args d remote s s1 :
  reports_fee json_loads serve args s (validating_pubkey d) remote s1 ->
  lower remote = ethaddress d ->
  sync_entry_ args d s
  = (Ok tt, s1,
     [Stdout thematic_break;
      Http (build_request args (fee_path (validating_pubkey d)) None);
      Stdout ("Configuring " ++ validating_pubkey d ++ "...");
      Stdout "Fee recipient already in sync"]).
Proof.
  intros (Hacc & txt & resp & x & Hs & Hj & Hd & Ha) Heq.
  unfold sync_entry.
  eapply eq_trans.
  { eapply bind_run; [reflexivity|].
    eapply bind_run.
    { rewrite (request_get _ _ _ _ _ Hacc Hs), Hj. reflexivity. }
    eapply bind_run.
    { unfold lift. rewrite Hd. cbn [rbind]. rewrite Ha. cbn. reflexivity. }
    eapply bind_run; [reflexivity|].
    rewrite Heq, String.eqb_refl. reflexivity. }
  reflexivity.
Qed.

Lemma sync_loop_in_sync args (I : Srv -> Prop) es :
  (forall s d, I s -> In d es ->
     exists remote s',
       reports_fee json_loads serve args s (validating_pubkey d) remote s'
       /\ lower remote = ethaddress d /\ I s') ->
  forall s, I s ->
  exists s' t,
    iter es (sync_entry_ args) s = (Ok tt, s', t)
    /\ writes t = [] /\ I s'.
Proof.
  induction es as [|d es IH]; intros Hsync s Hs.
  - exists s, []. repeat split; assumption.
  - destruct (Hsync s d Hs (or_introl eq_refl))
      as (remote & s1 & Hrep & Heq & Hs1).
    destruct (IH (fun s d Hs Hin => Hsync s d Hs (or_intror Hin)) s1 Hs1)
      as (s' & t & Hrun & Hw & Hs').
    eexists s', _. split; [|split; [|exact Hs']].
    + cbn [iter]. eapply bind_run; [|exact Hrun].
      eapply sync_entry_in_sync; eassumption.
    + unfold writes in *. rewrite filter_app, Hw. reflexivity.
Qed.

(** An entry whose remote address differs from the desired one: one read,
    one write of the desired address. *)
Lemma sync_entry_out_of_sync args d remote s s1 :
  reports_fee json_loads serve args s (validating_pubkey d) remote s1 ->
  lower remote <> ethaddress d ->
  sync_entry_ args d s
  = match serve s1 (fee_write_request args (validating_pubkey d)
                                      (ethaddress d)) with
    | (Some _, s2) =>
        (Ok tt, s2,
         [Stdout thematic_break;
          Http (build_request args (fee_path (validating_pubkey d)) None);
          Stdout ("Configuring " ++ validating_pubkey d ++ "...");
          Http (fee_write_request args (validating_pubkey d) (ethaddress d));
          Stdout ("Fee recipient updated. Previously " ++ lower remote
                  ++ ". Now " ++ ethaddress d)])
    | (None, s2) =>
        (Exn URLError, s2,
         [Stdout thematic_break;
          Http (build_request args (fee_path (validating_pubkey d)) None);
          Stdout ("Configuring " ++ validating_pubkey d ++ "...");
          Http (fee_write_request args (validating_pubkey d) (ethaddress d))])
    end.
Proof.
  intros (Hacc & txt & resp & x & Hs & Hj & Hd & Ha) Hne.
  apply String.eqb_neq in Hne.
  assert (Hread :
    request_ args (fee_path (validating_pubkey d)) None s
    = (Ok resp, s1,
       [Http (build_request args (fee_path (validating_pubkey d)) None)])).
  { rewrite (request_get _ _ _ _ _ Hacc Hs), Hj. reflexivity. }
  assert (Hold :
    lift (Srv := Srv)
         (rbind (getitem resp "data")
                (fun x => rbind (getitem x "ethaddress") py_lower)) s1
    = (Ok (lower remote), s1, [])).
  { unfold lift. rewrite Hd. cbn [rbind]. rewrite Ha. reflexivity. }
  unfold sync_entry.
  destruct (serve s1 (fee_write_request args (validating_pubkey d)
                                        (ethaddress d)))
    as [[txt'|] s2] eqn:Hw.
  - eapply eq_trans.
    { eapply bind_run; [reflexivity|].
      eapply bind_run; [exact Hread|].
      eapply bind_run; [exact Hold|].
      eapply bind_run; [reflexivity|].
      rewrite Hne.
      eapply bind_run; [|reflexivity].
      rewrite (request_post _ _ _ _ Hacc (fee_body_truthy _)).
      fold (fee_write_request args (validating_pubkey d) (ethaddress d)).
      rewrite Hw. reflexivity. }
    reflexivity.
  - eapply eq_trans.
    { eapply bind_run; [reflexivity|].
      eapply bind_run; [exact Hread|].
      eapply bind_run; [exact Hold|].
      eapply bind_run; [reflexivity|].
      rewrite Hne.
      eapply bind_Exn.
      rewrite (request_post _ _ _ _ Hacc (fee_body_truthy _)).
      fold (fee_write_request args (validating_pubkey d) (ethaddress d)).
      rewrite Hw. reflexivity. }
    reflexivity.
Qed.

Lemma load_entry_is_lower raw d :
  load_entry raw = Ok d -> lower (ethaddress d) = ethaddress d.
Proof.
  unfold load_entry. intros H.
  destruct (getitem raw "validating_pubkey") as [p|]; [|discriminate].
  cbn [rbind] in H. destruct (py_lower p) as [p'|]; [|discriminate].
  cbn [rbind] in H. destruct (getitem raw "ethaddress") as [a|]; [|discriminate].
  cbn [rbind] in H. destruct a; try discriminate.
  cbn in H. injection H as <-. apply lower_idempotent.
Qed.

Lemma fee_entries_are_lower file es :
  fee_entries_ file = Some es ->
  Forall (fun d => lower (ethaddress d) = ethaddress d) es.
Proof.
  unfold fee_entries. intros H.
  destruct (read_text file) as [text|]; [|discriminate].
  destruct (json_loads text) as [v|]; [|discriminate].
  destruct (py_iter v) as [items|]; [|discriminate].
  cbn [rbind] in H.
  destruct (rmap load_entry items) as [es'|] eqn:E; [|discriminate].
  injection H as <-. eapply rmap_Forall; [|exact E].
  intros x y. apply load_entry_is_lower.
Qed.

(** On a node that keeps its fee recipients, the loop leaves every entry's
    desired address on the node, when no validator is given two. *)
Lemma sync_loop_reaches_sync args managed Inv fee_of es :
  keeps_fee_recipients json_loads serve args managed Inv fee_of ->
  Forall (fun d => mem (validating_pubkey d) managed = true) es ->
  Forall (fun d => lower (ethaddress d) = ethaddress d) es ->
  consistent es ->
  forall s, Inv s ->
  exists s' t,
    iter es (sync_entry_ args) s = (Ok tt, s', t)
    /\ Inv s'
    /\ (forall d, In d es ->
                  lower (fee_of s' (validating_pubkey d)) = ethaddress d)
    /\ (forall pubkey,
          mem pubkey managed = true ->
          (forall d, In d es -> validating_pubkey d <> pubkey) ->
          fee_of s' pubkey = fee_of s pubkey).
Proof.
  intros (_ & Hread & Hwrite) Hman Hlow.
  induction es as [|d es IH]; intros Hcons s Hinv.
  - exists s, []. split; [reflexivity|]. split; [exact Hinv|].
    split; [intros d []|reflexivity].
  - inversion Hman as [|? ? Hmd Hman']; subst.
    inversion Hlow as [|? ? Hld Hlow']; subst.
    assert (Hcons' : consistent es).
    { intros a b Ha Hb. apply Hcons; now right. }
    (* the entry itself *)
    assert (Hstep : exists s1 t1,
               sync_entry_ args d s = (Ok tt, s1, t1)
               /\ Inv s1
               /\ lower (fee_of s1 (validating_pubkey d)) = ethaddress d
               /\ forall pubkey, mem pubkey managed = true ->
                                 pubkey <> validating_pubkey d ->
                                 fee_of s1 pubkey = fee_of s pubkey).
    { destruct (Hread s _ Hinv Hmd) as (s0 & Hrep & Hinv0 & Hsame).
      destruct (String.eqb_spec (lower (fee_of s (validating_pubkey d)))
                                (ethaddress d)) as [Heq|Hne].
      - eexists s0, _. split; [eapply sync_entry_in_sync; eassumption|].
        split; [exact Hinv0|].
        split; [now rewrite Hsame|]. intros pk _ _. apply Hsame.
      - destruct (Hwrite s0 _ (ethaddress d) Hinv0 Hmd)
          as (txt & s2 & Hs2 & Hinv2 & Hset & Hframe).
        eexists s2, _. split.
        + erewrite sync_entry_out_of_sync by eassumption.
          rewrite Hs2. reflexivity.
        + split; [exact Hinv2|]. split; [now rewrite Hset|].
          intros pk Hm Hpk. now rewrite Hframe, Hsame. }
    destruct Hstep as (s1 & t1 & Hrun1 & Hinv1 & Hd1 & Hframe1).
    destruct (IH Hman' Hlow' Hcons' s1 Hinv1)
      as (s' & t & Hrun & Hinv' & Hall & Hframe).
    eexists s', _. split; [|split; [exact Hinv'|split]].
    + cbn [iter]. eapply bind_run; [exact Hrun1|exact Hrun].
    + intros d' [<-|Hin]; [|now apply Hall].
      destruct (existsb (fun e => String.eqb (validating_pubkey e)
                                             (validating_pubkey d)) es)
        eqn:Hex.
      * apply existsb_exists in Hex as (e & He & Hpk).
        apply String.eqb_eq in Hpk.
        rewrite <- Hpk, (Hall e He).
        apply Hcons; [now right|now left|exact Hpk].
      * rewrite Hframe; [exact Hd1|exact Hmd|].
        intros e He Hpk.
        assert (existsb (fun e => String.eqb (validating_pubkey e)
                                             (validating_pubkey d)) es = true).
        { apply existsb_exists. exists e. split; [exact He|].
          now apply String.eqb_eq. }
        congruence.
    + intros pk Hm Hpk. rewrite Hframe; [|exact Hm|].
      * apply Hframe1; [exact Hm|].
        intros ->. now apply (Hpk d (or_introl eq_refl)).
      * intros e He. apply Hpk. now right.
Qed.

(** The result of a synchronization whose entries are all managed. *)
Lemma sync_run args file es s managed s1 s' t :
  fee_entries_ file = Some es ->
  lists_keystores json_loads serve args s managed s1 ->
  find (unmanaged managed) es = None ->
  iter es (sync_entry_ args) s1 = (Ok tt, s', t) ->
  set_fee_recipients_ args file s
  = (Ok 0%Z, s',
     Http (listing_request args)
     :: Stdout "The node manages the following validators:"
     :: app (map Stdout (set_iter managed))
          (app t [Stdout thematic_break;
                  Stdout "Success. All fee recipients synchronized."])).
Proof.
  intros He Hl Hf Hrun. unfold set_fee_recipients.
  eapply fee_prelude; [exact He|exact Hl|].
  eapply eq_trans.
  { eapply bind_run; [rewrite check_loop, Hf; reflexivity|].
    eapply bind_run; [exact Hrun|]. reflexivity. }
  reflexivity.
Qed.

Lemma sync_run_writes args managed t :
  writes (Http (listing_request args)
          :: Stdout "The node manages the following validators:"
          :: app (map Stdout (set_iter managed))
               (app t [Stdout thematic_break;
                       Stdout "Success. All fee recipients synchronized."]))
  = writes t.
Proof.
  unfold writes. cbn [filter is_write].
  rewrite listing_request_is_read. rewrite filter_app.
  fold (writes (map Stdout (set_iter managed))). rewrite writes_Stdout.
  rewrite filter_app. cbn. now rewrite app_nil_r.
Qed.

(** The result of a synchronization with an entry that is not managed. *)
Lemma sync_abort args file es s managed s1 d :
  fee_entries_ file = Some es ->
  lists_keystores json_loads serve args s managed s1 ->
  find (unmanaged managed) es = Some d ->
  set_fee_recipients_ args file s
  = (Ok 1%Z, s1,
     Http (listing_request args)
     :: Stdout "The node manages the following validators:"
     :: app (map Stdout (set_iter managed))
          [Stderr (not_managed_message (validating_pubkey d))]).
Proof.
  intros He Hl Hf. unfold set_fee_recipients.
  eapply fee_prelude; [exact He|exact Hl|].
  eapply eq_trans.
  { eapply bind_run; [rewrite check_loop, Hf; reflexivity|]. reflexivity. }
  reflexivity.
Qed.

Lemma find_unmanaged_none managed es :
  find (unmanaged managed) es = None <->
  Forall (fun d => mem (validating_pubkey d) managed = true) es.
Proof.
  induction es as [|d es IH]; [split; [constructor|reflexivity]|].
  cbn [find]. unfold unmanaged at 1.
  destruct (mem (validating_pubkey d) managed) eqn:E; cbn [negb].
  - rewrite IH. split; [now constructor|now inversion 1].
  - split; [discriminate|]. inversion 1. congruence.
Qed.

(** C3 (amended): an entry whose remote fee recipient equals the desired
    address, letter case apart, costs one read and no write, and is reported
    as in sync.  Hence a synchronization in which every entry finds its
    desired address on the node ([I] holds of the states in which that is
    so) sends no write at all and returns 0; and on a node that keeps the
    fee recipients it is given, running the same file again after a run
    that returned 0 sends no write and returns 0, provided the file gives
    no validator two different addresses. *)
Theorem in_sync_entries_are_not_written args :
  (forall raw d desired remote s s1,
      load_entry raw = Ok d ->
      getitem raw "ethaddress" = Ok (JStr desired) ->
      reports_fee json_loads serve args s (validating_pubkey d) remote s1 ->
      lower remote = lower desired ->
      sync_entry_ args d s
      = (Ok tt, s1,
         [Stdout thematic_break;
          Http (build_request args (fee_path (validating_pubkey d)) None);
          Stdout ("Configuring " ++ validating_pubkey d ++ "...");
          Stdout "Fee recipient already in sync"]))
  /\ (forall file es (I : Srv -> Prop) s managed s1,
      fee_entries_ file = Some es ->
      lists_keystores json_loads serve args s managed s1 ->
      Forall (fun d => mem (validating_pubkey d) managed = true) es ->
      I s1 ->
      (forall s d, I s -> In d es ->
         exists remote s',
           reports_fee json_loads serve args s (validating_pubkey d) remote s'
           /\ lower remote = ethaddress d /\ I s') ->
      exists s' t,
        set_fee_recipients_ args file s = (Ok 0%Z, s', t)
        /\ writes t = [] /\ I s')
  /\ (forall file es managed (Inv : Srv -> Prop) fee_of s s1 t1,
      keeps_fee_recipients json_loads serve args managed Inv fee_of ->
      Inv s ->
      fee_entries_ file = Some es ->
      consistent es ->
      set_fee_recipients_ args file s = (Ok 0%Z, s1, t1) ->
      exists s2 t2,
        set_fee_recipients_ args file s1 = (Ok 0%Z, s2, t2)
        /\ writes t2 = []).
Proof.
  assert (Hsecond :
    forall file es (I : Srv -> Prop) s managed s1,
      fee_entries_ file = Some es ->
      lists_keystores json_loads serve args s managed s1 ->
      Forall (fun d => mem (validating_pubkey d) managed = true) es ->
      I s1 ->
      (forall s d, I s -> In d es ->
         exists remote s',
           reports_fee json_loads serve args s (validating_pubkey d) remote s'
           /\ lower remote = ethaddress d /\ I s') ->
      exists s' t,
        set_fee_recipients_ args file s = (Ok 0%Z, s', t)
        /\ writes t = [] /\ I s').
  { intros file es I s managed s1 He Hl Hall Hs1 Hsync.
    destruct (sync_loop_in_sync args I es Hsync s1 Hs1)
      as (s' & t & Hrun & Hw & Hs').
    apply find_unmanaged_none in Hall.
    eexists s', _. split; [|split; [|exact Hs']].
    - eapply sync_run; eassumption.
    - now rewrite sync_run_writes. }
  split; [|split; [exact Hsecond|]].
  - intros raw d desired remote s s1 Hl Hg Hrep Heq.
    apply sync_entry_in_sync with (remote := remote); [exact Hrep|].
    now rewrite (load_entry_ethaddress _ _ _ Hl Hg).
  - intros file es managed Inv fee_of s s1 t1 Hkeeps Hinv He Hcons Hrun1.
    pose proof Hkeeps as (Hlist & Hread & _).
    destruct (Hlist s Hinv) as (s0 & Hl0 & Hinv0 & Hsame0).
    (* the first run returned 0, so every entry is managed *)
    assert (Hall : Forall (fun d => mem (validating_pubkey d) managed = true) es).
    { apply find_unmanaged_none.
      destruct (find (unmanaged managed) es) as [d|] eqn:Hf; [|reflexivity].
      rewrite (sync_abort _ _ _ _ _ _ _ He Hl0 Hf) in Hrun1. discriminate. }
    (* the state after the first run *)
    destruct (sync_loop_reaches_sync args managed Inv fee_of es Hkeeps Hall
                (fee_entries_are_lower _ _ He) Hcons s0 Hinv0)
      as (s1' & t & Hloop & Hinv1 & Hsync & _).
    rewrite (sync_run _ _ _ _ _ _ _ _ He Hl0
               (proj2 (find_unmanaged_none _ _) Hall) Hloop) in Hrun1.
    injection Hrun1 as <- _.
    (* the second run *)
    destruct (Hlist s1' Hinv1) as (s2 & Hl2 & Hinv2 & Hsame2).
    destruct (Hsecond file es
                (fun x => Inv x /\ forall d, In d es ->
                   lower (fee_of x (validating_pubkey d)) = ethaddress d)
                s1' managed s2 He Hl2 Hall) as (s3 & t3 & Hrun & Hw & _).
    + split; [exact Hinv2|]. intros d Hd. rewrite Hsame2. now apply Hsync.
    + intros x d [Hix Hx] Hd.
      destruct (Hread x (validating_pubkey d) Hix) as (x' & Hrep & Hix' & Hsame).
      { rewrite Forall_forall in Hall. now apply Hall. }
      exists (fee_of x (validating_pubkey d)), x'.
      split; [exact Hrep|]. split; [now apply Hx|].
      split; [exact Hix'|]. intros e He'. rewrite Hsame. now apply Hx.
    + now exists s3, t3.
Qed.

(** With a host and a token, the exit code is the subcommand's result, or 1
    when an exception escapes. *)
Lemma main_runs_the_subcommand environ cl s :
  truthy (host (parse_args environ cl)) = true ->
  truthy (auth (parse_args environ cl)) = true ->
  main_ environ cl s
  = match run_command json_loads set_iter read_text serve
                      (parse_args environ cl) s with
    | (Ok exit_code, s', t) => (exit_code, s', t)
    | (Exn e, s', t) => (1%Z, s', app t [Traceback e])
    end.
Proof. intros Hh Ha. unfold main. now rewrite Hh, Ha. Qed.

End Properties.

(** * Properties of every run *)

Section AllRuns.

Variable json_loads : str -> option value.
Variable set_iter : list str -> list str.
Variable read_text : path -> option str.
Variable Srv : Type.
Variable serve : Srv -> Request -> option str * Srv.
Context {url_check : UrlCheck}.

Local Abbreviation request_ := (request json_loads serve).
Local Abbreviation sync_entry_ := (sync_entry json_loads serve).
Local Abbreviation import_file_ := (import_file json_loads read_text serve).
Local Abbreviation set_fee_recipients_ :=
  (set_fee_recipients json_loads set_iter read_text serve).
Local Abbreviation import_keystores_ :=
  (import_keystores json_loads set_iter read_text serve).
Local Abbreviation run_command_ :=
  (run_command json_loads set_iter read_text serve).
Local Abbreviation main_ := (main json_loads set_iter read_text serve).
Local Abbreviation keystore_of_ := (keystore_of json_loads read_text).
Local Abbreviation fee_entries_ := (fee_entries json_loads read_text).

(** ** How [always] and [at_most] compose *)

Lemma always_ret {A} P (a : A) : always (Srv := Srv) P (ret a).
Proof. intros s. constructor. Qed.

Lemma always_lift {A} P (r : result A) : always (Srv := Srv) P (lift r).
Proof. intros s. constructor. Qed.

Lemma always_emit (P : event -> Prop) e : P e -> always (Srv := Srv) P (emit e).
Proof. intros H s. now constructor. Qed.

Lemma always_bind {A B} P (m : M Srv A) (f : A -> M Srv B) :
  always P m -> (forall a, always P (f a)) -> always P (bind m f).
Proof.
  intros Hm Hf s. unfold bind. specialize (Hm s).
  destruct (m s) as [[[a|e] s1] t1]; cbn in *; [|exact Hm].
  specialize (Hf a s1). destruct (f a s1) as [[r s2] t2]; cbn in *.
  apply Forall_app. now split.
Qed.

Lemma always_iter {A} P (l : list A) (body : A -> M Srv unit) :
  (forall x, In x l -> always P (body x)) -> always P (iter l body).
Proof.
  induction l as [|x l IH]; intros H; cbn [iter].
  - apply always_ret.
  - apply always_bind; [apply H; now left|].
    intros _. apply IH. intros y Hy. apply H. now right.
Qed.

Lemma always_iter_ret {A R} P (l : list A) (body : A -> M Srv (option R)) :
  (forall x, In x l -> always P (body x)) -> always P (iter_ret l body).
Proof.
  induction l as [|x l IH]; intros H; cbn [iter_ret].
  - apply always_ret.
  - apply always_bind; [apply H; now left|].
    intros [v|]; [apply always_ret|].
    apply IH. intros y Hy. apply H. now right.
Qed.

Lemma always_request P args resource d :
  P (Http (build_request args resource d)) ->
  always P (request_ args resource d).
Proof.
  intros H s. rewrite request_trace.
  destruct (Request_accepts _); [now constructor|constructor].
Qed.

Lemma at_most_ret {A} f (a : A) : at_most (Srv := Srv) f 0 (ret a).
Proof. intros s. apply Nat.le_refl. Qed.

Lemma at_most_lift {A} f (r : result A) : at_most (Srv := Srv) f 0 (lift r).
Proof. intros s. apply Nat.le_refl. Qed.

Lemma at_most_print f line :
  f (Stdout line) = false -> at_most (Srv := Srv) f 0 (print line).
Proof. intros H s. cbn. now rewrite H. Qed.

Lemma at_most_stderr f text :
  f (Stderr text) = false -> at_most (Srv := Srv) f 0 (stderr_write text).
Proof. intros H s. cbn. now rewrite H. Qed.

Lemma at_most_weaken {A} f n n' (m : M Srv A) :
  n <= n' -> at_most f n m -> at_most f n' m.
Proof. intros Hn H s. specialize (H s). lia. Qed.

Lemma at_most_bind {A B} f a b (m : M Srv A) (k : A -> M Srv B) :
  at_most f a m -> (forall x, at_most f b (k x)) ->
  at_most f (a + b) (bind m k).
Proof.
  intros Hm Hk s. unfold bind. specialize (Hm s).
  destruct (m s) as [[[x|e] s1] t1]; cbn in *; [|lia].
  specialize (Hk x s1). destruct (k x s1) as [[r s2] t2]; cbn in *.
  rewrite filter_app, length_app. lia.
Qed.

Lemma at_most_iter {A} f n (l : list A) (body : A -> M Srv unit) :
  (forall x, at_most f n (body x)) ->
  at_most f (length l * n) (iter l body).
Proof.
  intros H. induction l as [|x l IH]; cbn [iter length].
  - apply at_most_ret.
  - cbn [Nat.mul]. apply at_most_bind; [apply H|intros _; exact IH].
Qed.

Lemma at_most_iter_ret {A R} f (l : list A) (body : A -> M Srv (option R)) :
  (forall x, at_most f 0 (body x)) -> at_most f 0 (iter_ret l body).
Proof.
  intros H. induction l as [|x l IH]; cbn [iter_ret].
  - apply at_most_ret.
  - apply (at_most_bind f 0 0); [apply H|].
    intros [v|]; [apply at_most_ret|exact IH].
Qed.

Lemma at_most_iter_print f (l : list str) :
  (forall x, f (Stdout x) = false) ->
  at_most (Srv := Srv) f 0 (iter l print).
Proof.
  intros H s. rewrite iter_print. cbn [snd].
  induction l as [|x l IH]; cbn; [lia|]. now rewrite H.
Qed.

Lemma at_most_request f args resource d :
  at_most f 1 (request_ args resource d).
Proof.
  intros s. rewrite request_trace.
  destruct (Request_accepts _); cbn; [destruct (f _); cbn; lia|lia].
Qed.

(** ** Every request is authorized *)

Lemma authorized_other args e :
  is_http e = false -> authorized args e.
Proof. intros H req ->. discriminate. Qed.

Lemma authorized_request args resource d :
  startswith resource "/eth/v1/" = true ->
  authorized args (Http (build_request args resource d)).
Proof.
  intros H req [= <-]. split.
  - unfold build_request, add_headers. destruct (truthy d); cbn; auto.
  - exists resource. split; [apply build_request_url|exact H].
Qed.

Lemma fee_path_prefix pubkey : startswith (fee_path pubkey) "/eth/v1/" = true.
Proof. reflexivity. Qed.

Lemma sync_entry_authorized args d :
  always (authorized args) (sync_entry_ args d).
Proof.
  unfold sync_entry, print.
  apply always_bind; [apply always_emit; now apply authorized_other|intros _].
  apply always_bind;
    [apply always_request, authorized_request, fee_path_prefix|intros resp].
  apply always_bind; [apply always_lift|intros old].
  apply always_bind; [apply always_emit; now apply authorized_other|intros _].
  destruct (String.eqb old (ethaddress d)).
  - apply always_emit. now apply authorized_other.
  - apply always_bind;
      [apply always_request, authorized_request, fee_path_prefix|intros _].
    apply always_emit. now apply authorized_other.
Qed.

Lemma import_file_authorized args passwd managed p :
  always (authorized args) (import_file_ args passwd managed p).
Proof.
  unfold import_file, print, read_file, loads.
  apply always_bind; [apply always_emit; now apply authorized_other|intros _].
  apply always_bind; [apply always_lift|intros text].
  apply always_bind; [apply always_lift|intros d].
  apply always_bind; [apply always_lift|intros pubkey].
  apply always_bind; [apply always_emit; now apply authorized_other|intros _].
  destruct (mem pubkey managed).
  - apply always_emit. now apply authorized_other.
  - apply always_bind;
      [apply always_request, authorized_request; reflexivity|intros _].
    apply always_emit. now apply authorized_other.
Qed.

Lemma listing_authorized args :
  always (authorized args) (request_ args "/eth/v1/keystores" None).
Proof. apply always_request, authorized_request. reflexivity. Qed.

Lemma print_authorized args line :
  always (Srv := Srv) (authorized args) (print line).
Proof. apply always_emit. now apply authorized_other. Qed.

Lemma run_command_authorized args :
  always (authorized args) (run_command_ args).
Proof.
  unfold run_command. destruct (func args) as [file|passwd ks].
  - unfold set_fee_recipients, read_file, loads.
    apply always_bind; [apply always_lift|intros text].
    apply always_bind; [apply always_lift|intros v].
    apply always_bind; [apply always_lift|intros es].
    apply always_bind; [apply listing_authorized|intros resp].
    apply always_bind; [apply always_lift|intros managed].
    apply always_bind; [apply print_authorized|intros _].
    apply always_bind;
      [apply always_iter; intros x _; apply print_authorized|intros _].
    apply always_bind.
    { apply always_iter_ret. intros d _. unfold check_managed.
      destruct (negb _); [|apply always_ret].
      apply always_bind; [|intros _; apply always_ret].
      apply always_emit. now apply authorized_other. }
    intros [code|]; [apply always_ret|].
    apply always_bind;
      [apply always_iter; intros d _; apply sync_entry_authorized|intros _].
    apply always_bind; [apply print_authorized|intros _].
    apply always_bind; [apply print_authorized|intros _].
    apply always_ret.
  - unfold import_keystores.
    apply always_bind; [apply listing_authorized|intros resp].
    apply always_bind; [apply always_lift|intros managed].
    apply always_bind; [apply print_authorized|intros _].
    apply always_bind;
      [apply always_iter; intros x _; apply print_authorized|intros _].
    apply always_bind;
      [apply always_iter; intros p _; apply import_file_authorized|intros _].
    apply always_bind; [apply print_authorized|intros _].
    apply always_bind; [apply print_authorized|intros _].
    apply always_ret.
Qed.



(** ** How many requests a run sends *)

Lemma http_reads_writes t :
  length (filter is_http t) = length (reads t) + length (writes t).
Proof.
  unfold reads, writes. induction t as [|e t IH]; [reflexivity|].
  destruct e; cbn; try exact IH.
  destruct (get_method req); cbn; lia.
Qed.

Lemma at_most_get_writes args resource :
  at_most is_write 0 (request_ args resource None).
Proof.
  intros s. rewrite request_trace.
  destruct (Request_accepts _); [|apply Nat.le_refl].
  cbn [snd filter is_write].
  rewrite build_request_method. apply Nat.le_refl.
Qed.

Lemma at_most_post_reads args resource b :
  at_most is_read 0 (request_ args resource (Some b)).
Proof.
  intros s. rewrite request_trace.
  destruct (Request_accepts _); [|apply Nat.le_refl].
  cbn [snd filter is_read].
  rewrite build_request_method. apply Nat.le_refl.
Qed.

Lemma sync_entry_reads args d : at_most is_read 1 (sync_entry_ args d).
Proof.
  unfold sync_entry.
  apply (at_most_bind _ 0 1); [now apply at_most_print|intros _].
  apply (at_most_bind _ 1 0); [apply at_most_request|intros resp].
  apply (at_most_bind _ 0 0); [apply at_most_lift|intros old].
  apply (at_most_bind _ 0 0); [now apply at_most_print|intros _].
  destruct (String.eqb old (ethaddress d)); [now apply at_most_print|].
  apply (at_most_bind _ 0 0); [apply at_most_post_reads|intros _].
  now apply at_most_print.
Qed.

Lemma sync_entry_writes args d : at_most is_write 1 (sync_entry_ args d).
Proof.
  unfold sync_entry.
  apply (at_most_bind _ 0 1); [now apply at_most_print|intros _].
  apply (at_most_bind _ 0 1); [apply at_most_get_writes|intros resp].
  apply (at_most_bind _ 0 1); [apply at_most_lift|intros old].
  apply (at_most_bind _ 0 1); [now apply at_most_print|intros _].
  destruct (String.eqb old (ethaddress d)).
  - apply (at_most_weaken _ 0); [lia|now apply at_most_print].
  - apply (at_most_bind _ 1 0); [apply at_most_request|intros _].
    now apply at_most_print.
Qed.

Lemma import_file_reads args passwd managed p :
  at_most is_read 0 (import_file_ args passwd managed p).
Proof.
  unfold import_file, read_file, loads.
  apply (at_most_bind _ 0 0); [now apply at_most_print|intros _].
  apply (at_most_bind _ 0 0); [apply at_most_lift|intros text].
  apply (at_most_bind _ 0 0); [apply at_most_lift|intros d].
  apply (at_most_bind _ 0 0); [apply at_most_lift|intros pubkey].
  apply (at_most_bind _ 0 0); [now apply at_most_print|intros _].
  destruct (mem pubkey managed); [now apply at_most_print|].
  apply (at_most_bind _ 0 0); [apply at_most_post_reads|intros _].
  now apply at_most_print.
Qed.

Lemma import_file_writes args passwd managed p :
  at_most is_write 1 (import_file_ args passwd managed p).
Proof.
  unfold import_file, read_file, loads.
  apply (at_most_bind _ 0 1); [now apply at_most_print|intros _].
  apply (at_most_bind _ 0 1); [apply at_most_lift|intros text].
  apply (at_most_bind _ 0 1); [apply at_most_lift|intros d].
  apply (at_most_bind _ 0 1); [apply at_most_lift|intros pubkey].
  apply (at_most_bind _ 0 1); [now apply at_most_print|intros _].
  destruct (mem pubkey managed).
  - apply (at_most_weaken _ 0); [lia|now apply at_most_print].
  - apply (at_most_bind _ 1 0); [apply at_most_request|intros _].
    now apply at_most_print.
Qed.

(** The part of [set_fee_recipients] after the file is loaded (from line
    29 on) runs on the entries of the file. *)
Lemma fee_loaded {A} file es (k : list entry -> M Srv A) s :
  fee_entries_ file = Some es ->
  bind (read_file read_text file) (fun text =>
  bind (loads json_loads text) (fun v =>
  bind (lift (rbind (py_iter v) (rmap load_entry))) k)) s
  = k es s.
Proof.
  unfold fee_entries. intros H.
  destruct (read_text file) as [text|] eqn:Hr; [|discriminate].
  destruct (json_loads text) as [v|] eqn:Hj; [|discriminate].
  destruct (rbind (py_iter v) (rmap load_entry)) as [es'|] eqn:He;
    [|discriminate].
  injection H as ->.
  unfold bind at 1. unfold read_file, lift at 1. rewrite Hr.
  unfold bind at 1. unfold loads, lift at 1. rewrite Hj.
  unfold bind at 1. unfold lift at 1. rewrite He.
  destruct (k es s) as [[r s'] t]. reflexivity.
Qed.

Lemma check_managed_silent f managed d :
  f (Stderr (not_managed_message (validating_pubkey d))) = false ->
  at_most (Srv := Srv) f 0 (check_managed managed d).
Proof.
  intros H. unfold check_managed. destruct (negb _); [|apply at_most_ret].
  apply (at_most_bind _ 0 0); [now apply at_most_stderr|].
  intros _. apply at_most_ret.
Qed.

Lemma synchronization_reads_bound args file es :
  fee_entries_ file = Some es ->
  at_most is_read (1 + length es) (set_fee_recipients_ args file).
Proof.
  intros He s. unfold set_fee_recipients. rewrite (fee_loaded _ _ _ _ He).
  revert s.
  apply (at_most_bind _ 1 (length es)); [apply at_most_request|intros resp].
  apply (at_most_bind _ 0 (length es)); [apply at_most_lift|intros managed].
  apply (at_most_bind _ 0 (length es)); [now apply at_most_print|intros _].
  apply (at_most_bind _ 0 (length es));
    [now apply at_most_iter_print|intros _].
  apply (at_most_bind _ 0 (length es)).
  { apply at_most_iter_ret. intros d. now apply check_managed_silent. }
  intros [code|].
  { apply (at_most_weaken _ 0); [lia|apply at_most_ret]. }
  replace (length es) with (length es * 1 + 0) at 1 by lia.
  apply at_most_bind; [apply at_most_iter, sync_entry_reads|intros _].
  apply (at_most_bind _ 0 0); [now apply at_most_print|intros _].
  apply (at_most_bind _ 0 0); [now apply at_most_print|intros _].
  apply at_most_ret.
Qed.

Lemma synchronization_writes_bound args file es :
  fee_entries_ file = Some es ->
  at_most is_write (length es) (set_fee_recipients_ args file).
Proof.
  intros He s. unfold set_fee_recipients. rewrite (fee_loaded _ _ _ _ He).
  revert s.
  apply (at_most_bind _ 0 (length es));
    [apply at_most_get_writes|intros resp].
  apply (at_most_bind _ 0 (length es)); [apply at_most_lift|intros managed].
  apply (at_most_bind _ 0 (length es)); [now apply at_most_print|intros _].
  apply (at_most_bind _ 0 (length es));
    [now apply at_most_iter_print|intros _].
  apply (at_most_bind _ 0 (length es)).
  { apply at_most_iter_ret. intros d. now apply check_managed_silent. }
  intros [code|].
  { apply (at_most_weaken _ 0); [lia|apply at_most_ret]. }
  replace (length es) with (length es * 1 + 0) at 1 by lia.
  apply at_most_bind; [apply at_most_iter, sync_entry_writes|intros _].
  apply (at_most_bind _ 0 0); [now apply at_most_print|intros _].
  apply (at_most_bind _ 0 0); [now apply at_most_print|intros _].
  apply at_most_ret.
Qed.




(** ** What a run may write *)

Lemma always_after_Ok {A B} P (a : A) (k : A -> M Srv B) :
  always P (k a) -> always P (bind (lift (Ok a)) k).
Proof.
  intros H s. unfold bind, lift. specialize (H s).
  destruct (k a s) as [[r s2] t2]. exact H.
Qed.

Lemma always_after_Exn {A B} P e (k : A -> M Srv B) :
  always P (bind (lift (Exn e)) k).
Proof. intros s. constructor. Qed.

Lemma not_a_write_print (P : event -> Prop) line :
  (forall e, is_write e = false -> P e) ->
  always (Srv := Srv) P (print line).
Proof. intros H. apply always_emit. now apply H. Qed.

Lemma not_a_write_get (P : event -> Prop) args resource :
  (forall e, is_write e = false -> P e) ->
  always P (request_ args resource None).
Proof.
  intros H. apply always_request. apply H. reflexivity.
Qed.

(** X4: every write of a synchronization, in every run, sets for a
    validator named in the file the (lower-cased) address that the file
    gives it: the path is that validator's fee recipient path and the body
    is the file's address. *)
Theorem synchronization_writes_come_from_the_file args file es s :
  fee_entries_ file = Some es ->
  Forall (fun e =>
            is_write e = true ->
            exists d, In d es
                      /\ e = Http (fee_write_request args (validating_pubkey d)
                                                     (ethaddress d)))
         (snd (set_fee_recipients_ args file s)).
Proof.
  intros He. unfold set_fee_recipients. rewrite (fee_loaded _ _ _ _ He).
  revert s.
  match goal with
  | |- forall s, Forall ?P _ =>
      set (Q := P);
      assert (Hq : forall e, is_write e = false -> Q e)
        by (intros e H; unfold Q; congruence)
  end.
  apply always_bind; [now apply not_a_write_get|intros resp].
  apply always_bind; [apply always_lift|intros managed].
  apply always_bind; [now apply not_a_write_print|intros _].
  apply always_bind;
    [apply always_iter; intros x _; now apply not_a_write_print|intros _].
  apply always_bind.
  { apply always_iter_ret. intros d _. unfold check_managed.
    destruct (negb _); [|apply always_ret].
    apply always_bind; [|intros _; apply always_ret].
    apply always_emit. now apply Hq. }
  intros [code|]; [apply always_ret|].
  apply always_bind.
  { apply always_iter. intros d Hd. unfold sync_entry.
    apply always_bind; [now apply not_a_write_print|intros _].
    apply always_bind; [now apply not_a_write_get|intros resp'].
    apply always_bind; [apply always_lift|intros old].
    apply always_bind; [now apply not_a_write_print|intros _].
    destruct (String.eqb old (ethaddress d));
      [now apply not_a_write_print|].
    apply always_bind; [|intros _; now apply not_a_write_print].
    apply always_request. intros _. exists d. split; [exact Hd|reflexivity]. }
  intros _.
  apply always_bind; [now apply not_a_write_print|intros _].
  apply always_bind; [now apply not_a_write_print|intros _].
  apply always_ret.
Qed.

(** X5: every write of an import, in every run, is the import request of
    one of the files of the command line: a POST to /eth/v1/keystores that
    carries the text of that file and the password of the command line. *)
Theorem import_writes_come_from_the_files args passwd ks s :
  Forall (fun e =>
            is_write e = true ->
            exists p text,
              In p ks /\ read_text p = Some text
              /\ e = Http (import_request args passwd text))
         (snd (import_keystores_ args passwd ks s)).
Proof.
  revert s.
  match goal with
  | |- forall s, Forall ?P _ =>
      set (Q := P);
      assert (Hq : forall e, is_write e = false -> Q e)
        by (intros e H; unfold Q; congruence)
  end.
  unfold import_keystores.
  apply always_bind; [now apply not_a_write_get|intros resp].
  apply always_bind; [apply always_lift|intros managed].
  apply always_bind; [now apply not_a_write_print|intros _].
  apply always_bind;
    [apply always_iter; intros x _; now apply not_a_write_print|intros _].
  apply always_bind.
  { apply always_iter. intros p Hp. unfold import_file.
    apply always_bind; [now apply not_a_write_print|intros _].
    unfold read_file. destruct (read_text p) as [text|] eqn:Hr;
      [apply always_after_Ok|apply always_after_Exn].
    apply always_bind; [apply always_lift|intros d].
    apply always_bind; [apply always_lift|intros pubkey].
    apply always_bind; [now apply not_a_write_print|intros _].
    destruct (mem pubkey managed); [now apply not_a_write_print|].
    apply always_bind; [|intros _; now apply not_a_write_print].
    apply always_request. intros _. exists p, text.
    split; [exact Hp|]. split; [exact Hr|reflexivity]. }
  intros _.
  apply always_bind; [now apply not_a_write_print|intros _].
  apply always_bind; [now apply not_a_write_print|intros _].
  apply always_ret.
Qed.


(** ** One entry that is out of sync *)

(** X6: an entry whose remote fee recipient differs from the desired
    address, letter case apart, costs one read and one write: a POST to the
    same path whose body is the object with the one key ethaddress and
    the file's address in lower case.  When the node accepts it, the old and
    the new address are reported and the loop goes on. *)
Theorem out_of_sync_entry_is_written_once
        args raw d desired remote s s1 :
  load_entry raw = Ok d ->
  getitem raw "ethaddress" = Ok (JStr desired) ->
  reports_fee json_loads serve args s (validating_pubkey d) remote s1 ->
  lower remote <> lower desired ->
  let w := fee_write_request args (validating_pubkey d) (lower desired) in
  filter is_http (snd (sync_entry_ args d s))
  = [Http (fee_read_request args (validating_pubkey d)); Http w]
  /\ get_method w = POST
  /\ full_url w = fmt (host args) ++ fee_path (validating_pubkey d)
  /\ data w
     = Some ("{" ++ q "ethaddress" ++ ": " ++ dumps_str (lower desired) ++ "}")
  /\ forall txt s2,
       serve s1 w = (Some txt, s2) ->
       sync_entry_ args d s
       = (Ok tt, s2,
          [Stdout thematic_break;
           Http (fee_read_request args (validating_pubkey d));
           Stdout ("Configuring " ++ validating_pubkey d ++ "...");
           Http w;
           Stdout ("Fee recipient updated. Previously " ++ lower remote
                   ++ ". Now " ++ lower desired)]).
Proof.
  intros Hl Hg Hrep Hne w.
  pose proof (load_entry_ethaddress _ _ _ Hl Hg) as Ha.
  assert (Hne' : lower remote <> ethaddress d) by now rewrite Ha.
  pose proof (sync_entry_out_of_sync json_loads Srv serve args d remote s s1
                                     Hrep Hne') as E.
  rewrite Ha in E. fold w in E.
  split.
  { rewrite E. destruct (serve s1 w) as [[txt|] s2]; reflexivity. }
  split; [unfold w, fee_write_request; now rewrite build_request_method|].
  split; [apply build_request_url|].
  split.
  { unfold w, fee_write_request. rewrite build_request_data.
    now rewrite fee_body_text. }
  intros txt s2 Hs. rewrite E, Hs. reflexivity.
Qed.

(** ** Failures before and during the loops *)

(** A comprehension raises when its element expression raises for one of
    the elements. *)
Lemma rmap_Exists {A B} (f : A -> result B) l :
  Exists (fun x => exists e, f x = Exn e) l -> exists e, rmap f l = Exn e.
Proof.
  induction l as [|x l IH]; intros H; [inversion H|].
  cbn [rmap]. destruct (f x) as [y|e] eqn:E; [|now exists e].
  inversion H as [? ? (e & He)|? ? Hl]; subst; [congruence|].
  destruct (IH Hl) as (e & He). exists e. cbn [rbind]. now rewrite He.
Qed.

(** The element expression of line 26 raises for anything but an object
    with strings under both keys. *)
Lemma load_entry_raises v : ~ fee_item v -> exists e, load_entry v = Exn e.
Proof.
  intros H. unfold load_entry.
  destruct v as [| | | | | |d]; try (eexists; reflexivity).
  unfold getitem.
  destruct (dict_get d "validating_pubkey") as [[| | | |p| |]|] eqn:Hp;
    try (eexists; reflexivity).
  cbn [rbind py_lower].
  destruct (dict_get d "ethaddress") as [[| | | |a| |]|] eqn:Ha;
    try (eexists; reflexivity).
  exfalso. apply H. now exists d, p, a.
Qed.

(** X7: when the fee recipient file cannot be read, or its text is not
    JSON, or the JSON value cannot be iterated (it is null, a boolean or a
    number), or one of the items that iterating it yields (the elements of
    an array, the keys of an object, the characters of a string) is not an
    object with strings under validating_pubkey and ethaddress, the
    program ends with exit code 1 before anything is printed and before any
    request is sent. *)
Theorem malformed_fee_file_sends_nothing environ cl file s :
  subcommand cl = SetFeeRecipients file ->
  truthy (host (parse_args environ cl)) = true ->
  truthy (auth (parse_args environ cl)) = true ->
  read_text file = None
  \/ (exists text, read_text file = Some text /\ json_loads text = None)
  \/ (exists text v,
        read_text file = Some text /\ json_loads text = Some v
        /\ (py_iter v = Exn TypeError
            \/ exists items,
                 py_iter v = Ok items
                 /\ Exists (fun item => ~ fee_item item) items)) ->
  exists e,
    set_fee_recipients_ (parse_args environ cl) file s = (Exn e, s, [])
    /\ main_ environ cl s = (1%Z, s, [Traceback e]).
Proof.
  intros Hc Hh Ha Hbad.
  assert (H : exists e,
             set_fee_recipients_ (parse_args environ cl) file s
             = (Exn e, s, [])).
  { unfold set_fee_recipients.
    unfold bind at 1. unfold read_file, lift at 1.
    destruct Hbad as [Hr|[(text & Hr & Hj)|(text & v & Hr & Hj & Hv)]];
      rewrite Hr; [now exists OSError| |].
    - unfold bind at 1. unfold loads, lift at 1. rewrite Hj.
      now exists JSONDecodeError.
    - unfold bind at 1. unfold loads, lift at 1. rewrite Hj.
      unfold bind at 1. unfold lift at 1.
      destruct Hv as [Hv|(items & Hv & Hex)]; rewrite Hv;
        [now exists TypeError|].
      cbn [rbind].
      destruct (rmap_Exists load_entry items) as (e & He).
      { eapply Exists_impl; [|exact Hex]. apply load_entry_raises. }
      rewrite He. now exists e. }
  destruct H as (e & H). exists e. split; [exact H|].
  assert (Hf : func (parse_args environ cl) = SetFeeRecipients file)
    by exact Hc.
  unfold main, run_command. rewrite Hh, Ha, Hf. cbn [negb orb].
  rewrite H. reflexivity.
Qed.


Lemma iter_app {A} (l1 l2 : list A) (body : A -> M Srv unit) s :
  iter (l1 ++ l2)%list body s
  = bind (iter l1 body) (fun _ => iter l2 body) s.
Proof.
  revert s. induction l1 as [|x l1 IH]; intros s; cbn [iter app].
  - unfold bind, ret. destruct (iter l2 body s) as [[r s'] t]. reflexivity.
  - unfold bind. destruct (body x s) as [[[u|e] s1] t1]; [|reflexivity].
    rewrite IH. unfold bind.
    destruct (iter l1 body s1) as [[[u'|e] s2] t2]; [|reflexivity].
    destruct (iter l2 body s2) as [[r s3] t3]. now rewrite app_assoc.
Qed.

(** On a node that answers every read and accepts every write for them,
    the entries are processed in order, one read each. *)
Lemma sync_loop_answered args es :
  (forall s d, In d es ->
     exists remote s',
       reports_fee json_loads serve args s (validating_pubkey d) remote s') ->
  (forall s d, In d es ->
     exists txt s',
       serve s (fee_write_request args (validating_pubkey d) (ethaddress d))
       = (Some txt, s')) ->
  forall s, exists s' t,
    iter es (sync_entry_ args) s = (Ok tt, s', t)
    /\ reads t
       = map (fun d => Http (fee_read_request args (validating_pubkey d))) es.
Proof.
  induction es as [|d es IH]; intros Hread Hwrite s.
  - exists s, []. split; reflexivity.
  - destruct (Hread s d (or_introl eq_refl)) as (remote & s0 & Hrep).
    assert (Hstep : exists s1 t1,
               sync_entry_ args d s = (Ok tt, s1, t1)
               /\ reads t1
                  = [Http (fee_read_request args (validating_pubkey d))]).
    { destruct (String.eqb_spec (lower remote) (ethaddress d)) as [Heq|Hne].
      - eexists s0, _. split;
          [eapply sync_entry_in_sync; eassumption|reflexivity].
      - destruct (Hwrite s0 d (or_introl eq_refl)) as (txt & s2 & Hs2).
        eexists s2, _. split.
        + erewrite sync_entry_out_of_sync by eassumption.
          rewrite Hs2. reflexivity.
        + unfold reads. cbn [filter is_read].
          unfold fee_write_request.
          rewrite !build_request_method. reflexivity. }
    destruct Hstep as (s1 & t1 & Hrun1 & Hr1).
    destruct (IH (fun s d Hd => Hread s d (or_intror Hd))
                 (fun s d Hd => Hwrite s d (or_intror Hd)) s1)
      as (s' & t & Hrun & Hr).
    eexists s', _. split.
    + cbn [iter]. eapply bind_run; [exact Hrun1|exact Hrun].
    + unfold reads in *. rewrite filter_app, Hr1, Hr. reflexivity.
Qed.

Lemma prelude_reads args managed t :
  reads (Http (listing_request args)
         :: Stdout "The node manages the following validators:"
         :: app (map Stdout (set_iter managed)) t)
  = Http (listing_request args) :: reads t.
Proof.
  unfold reads. cbn [filter is_read]. rewrite listing_request_is_read.
  rewrite filter_app. fold (reads (map Stdout (set_iter managed))).
  now rewrite reads_Stdout.
Qed.

(** X8: when every entry is managed and the node answers, the entries are
    processed in the order of the file: the reads of the run are the
    listing request and then one read per entry, in file order, and the
    result is 0. *)
Theorem synchronization_reads_in_file_order args file es s managed s1 :
  fee_entries_ file = Some es ->
  lists_keystores json_loads serve args s managed s1 ->
  Forall (fun d => mem (validating_pubkey d) managed = true) es ->
  (forall s d, In d es ->
     exists remote s',
       reports_fee json_loads serve args s (validating_pubkey d) remote s') ->
  (forall s d, In d es ->
     exists txt s',
       serve s (fee_write_request args (validating_pubkey d) (ethaddress d))
       = (Some txt, s')) ->
  exists s' t,
    set_fee_recipients_ args file s = (Ok 0%Z, s', t)
    /\ reads t
       = Http (listing_request args)
         :: map (fun d => Http (fee_read_request args (validating_pubkey d)))
                es.
Proof.
  intros He Hl Hall Hread Hwrite.
  destruct (sync_loop_answered args es Hread Hwrite s1)
    as (s' & t & Hrun & Hr).
  apply find_unmanaged_none in Hall.
  eexists s', _. split.
  - eapply sync_run; eassumption.
  - rewrite prelude_reads. unfold reads in *. rewrite filter_app, Hr.
    cbn. now rewrite app_nil_r.
Qed.

(** X9: a read that the node fails ends the synchronization at that entry
    with an exception: the entries before it have been processed, the
    failed read is the last event of the run, and no entry after it is
    read or written.  (When urllib's constructor refuses the URL of that
    read, the run ends there all the same, with ValueError and without the
    read.) *)
Theorem failed_read_aborts_synchronization
        args file es1 d es2 s managed s1 :
  fee_entries_ file = Some (es1 ++ d :: es2)%list ->
  lists_keystores json_loads serve args s managed s1 ->
  Forall (fun d => mem (validating_pubkey d) managed = true)
         (es1 ++ d :: es2)%list ->
  (forall s d, In d es1 ->
     exists remote s',
       reports_fee json_loads serve args s (validating_pubkey d) remote s') ->
  (forall s d, In d es1 ->
     exists txt s',
       serve s (fee_write_request args (validating_pubkey d) (ethaddress d))
       = (Some txt, s')) ->
  (forall s, fst (serve s (fee_read_request args (validating_pubkey d)))
             = None) ->
  let accepted :=
    Request_accepts (fmt (host args) ++ fee_path (validating_pubkey d)) in
  let failed_read :=
    if accepted then [Http (fee_read_request args (validating_pubkey d))]
    else [] in
  exists s' t,
    set_fee_recipients_ args file s
    = (Exn (if accepted then URLError else ValueError), s',
       app t (Stdout thematic_break :: failed_read))
    /\ reads (app t (Stdout thematic_break :: failed_read))
       = Http (listing_request args)
         :: app (map (fun d =>
                        Http (fee_read_request args (validating_pubkey d)))
                     es1)
                failed_read.
Proof.
  intros He Hl Hall Hread Hwrite Hfail. cbv zeta.
  destruct (sync_loop_answered args es1 Hread Hwrite s1)
    as (s2 & t1 & Hrun1 & Hr1).
  apply find_unmanaged_none in Hall.
  assert (Hd : exists s3,
             sync_entry_ args d s2
             = (Exn (if Request_accepts
                          (fmt (host args) ++ fee_path (validating_pubkey d))
                     then URLError else ValueError), s3,
                Stdout thematic_break
                :: if Request_accepts
                        (fmt (host args) ++ fee_path (validating_pubkey d))
                   then [Http (fee_read_request args (validating_pubkey d))]
                   else [])).
  { destruct (Request_accepts
                (fmt (host args) ++ fee_path (validating_pubkey d))) eqn:Hacc.
    - specialize (Hfail s2).
      destruct (serve s2 (fee_read_request args (validating_pubkey d)))
        as [o s3] eqn:Hs. cbn in Hfail. subst o.
      exists s3. unfold sync_entry. eapply eq_trans.
      { eapply bind_run; [reflexivity|].
        apply bind_Exn.
        apply (request_fails json_loads Srv serve _ _ _ _ _ Hacc Hs). }
      reflexivity.
    - exists s2. unfold sync_entry. eapply eq_trans.
      { eapply bind_run; [reflexivity|].
        apply bind_Exn.
        apply (request_refused json_loads Srv serve _ _ _ _ Hacc). }
      reflexivity. }
  destruct Hd as (s3 & Hd).
  set (failed_read :=
         if Request_accepts (fmt (host args) ++ fee_path (validating_pubkey d))
         then [Http (fee_read_request args (validating_pubkey d))]
         else []) in *.
  assert (Hloop : iter (es1 ++ d :: es2)%list (sync_entry_ args) s1
                  = (Exn (if Request_accepts
                               (fmt (host args)
                                ++ fee_path (validating_pubkey d))
                          then URLError else ValueError), s3,
                     app t1 (Stdout thematic_break :: failed_read))).
  { rewrite iter_app. eapply bind_run; [exact Hrun1|].
    cbn [iter]. apply bind_Exn. exact Hd. }
  exists s3.
  exists (Http (listing_request args)
          :: Stdout "The node manages the following validators:"
          :: app (map Stdout (set_iter managed)) t1).
  split.
  - unfold set_fee_recipients.
    erewrite fee_prelude; [|exact He|exact Hl|].
    2:{ eapply bind_run; [rewrite check_loop, Hall; reflexivity|].
        apply bind_Exn. exact Hloop. }
    cbn [app]. now rewrite <- app_assoc.
  - cbn [app]. rewrite <- app_assoc. rewrite prelude_reads.
    unfold reads in *. rewrite filter_app, Hr1. cbn [filter is_read].
    f_equal. f_equal. unfold failed_read.
    destruct (Request_accepts _); [|reflexivity].
    cbn [filter is_read]. unfold fee_read_request.
    now rewrite build_request_method.
Qed.


(** ** Failures during an import *)

Local Abbreviation import_requests_ := (import_requests json_loads read_text).
Local Abbreviation well_formed_keystores_ :=
  (well_formed_keystores json_loads read_text).
Local Abbreviation accepts_imports_ :=
  (accepts_imports json_loads read_text serve).

(** A file that cannot be read, is not JSON, or has no string pubkey ends
    the loop body right after the separator. *)
Lemma import_file_bad args passwd managed p s :
  keystore_of_ p = None ->
  exists e,
    import_file_ args passwd managed p s = (Exn e, s, [Stdout thematic_break]).
Proof.
  unfold keystore_of, import_file. intros H.
  unfold bind at 1. unfold print at 1, emit at 1.
  unfold bind at 1. unfold read_file, lift at 1.
  destruct (read_text p) as [text|]; [|now exists OSError].
  unfold bind at 1. unfold loads, lift at 1.
  destruct (json_loads text) as [d|]; [|now exists JSONDecodeError].
  unfold bind at 1. unfold lift at 1.
  destruct (keystore_pubkey d) as [pk|e]; [discriminate|now exists e].
Qed.

(** X10: a keystore file that cannot be read, is not JSON, or has no string
    under pubkey ends the import with an exception when its turn comes:
    the files before it have been imported or skipped (their writes stay
    sent), the separator printed for the bad file is the last event, and no
    file after it is read or sent. *)
Theorem bad_keystore_aborts_import args passwd ks1 p ks2 s managed s1 :
  lists_keystores json_loads serve args s managed s1 ->
  accepts_imports_ args passwd managed ks1 ->
  well_formed_keystores_ ks1 ->
  keystore_of_ p = None ->
  exists e s' t,
    import_keystores_ args passwd (ks1 ++ p :: ks2)%list s
    = (Exn e, s', app t [Stdout thematic_break])
    /\ filter is_http (app t [Stdout thematic_break])
       = Http (listing_request args)
         :: import_requests_ args passwd managed ks1.
Proof.
  intros Hl Hacc Hwf Hbad.
  destruct (request_listing json_loads Srv serve _ _ _ _ Hl)
    as (resp & Hreq & Hm).
  destruct (import_loop json_loads read_text Srv serve args passwd managed
                        ks1
                        (lists_keystores_accepted json_loads Srv serve
                                                  _ _ _ _ Hl)
                        Hacc Hwf s1) as (s2 & t1 & Hrun1 & Ht1).
  destruct (import_file_bad args passwd managed p s2 Hbad) as (e & Hp).
  exists e, s2.
  exists (Http (listing_request args)
          :: Stdout "The node manages the following validators:"
          :: app (map Stdout (set_iter managed)) t1).
  split.
  - unfold import_keystores. eapply eq_trans.
    { eapply bind_run; [exact Hreq|].
      eapply bind_run; [unfold lift; rewrite Hm; reflexivity|].
      eapply bind_run; [reflexivity|].
      eapply bind_run; [apply iter_print|].
      apply bind_Exn. rewrite iter_app.
      eapply bind_run; [exact Hrun1|].
      cbn [iter]. apply bind_Exn. exact Hp. }
    cbn [app]. now rewrite <- app_assoc.
  - cbn [app filter is_http]. rewrite !filter_app, http_Stdout, Ht1.
    cbn. now rewrite app_nil_r.
Qed.

(** X11: what the node answers to a write is not looked at: whatever the
    response text is (an error report, or no JSON at all), the file is
    reported as imported and the loop goes on.  (When urllib's constructor
    refuses the URL the write is not sent, and the loop ends with
    ValueError.) *)
Theorem import_ignores_the_response
        args passwd managed p text pubkey s txt s' :
  keystore_of_ p = Some (text, pubkey) ->
  mem pubkey managed = false ->
  serve s (import_request args passwd text) = (Some txt, s') ->
  import_file_ args passwd managed p s
  = if Request_accepts (fmt (host args) ++ "/eth/v1/keystores")
    then (Ok tt, s',
          [Stdout thematic_break;
           Stdout ("Importing " ++ pubkey ++ "...");
           Http (import_request args passwd text);
           Stdout "Keystore imported"])
    else (Exn ValueError, s,
          [Stdout thematic_break;
           Stdout ("Importing " ++ pubkey ++ "...")]).
Proof.
  intros Hk Hm Hs.
  destruct (Request_accepts (fmt (host args) ++ "/eth/v1/keystores")) eqn:Hacc.
  - rewrite (import_file_new json_loads read_text Srv serve args passwd
                             managed p text pubkey s Hacc Hk Hm).
    now rewrite Hs.
  - apply (import_file_refused json_loads read_text Srv serve args passwd
                               managed p text pubkey s Hacc Hk Hm).
Qed.

(** ** What the result of a run says *)

Lemma bind_Ok_inv {A B} (m : M Srv A) (f : A -> M Srv B) s b s' t :
  bind m f s = (Ok b, s', t) ->
  exists a s1 t1 t2,
    m s = (Ok a, s1, t1) /\ f a s1 = (Ok b, s', t2) /\ t = (t1 ++ t2)%list.
Proof.
  unfold bind. destruct (m s) as [[[a|e] s1] t1]; [|discriminate].
  destruct (f a s1) as [[r s2] t2] eqn:Hf. intros [= -> -> <-].
  now exists a, s1, t1, t2.
Qed.

Lemma import_loop_inv args passwd managed ks :
  Request_accepts (fmt (host args) ++ "/eth/v1/keystores") = true ->
  forall s s' t,
    iter ks (import_file_ args passwd managed) s = (Ok tt, s', t) ->
    well_formed_keystores_ ks
    /\ filter is_http t = import_requests_ args passwd managed ks.
Proof.
  intros Hacc. induction ks as [|p ks IH]; intros s s' t H.
  - injection H as _ <-. split; [constructor|reflexivity].
  - cbn [iter] in H. apply bind_Ok_inv in H
      as ([] & s1 & t1 & t2 & Hp & Hrest & ->).
    apply IH in Hrest as [Hwf Ht2].
    destruct (keystore_of_ p) as [[text pk]|] eqn:Hk.
    2:{ destruct (import_file_bad args passwd managed p s Hk) as (e & He).
        congruence. }
    split; [constructor; [congruence|exact Hwf]|].
    unfold import_requests. cbn [flat_map]. rewrite Hk.
    rewrite filter_app, Ht2. f_equal.
    destruct (mem pk managed) eqn:Hm.
    + rewrite (import_file_skip json_loads read_text Srv serve args passwd
                 managed p text pk s Hk Hm) in Hp.
      now injection Hp as _ <-.
    + rewrite (import_file_new json_loads read_text Srv serve args passwd
                 managed p text pk s Hacc Hk Hm) in Hp.
      destruct (serve s _) as [[txt|] s2]; [|discriminate].
      now injection Hp as _ <-.
Qed.

Lemma import_returns_0 args passwd ks s c s' t :
  import_keystores_ args passwd ks s = (Ok c, s', t) -> c = 0%Z.
Proof.
  unfold import_keystores. intros H.
  apply bind_Ok_inv in H as (resp & s1 & t1 & r1 & _ & H & _).
  apply bind_Ok_inv in H as (managed & s2 & t2 & r2 & _ & H & _).
  apply bind_Ok_inv in H as ([] & s3 & t3 & r3 & _ & H & _).
  apply bind_Ok_inv in H as ([] & s4 & t4 & r4 & _ & H & _).
  apply bind_Ok_inv in H as ([] & s5 & t5 & r5 & _ & H & _).
  apply bind_Ok_inv in H as ([] & s6 & t6 & r6 & _ & H & _).
  apply bind_Ok_inv in H as ([] & s7 & t7 & r7 & _ & H & _).
  now injection H as <- _ _.
Qed.

(** A listing request that returned was built, sent and answered. *)
Lemma request_listing_inv args s resp s1 t1 :
  request_ args "/eth/v1/keystores" None s = (Ok resp, s1, t1) ->
  Request_accepts (fmt (host args) ++ "/eth/v1/keystores") = true
  /\ t1 = [Http (listing_request args)]
  /\ exists txt,
       serve s (listing_request args) = (Some txt, s1)
       /\ json_loads txt = Some resp.
Proof.
  intros Hreq.
  destruct (Request_accepts (fmt (host args) ++ "/eth/v1/keystores")) eqn:Hacc.
  2:{ rewrite (request_refused json_loads Srv serve _ _ _ _ Hacc) in Hreq.
      discriminate. }
  split; [reflexivity|].
  rewrite (request_accepted json_loads Srv serve _ _ _ _ Hacc) in Hreq.
  unfold bind, urlopen in Hreq. fold (listing_request args) in Hreq.
  destruct (serve s (listing_request args)) as [[txt|] s0] eqn:Hs;
    [|discriminate].
  cbn in Hreq. unfold loads, lift in Hreq.
  destruct (json_loads txt) as [v|] eqn:Hj; [|discriminate].
  injection Hreq as -> -> <-. split; [reflexivity|]. now exists txt.
Qed.

Local Abbreviation spec_pubkey_ := (spec_pubkey json_loads read_text).
Local Abbreviation spec_already_managed_ :=
  (spec_already_managed json_loads read_text).
Local Abbreviation spec_import_requests_ :=
  (spec_import_requests json_loads read_text).




Lemma fee_result args file s c s' t :
  set_fee_recipients_ args file s = (Ok c, s', t) -> c = 0%Z \/ c = 1%Z.
Proof.
  unfold set_fee_recipients. intros H.
  apply bind_Ok_inv in H as (text & s1 & t1 & r1 & _ & H & _).
  apply bind_Ok_inv in H as (v & s2 & t2 & r2 & _ & H & _).
  apply bind_Ok_inv in H as (es & s3 & t3 & r3 & _ & H & _).
  apply bind_Ok_inv in H as (resp & s4 & t4 & r4 & _ & H & _).
  apply bind_Ok_inv in H as (managed & s5 & t5 & r5 & _ & H & _).
  apply bind_Ok_inv in H as ([] & s6 & t6 & r6 & _ & H & _).
  apply bind_Ok_inv in H as ([] & s7 & t7 & r7 & _ & H & _).
  apply bind_Ok_inv in H as (r & s8 & t8 & r8 & Hcheck & H & _).
  destruct r as [code|].
  - injection H as <- _ _.
    rewrite (check_loop Srv) in Hcheck.
    destruct (find _ es); [|discriminate].
    injection Hcheck as <- _ _. now right.
  - apply bind_Ok_inv in H as ([] & s9 & t9 & r9 & _ & H & _).
    apply bind_Ok_inv in H as ([] & sa & ta & ra & _ & H & _).
    apply bind_Ok_inv in H as ([] & sb & tb & rb & _ & H & _).
    injection H as <- _ _. now left.
Qed.

(** X13: once argparse has accepted the command line (it names one of the
    two subcommands with its arguments; what argparse rejects or answers
    itself never reaches line 126), the exit code is 0, 1 or 2.  It is 2
    exactly when the host or the token is missing or empty after the flags
    have been completed from the environment, and then nothing else
    happens; a flag given as the empty string is not replaced by the
    environment's value, so it ends in the usage error too. *)
Theorem exit_code_is_0_1_or_2 environ cl s :
  let args := parse_args environ cl in
  let code := fst (fst (main_ environ cl s)) in
  (code = 0%Z \/ code = 1%Z \/ code = 2%Z)
  /\ (code = 2%Z <-> truthy (host args) = false \/ truthy (auth args) = false)
  /\ (code = 2%Z -> main_ environ cl s = (2%Z, s, [Usage usage_message]))
  /\ (host_flag cl = Some EmptyString \/ auth_flag cl = Some EmptyString ->
      code = 2%Z).
Proof.
  cbv zeta.
  assert (Hrun : forall c s' t,
             run_command_ (parse_args environ cl) s = (Ok c, s', t) ->
             c = 0%Z \/ c = 1%Z).
  { unfold run_command. destruct (func _) as [file|passwd ks]; intros c s' t H.
    - eapply fee_result; exact H.
    - left. eapply import_returns_0; exact H. }
  unfold main.
  destruct (truthy (auth (parse_args environ cl))) eqn:Ha;
    destruct (truthy (host (parse_args environ cl))) eqn:Hh;
    cbn [negb orb fst].
  - destruct (run_command_ (parse_args environ cl) s) as [[[c|e] s'] t] eqn:Hr;
      cbn [fst].
    + destruct (Hrun c s' t eq_refl) as [-> | ->].
      * split; [auto|]. split; [split; [discriminate|intros [|]; discriminate]|].
        split; [discriminate|].
        intros [Hf|Hf]; unfold parse_args in Hh, Ha; cbn in Hh, Ha;
          rewrite Hf in *; discriminate.
      * split; [auto|]. split; [split; [discriminate|intros [|]; discriminate]|].
        split; [discriminate|].
        intros [Hf|Hf]; unfold parse_args in Hh, Ha; cbn in Hh, Ha;
          rewrite Hf in *; discriminate.
    + split; [auto|]. split; [split; [discriminate|intros [|]; discriminate]|].
      split; [discriminate|].
      intros [Hf|Hf]; unfold parse_args in Hh, Ha; cbn in Hh, Ha;
        rewrite Hf in *; discriminate.
  - repeat split; auto.
  - repeat split; auto.
  - repeat split; auto.
Qed.


(** ** What a synchronization leaves on the node *)

(** One entry on a node that keeps its fee recipients. *)
Lemma sync_entry_sets args managed Inv fee_of d s :
  keeps_fee_recipients json_loads serve args managed Inv fee_of ->
  mem (validating_pubkey d) managed = true ->
  lower (ethaddress d) = ethaddress d ->
  Inv s ->
  exists s1 t1,
    sync_entry_ args d s = (Ok tt, s1, t1)
    /\ Inv s1
    /\ lower (fee_of s1 (validating_pubkey d)) = ethaddress d
    /\ forall pubkey, mem pubkey managed = true ->
                      pubkey <> validating_pubkey d ->
                      fee_of s1 pubkey = fee_of s pubkey.
Proof.
  intros (_ & Hread & Hwrite) Hmd Hld Hinv.
  destruct (Hread s _ Hinv Hmd) as (s0 & Hrep & Hinv0 & Hsame).
  destruct (String.eqb_spec (lower (fee_of s (validating_pubkey d)))
                            (ethaddress d)) as [Heq|Hne].
  - eexists s0, _. split; [eapply sync_entry_in_sync; eassumption|].
    split; [exact Hinv0|].
    split; [now rewrite Hsame|]. intros pk _ _. apply Hsame.
  - destruct (Hwrite s0 _ (ethaddress d) Hinv0 Hmd)
      as (txt & s2 & Hs2 & Hinv2 & Hset & Hframe).
    eexists s2, _. split.
    + erewrite sync_entry_out_of_sync by eassumption.
      rewrite Hs2. reflexivity.
    + split; [exact Hinv2|]. split; [now rewrite Hset|].
      intros pk Hm Hpk. now rewrite Hframe, Hsame.
Qed.

Lemma sync_loop_last_wins args managed Inv fee_of es :
  keeps_fee_recipients json_loads serve args managed Inv fee_of ->
  Forall (fun d => mem (validating_pubkey d) managed = true) es ->
  Forall (fun d => lower (ethaddress d) = ethaddress d) es ->
  forall s, Inv s ->
  exists s' t,
    iter es (sync_entry_ args) s = (Ok tt, s', t)
    /\ Inv s'
    /\ (forall es1 d es2,
          es = (es1 ++ d :: es2)%list ->
          (forall e, In e es2 -> validating_pubkey e <> validating_pubkey d) ->
          lower (fee_of s' (validating_pubkey d)) = ethaddress d)
    /\ (forall pubkey,
          mem pubkey managed = true ->
          (forall d, In d es -> validating_pubkey d <> pubkey) ->
          fee_of s' pubkey = fee_of s pubkey).
Proof.
  intros Hkeeps Hman Hlow.
  induction es as [|d es IH]; intros s Hinv.
  - exists s, []. split; [reflexivity|]. split; [exact Hinv|].
    split; [|reflexivity].
    intros es1 d es2 H. now destruct es1.
  - inversion Hman as [|? ? Hmd Hman']; subst.
    inversion Hlow as [|? ? Hld Hlow']; subst.
    destruct (sync_entry_sets args managed Inv fee_of d s Hkeeps Hmd Hld Hinv)
      as (s1 & t1 & Hrun1 & Hinv1 & Hd1 & Hframe1).
    destruct (IH Hman' Hlow' s1 Hinv1)
      as (s' & t & Hrun & Hinv' & Hlast & Hframe).
    eexists s', _. split; [|split; [exact Hinv'|split]].
    + cbn [iter]. eapply bind_run; [exact Hrun1|exact Hrun].
    + intros es1 d' es2 Heq Hno. destruct es1 as [|x es1].
      * injection Heq as <- <-.
        rewrite Hframe; [exact Hd1|exact Hmd|exact Hno].
      * injection Heq as <- ->. eapply Hlast; [reflexivity|exact Hno].
    + intros pk Hm Hpk. rewrite Hframe; [|exact Hm|].
      * apply Hframe1; [exact Hm|].
        intros ->. now apply (Hpk d (or_introl eq_refl)).
      * intros e He. apply Hpk. now right.
Qed.

(** X14: on a node that keeps the fee recipients it is given, a
    synchronization whose entries are all managed returns 0 and leaves, for
    every validator named in the file, the address of its last entry in
    the file (up to letter case); the managed validators that the file does
    not name keep the address they had. *)
Theorem synchronization_sets_the_last_entry
        args file es managed Inv fee_of s :
  keeps_fee_recipients json_loads serve args managed Inv fee_of ->
  Inv s ->
  fee_entries_ file = Some es ->
  Forall (fun d => mem (validating_pubkey d) managed = true) es ->
  exists s' t,
    set_fee_recipients_ args file s = (Ok 0%Z, s', t)
    /\ Inv s'
    /\ (forall es1 d es2,
          es = (es1 ++ d :: es2)%list ->
          (forall e, In e es2 -> validating_pubkey e <> validating_pubkey d) ->
          lower (fee_of s' (validating_pubkey d)) = ethaddress d)
    /\ (forall pubkey,
          mem pubkey managed = true ->
          (forall d, In d es -> validating_pubkey d <> pubkey) ->
          fee_of s' pubkey = fee_of s pubkey).
Proof.
  intros Hkeeps Hinv He Hall.
  pose proof Hkeeps as (Hlist & _ & _).
  destruct (Hlist s Hinv) as (s0 & Hl0 & Hinv0 & Hsame0).
  destruct (sync_loop_last_wins args managed Inv fee_of es Hkeeps Hall
              (fee_entries_are_lower json_loads read_text _ _ He) s0 Hinv0)
    as (s' & t & Hloop & Hinv' & Hlast & Hframe).
  eexists s', _. split; [|split; [exact Hinv'|split]].
  - eapply sync_run; [exact He|exact Hl0| |exact Hloop].
    now apply find_unmanaged_none.
  - exact Hlast.
  - intros pk Hm Hpk. rewrite Hframe by assumption. apply Hsame0.
Qed.

(** ** Letter case and the 0x prefix *)

(** X15: the validation of the synchronization compares pubkeys without
    regard to letter case: an entry passes exactly when the node lists a
    pubkey that equals the entry's, letter case apart. *)
Theorem fee_validation_ignores_letter_case resp items keys raw d P :
  getitem resp "data" = Ok (JList items) ->
  Forall2 (fun item k => getitem item "validating_pubkey" = Ok (JStr k))
          items keys ->
  load_entry raw = Ok d ->
  getitem raw "validating_pubkey" = Ok (JStr P) ->
  exists managed,
    managed_set resp = Ok managed
    /\ managed = map lower keys
    /\ (unmanaged managed d = false
        <-> exists k, In k keys /\ lower k = lower P).
Proof.
  intros Hd Hitems Hl Hp.
  assert (Hm : managed_set resp = Ok (map lower keys)).
  { unfold managed_set. rewrite Hd. cbn [rbind py_iter].
    clear -Hitems. induction Hitems as [|item k items keys Hk _ IH];
      [reflexivity|].
    cbn [rmap map]. rewrite Hk. cbn [rbind py_lower]. now rewrite IH. }
  assert (Hpk : validating_pubkey d = lower P).
  { unfold load_entry in Hl. rewrite Hp in Hl. cbn [rbind py_lower] in Hl.
    destruct (getitem raw "ethaddress") as [a|]; [|discriminate].
    cbn [rbind] in Hl. destruct (py_lower a); [|discriminate].
    now injection Hl as <-. }
  exists (map lower keys). split; [exact Hm|]. split; [reflexivity|].
  unfold unmanaged. rewrite Hpk, negb_false_iff, mem_In, in_map_iff.
  split; intros (k & H1 & H2); exists k; split; auto.
Qed.

(** X16: the pubkey that the import prints and looks up always starts with
    0x: a pubkey that starts with 0x (in lower case) is taken as it is,
    any other gets 0x in front, and doing it again changes nothing. *)
Theorem keystore_pubkey_starts_with_0x d raw :
  getitem d "pubkey" = Ok (JStr raw) ->
  exists pubkey,
    keystore_pubkey d = Ok pubkey
    /\ startswith pubkey "0x" = true
    /\ (startswith raw "0x" = true -> pubkey = raw)
    /\ (startswith raw "0x" = false -> pubkey = "0x" ++ raw)
    /\ keystore_pubkey (JDict [("pubkey", JStr pubkey)]) = Ok pubkey.
Proof.
  intros H. unfold keystore_pubkey at 1. rewrite H. cbn [rbind].
  destruct (startswith raw "0x") eqn:E.
  - exists raw. split; [reflexivity|]. split; [exact E|].
    split; [reflexivity|]. split; [discriminate|].
    unfold keystore_pubkey. cbn [getitem dict_get rbind].
    rewrite String.eqb_refl. cbn [rbind]. now rewrite E.
  - exists ("0x" ++ raw). split; [reflexivity|].
    assert (E' : startswith ("0x" ++ raw) "0x" = true).
    { unfold startswith. cbn. now destruct raw. }
    split; [exact E'|]. split; [discriminate|]. split; [reflexivity|].
    unfold keystore_pubkey. cbn [getitem dict_get rbind].
    rewrite String.eqb_refl. cbn [rbind]. now rewrite E'.
Qed.


(** ** A listing that fails *)

(** The element expression of lines 30 and 64 raises for anything but an
    object with a string under validating_pubkey. *)
Lemma listed_item_raises v :
  ~ listed_item v ->
  exists e, rbind (getitem v "validating_pubkey") py_lower = Exn e.
Proof.
  intros H. destruct v as [| | | | | |d]; try (eexists; reflexivity).
  unfold getitem.
  destruct (dict_get d "validating_pubkey") as [[| | | |k| |]|] eqn:Hk;
    try (eexists; reflexivity).
  exfalso. apply H. now exists d, k.
Qed.

(** X17: both workflows end with an exception at the listing request when it
    fails, and go no further: nothing is printed, no fee recipient is read,
    no keystore is sent.  When urllib's constructor refuses the URL (a host
    given without http://), the exception is ValueError and not even the
    listing request is sent.  Otherwise the listing request is the one
    event of the run, and the run ends with the exception when the node
    fails the request, when its answer is not JSON, when the answer is not
    an object with the key data, when the value under data cannot be
    iterated (null, a boolean, a number), or when one of the items that
    iterating it yields is not an object with a string under
    validating_pubkey. *)
Theorem failed_listing_aborts args s (run : M Srv Z) :
  (exists passwd ks, run = import_keystores_ args passwd ks)
  \/ (exists file es,
        fee_entries_ file = Some es /\ run = set_fee_recipients_ args file) ->
  let accepted := Request_accepts (fmt (host args) ++ "/eth/v1/keystores") in
  let listing := listing_request args in
  (accepted = false -> run s = (Exn ValueError, s, []))
  /\ (accepted = true ->
      forall s1, serve s listing = (None, s1) ->
      run s = (Exn URLError, s1, [Http listing]))
  /\ (accepted = true ->
      forall txt s1,
        serve s listing = (Some txt, s1) ->
        json_loads txt = None ->
        run s = (Exn JSONDecodeError, s1, [Http listing]))
  /\ (accepted = true ->
      forall txt s1 resp,
        serve s listing = (Some txt, s1) ->
        json_loads txt = Some resp ->
        (exists e, getitem resp "data" = Exn e)
        \/ (exists v,
              getitem resp "data" = Ok v
              /\ (py_iter v = Exn TypeError
                  \/ exists items,
                       py_iter v = Ok items
                       /\ Exists (fun item => ~ listed_item item) items)) ->
        exists e, run s = (Exn e, s1, [Http listing])).
Proof.
  intros Hrun. cbv zeta.
  assert (H : exists k : list str -> M Srv Z,
             forall s0,
               run s0
               = bind (request_ args "/eth/v1/keystores" None) (fun resp_obj =>
                 bind (lift (managed_set resp_obj)) k) s0).
  { destruct Hrun as [(passwd & ks & ->)|(file & es & He & ->)].
    - eexists. intros s0. unfold import_keystores. reflexivity.
    - eexists. intros s0. unfold set_fee_recipients.
      rewrite (fee_loaded _ _ _ _ He). reflexivity. }
  destruct H as (k & H). rewrite H. clear H Hrun run.
  split; [|split; [|split]].
  - intros Hacc. unfold bind at 1.
    now rewrite (request_refused json_loads Srv serve _ _ _ _ Hacc).
  - intros Hacc s1 Hs. unfold bind at 1.
    now rewrite (request_fails json_loads Srv serve _ _ _ _ _ Hacc Hs).
  - intros Hacc txt s1 Hs Hj. unfold bind at 1.
    rewrite (request_get json_loads Srv serve _ _ _ _ _ Hacc Hs), Hj.
    reflexivity.
  - intros Hacc txt s1 resp Hs Hj Hbad. unfold bind at 1.
    rewrite (request_get json_loads Srv serve _ _ _ _ _ Hacc Hs), Hj.
    assert (Hm : exists e, managed_set resp = Exn e).
    { unfold managed_set.
      destruct Hbad as [(e & Hd)|(v & Hd & Hv)]; rewrite Hd;
        [now exists e|].
      cbn [rbind].
      destruct Hv as [Hv|(items & Hv & Hex)]; rewrite Hv;
        [now exists TypeError|].
      cbn [rbind]. apply rmap_Exists.
      eapply Exists_impl; [|exact Hex]. apply listed_item_raises. }
    destruct Hm as (e & Hm). exists e.
    unfold bind, lift. now rewrite Hm.
Qed.


(** ** A file that iterates to nothing *)

(** X18: the synchronization iterates over the value of its file and does
    not ask that it be an array: a file that holds an empty object or an
    empty string is synchronized like one that holds an empty array.  The
    listing request is the only request, the success summary is printed,
    and the result is 0. *)
Theorem empty_iteration_is_an_empty_file args file text v s managed s1 :
  read_text file = Some text ->
  json_loads text = Some v ->
  v = JList [] \/ v = JDict [] \/ v = JStr EmptyString ->
  lists_keystores json_loads serve args s managed s1 ->
  set_fee_recipients_ args file s
  = (Ok 0%Z, s1,
     Http (listing_request args)
     :: Stdout "The node manages the following validators:"
     :: app (map Stdout (set_iter managed))
          [Stdout thematic_break;
           Stdout "Success. All fee recipients synchronized."])
  /\ filter is_http (snd (set_fee_recipients_ args file s))
     = [Http (listing_request args)].
Proof.
  intros Hr Hj Hv Hl.
  assert (He : fee_entries_ file = Some []).
  { unfold fee_entries. rewrite Hr, Hj.
    destruct Hv as [->|[->| ->]]; reflexivity. }
  match goal with |- ?x = ?y /\ _ => assert (E : x = y) end.
  { unfold set_fee_recipients.
    eapply (fee_prelude json_loads set_iter read_text Srv serve);
      [exact He|exact Hl|]. reflexivity. }
  split; [exact E|]. rewrite E. cbn [snd filter is_http].
  now rewrite filter_app, http_Stdout.
Qed.


End AllRuns.


(** * The program on concrete inputs *)

(** From here on the URL check is the one of the reference environment. *)
#[local] Existing Instance has_url_type.

(** ** The request helper *)

Lemma request_with_and_without_body :
  request json_loads_ref echo import_args "/eth/v1/keystores" (Some "{}") tt
  = (Ok (JStr "{}"), tt,
     [Http (mkRequest (localhost ++ "/eth/v1/keystores") (Some "{}")
              [("authorization", "Bearer secret"); ("accept", "*/*");
               ("content-type", "application/json")])])
  /\ request json_loads_ref echo import_args "/eth/v1/keystores" None tt
     = (Ok (JDict []), tt,
        [Http (mkRequest (localhost ++ "/eth/v1/keystores") None
                 [("authorization", "Bearer secret");
                  ("accept", "application/json")])]).
Proof.
  split.
  - destruct (request_contract json_loads_ref unit echo import_args
                "/eth/v1/keystores" (Some "{}") tt)
      as (_ & _ & _ & _ & H & _).
    destruct (H "{}" eq_refl) as (_ & _ & _ & Hr); [discriminate|].
    exact (Hr "{}" tt eq_refl).
  - destruct (request_contract json_loads_ref unit echo import_args
                "/eth/v1/keystores" None tt) as (_ & _ & _ & _ & _ & H).
    destruct (H eq_refl) as (_ & _ & Hr).
    exact (Hr "{}" tt eq_refl).
Defined.

(** C7 as stated fails for a body that is supplied and empty: urllib sends
    it with POST, but line 11 tests the truth value of the body, so the
    headers are those of a call without body (no accept: */*, no
    content-type) and the response is parsed instead of returned as text. *)
Lemma request_with_empty_body :
  let req := build_request import_args "/eth/v1/keystores" (Some EmptyString) in
  data req = Some EmptyString
  /\ get_method req = POST
  /\ headers req = [("authorization", "Bearer secret");
                    ("accept", "application/json")]
  /\ ~ In ("accept", "*/*") (headers req)
  /\ ~ In ("content-type", "application/json") (headers req)
  /\ request json_loads_ref echo import_args "/eth/v1/keystores"
             (Some EmptyString) tt
     = (Ok (JDict []), tt, [Http req])
  /\ request json_loads_ref echo import_args "/eth/v1/keystores"
             (Some EmptyString) tt
     <> (Ok (JStr "{}"), tt, [Http req]).
Proof.
  cbv zeta. repeat split; try reflexivity; try discriminate.
  - cbn. intros [H|[H|[]]]; discriminate.
  - cbn. intros [H|[H|[]]]; discriminate.
Qed.

(** ** The top-level script *)

Lemma usage_error_without_host :
  ref_main no_environ
           (mkCmdline None (Some "secret") (SetFeeRecipients "fees.json"))
           [] node_none
  = (2%Z, node_none, [Usage usage_message]).
Proof.
  apply (missing_host_or_auth_is_usage_error
           json_loads_ref set_iter_ref (read_text_ref []) node
           (serve_ref localhost) no_environ
           (mkCmdline None (Some "secret") (SetFeeRecipients "fees.json"))).
  left. split; reflexivity.
Defined.

(** ** Keystore import *)

Lemma node_aa_lists :
  lists_keystores json_loads_ref (serve_ref localhost) import_args
                  node_aa ["0xaa"] node_aa.
Proof.
  split; [reflexivity|]. do 2 eexists. repeat split; reflexivity.
Defined.

Lemma node_abc123_lists :
  lists_keystores json_loads_ref (serve_ref localhost) import_args
                  node_abc123 ["0xabc123"] node_abc123.
Proof.
  split; [reflexivity|]. do 2 eexists. repeat split; reflexivity.
Defined.

Lemma node_accepts_twin_keystores :
  accepts_imports json_loads_ref (read_text_ref twin_keystores)
                  (serve_ref localhost) import_args "pw" ["0xaa"]
                  ["first.json"; "second.json"].
Proof.
  intros s p text pk [<-|[<-|[]]] Hk Hm;
    vm_compute in Hk; injection Hk as <- <-; do 2 eexists; reflexivity.
Defined.

Lemma twin_keystores_well_formed :
  well_formed_keystores json_loads_ref (read_text_ref twin_keystores)
                        ["first.json"; "second.json"].
Proof. repeat constructor; discriminate. Defined.

(** C1 on the code: the file's pubkey 0xABC and the managed 0xabc differ in
    letter case only, and the file is not skipped: its import request is
    sent.  The same happens when the node itself reports 0xABC, the very
    string of the file, because only the node's side is lower-cased. *)
Example capital_pubkey_is_imported_again :
  lower "0xABC" = lower "0xabc"
  /\ run_ref keystore_ABC (ImportKeystores "pw" ["keystore.json"]) node_abc
     = (Ok 0%Z, node_abc,
        [Http (listing_request import_args);
         Stdout "The node manages the following validators:";
         Stdout "0xabc";
         Stdout thematic_break;
         Stdout "Importing 0xABC...";
         Http (import_request import_args "pw" (keystore_text "0xABC"));
         Stdout "Keystore imported";
         Stdout thematic_break;
         Stdout "Success. All keystores imported."])
  /\ writes (snd (run_ref keystore_ABC
                          (ImportKeystores "pw" ["keystore.json"]) node_ABC))
     = [Http (import_request import_args "pw" (keystore_text "0xABC"))].
Proof. repeat split; vm_compute; reflexivity. Qed.

Lemma keystore_b_is_sent_as_it_is :
  let req := import_request import_args "pw" (keystore_text "0xbb") in
  filter is_http
    (snd (import_file json_loads_ref (read_text_ref two_keystores)
            (serve_ref localhost) import_args "pw" ["0xaa"] "b.json" node_aa))
  = [Http req]
  /\ get_method req = POST
  /\ full_url req = "http://127.0.0.1:5052/eth/v1/keystores"
  /\ exists body,
       data req = Some body
       /\ json_loads_ref body
          = Some (JDict [("keystores", JList [JStr (keystore_text "0xbb")]);
                         ("passwords", JList [JStr "pw"])]).
Proof.
  destruct (imported_keystore_carries_raw_text
              json_loads_ref (read_text_ref two_keystores) node
              (serve_ref localhost) import_args "pw" ["0xaa"] "b.json"
              (keystore_text "0xbb") "0xbb" node_aa eq_refl eq_refl)
    as (_ & H1 & H2 & H3 & _ & _ & H4).
  repeat split; assumption.
Defined.

(** Scenario D. *)
Example scenario_D_writes_once :
  let '(r, n, t) := run_ref two_keystores
                      (ImportKeystores "pw" ["a.json"; "b.json"]) node_aa in
  r = Ok 0%Z
  /\ writes t = [Http (import_request import_args "pw" (keystore_text "0xbb"))]
  /\ last t (Stdout EmptyString) = Stdout "Success. All keystores imported.".
Proof. vm_compute. repeat split. Qed.

Lemma node_accepts_new_keystores :
  accepts_new_keystores json_loads_ref (read_text_ref four_keystores)
                        (serve_ref localhost) import_args "pw" ["0xaa"]
                        ["bare.json"; "a.json"; "b.json"].
Proof.
  intros s p text pk [<-|[<-|[<-|[]]]] Hr Hp Hm;
    vm_compute in Hr; vm_compute in Hp;
    injection Hr as <-; injection Hp as <-.
  - exfalso. apply Hm. now left.
  - exfalso. apply Hm. now left.
  - do 2 eexists. reflexivity.
Defined.

Lemma three_keystores_have_a_pubkey :
  Forall (fun p => spec_pubkey json_loads_ref (read_text_ref four_keystores) p
                   <> None)
         ["bare.json"; "a.json"; "b.json"].
Proof. repeat constructor; discriminate. Defined.



(** Scenario C. *)
Lemma scenario_C_is_skipped :
  run_ref keystore_abc123 (ImportKeystores "pw" ["keystore.json"]) node_abc123
  = (Ok 0%Z, node_abc123,
     [Http (listing_request import_args);
      Stdout "The node manages the following validators:";
      Stdout "0xabc123";
      Stdout thematic_break;
      Stdout "Importing 0xabc123...";
      Stdout "The node already manages this validating pubkey. Skipping this one.";
      Stdout thematic_break;
      Stdout "Success. All keystores imported."])
  /\ writes (snd (run_ref keystore_abc123
                          (ImportKeystores "pw" ["keystore.json"]) node_abc123))
     = [].
Proof.
  destruct (managed_keystore_is_skipped
              json_loads_ref set_iter_ref (read_text_ref keystore_abc123) node
              (serve_ref localhost) import_args "pw" ["0xabc123"]
              "keystore.json" (keystore_text "abc123")
              (JDict [("crypto", JDict []); ("pubkey", JStr "abc123")])
              "abc123" eq_refl eq_refl eq_refl eq_refl) as [_ H].
  exact (H node_abc123 node_abc123 node_abc123_lists).
Defined.

(** Scenario C from the command line: exit code 0. *)
Example scenario_C_exit_code :
  fst (fst (ref_main no_environ
              (mkCmdline (Some localhost) (Some "secret")
                         (ImportKeystores "pw" ["keystore.json"]))
              keystore_abc123 node_abc123))
  = 0%Z.
Proof. reflexivity. Qed.

(** Two files with one pubkey that the fetched set lacks: two writes. *)
Lemma twin_keystores_are_both_written :
  exists s' t,
    import_keystores json_loads_ref set_iter_ref (read_text_ref twin_keystores)
                     (serve_ref localhost) import_args "pw"
                     ["first.json"; "second.json"] node_aa
    = (Ok 0%Z, s', Http (listing_request import_args) :: t)
    /\ reads (Http (listing_request import_args) :: t)
       = [Http (listing_request import_args)]
    /\ writes (Http (listing_request import_args) :: t)
       = [Http (import_request import_args "pw" (keystore_text "0xbb"));
          Http (import_request import_args "pw" (keystore_text "0xbb"))].
Proof.
  destruct (managed_set_is_fetched_once
              json_loads_ref set_iter_ref (read_text_ref twin_keystores) node
              (serve_ref localhost) import_args "pw"
              ["first.json"; "second.json"] node_aa ["0xaa"] node_aa
              node_aa_lists node_accepts_twin_keystores
              twin_keystores_well_formed)
    as (s' & t & Hrun & Hr & Hw & _).
  exists s', t. split; [exact Hrun|]. split; [exact Hr|].
  rewrite Hw. reflexivity.
Defined.

(** The reference node does manage the key once the first of the two files
    is imported, and the second file is written all the same. *)
Example twin_keystores_on_the_node :
  let '(r, n, t) := run_ref twin_keystores
                      (ImportKeystores "pw" ["first.json"; "second.json"])
                      node_aa in
  r = Ok 0%Z /\ node_keys n = ["0xaa"; "0xbb"] /\ length (writes t) = 2.
Proof. vm_compute. repeat split. Qed.

(** ** Fee recipient synchronization *)

(** Scenario A. *)
Example scenario_A_writes_once :
  let '(r, n, t) := run_ref fees_AA (SetFeeRecipients "fees.json") node_aa in
  r = Ok 0%Z
  /\ n = node_aa_synced
  /\ writes t
     = [Http (build_request fee_args (fee_path "0xaa")
                (Some ("{" ++ q "ethaddress" ++ ": " ++ q "0xbb" ++ "}")))].
Proof. vm_compute. repeat split. Qed.

(** Scenario B. *)
Example scenario_B_aborts :
  run_ref fees_AA (SetFeeRecipients "fees.json") node_none
  = (Ok 1%Z, node_none,
     [Http (listing_request fee_args);
      Stdout "The node manages the following validators:";
      Stderr ("ERROR: Validator 0xaa is not managed by the connected node."
              ++ chr newline)])
  /\ writes (snd (run_ref fees_AA (SetFeeRecipients "fees.json") node_none))
     = [].
Proof. split; vm_compute; reflexivity. Qed.

(** The node manages 0xaa and not 0xbb: the second entry of the file stops
    the run, and nothing was read or written for the first. *)
Lemma unmanaged_second_entry_aborts :
  run_ref fees_aa_bb (SetFeeRecipients "fees.json") node_aa
  = (Ok 1%Z, node_aa,
     [Http (listing_request fee_args);
      Stdout "The node manages the following validators:";
      Stdout "0xaa";
      Stderr ("ERROR: Validator 0xbb is not managed by the connected node."
              ++ chr newline)])
  /\ writes (snd (run_ref fees_aa_bb (SetFeeRecipients "fees.json") node_aa))
     = []
  /\ filter is_http
       (snd (run_ref fees_aa_bb (SetFeeRecipients "fees.json") node_aa))
     = [Http (listing_request fee_args)].
Proof.
  destruct (unmanaged_validator_aborts_synchronization
              json_loads_ref set_iter_ref (read_text_ref fees_aa_bb) node
              (serve_ref localhost) fee_args "fees.json"
              [mkEntry "0xaa" "0xcc"; mkEntry "0xbb" "0xdd"]
              node_aa ["0xaa"] node_aa)
    as (d & Hd & _ & _ & _ & Hrun & Hw & Hh).
  - reflexivity.
  - split; [reflexivity|]. do 2 eexists. repeat split; reflexivity.
  - exists (mkEntry "0xbb" "0xdd"). split; [right; left|]; reflexivity.
  - injection Hd as <-. repeat split; assumption.
Defined.

Lemma empty_file_on_empty_node :
  run_ref fees_empty (SetFeeRecipients "fees.json") node_none
  = (Ok 0%Z, node_none,
     [Http (listing_request fee_args);
      Stdout "The node manages the following validators:";
      Stdout thematic_break;
      Stdout "Success. All fee recipients synchronized."]).
Proof.
  apply (empty_fee_file_succeeds
           json_loads_ref set_iter_ref (read_text_ref fees_empty) node
           (serve_ref localhost) fee_args "fees.json" (fee_text [])
           node_none [] node_none eq_refl eq_refl).
  split; [reflexivity|]. do 2 eexists. repeat split; reflexivity.
Defined.

(** The reference node with the one validator 0xaa keeps the fee recipients
    it is given. *)
Lemma reference_node_keeps_fee_recipients :
  keeps_fee_recipients json_loads_ref (serve_ref localhost) fee_args ["0xaa"]
                       (fun n => node_keys n = ["0xaa"]) node_fee.
Proof.
  split; [|split].
  - intros [keys fees dflt] Hk. cbn in Hk. subst keys.
    exists (mkNode ["0xaa"] fees dflt). split; [|split; reflexivity].
    split; [reflexivity|]. do 2 eexists. repeat split; reflexivity.
  - intros [keys fees dflt] pk Hk Hm. cbn in Hk. subst keys.
    apply mem_singleton in Hm. subst pk.
    exists (mkNode ["0xaa"] fees dflt). split; [|split; reflexivity].
    split; [reflexivity|].
    do 3 eexists. split; [reflexivity|]. split; [apply fee_response_loads|].
    split; reflexivity.
  - intros [keys fees dflt] pk a Hk Hm. cbn in Hk. subst keys.
    apply mem_singleton in Hm. subst pk.
    exists EmptyString, (mkNode ["0xaa"] (assoc_set fees "0xaa" a) dflt).
    split; [|split; [reflexivity|split]].
    + change (serve_ref localhost (mkNode ["0xaa"] fees dflt)
                (fee_write_request fee_args "0xaa" a))
        with (match posted_ethaddress (fee_body a) with
              | Some a' =>
                  (Some EmptyString,
                   mkNode ["0xaa"] (assoc_set fees "0xaa" a') dflt)
              | None => (None, mkNode ["0xaa"] fees dflt)
              end).
      now rewrite posted_ethaddress_fee_body.
    + unfold node_fee. cbn [node_fees].
      change (lower "0xaa") with "0xaa". now rewrite assoc_get_set.
    + intros pk' Hm' Hne. apply mem_singleton in Hm'. congruence.
Qed.

(** The second run of scenario A. *)
Lemma second_run_writes_nothing :
  exists s2 t2,
    run_ref fees_AA (SetFeeRecipients "fees.json")
            (snd (fst (run_ref fees_AA (SetFeeRecipients "fees.json") node_aa)))
    = (Ok 0%Z, s2, t2)
    /\ writes t2 = [].
Proof.
  apply (proj2 (proj2 (in_sync_entries_are_not_written
                         json_loads_ref set_iter_ref (read_text_ref fees_AA)
                         node (serve_ref localhost) fee_args))
               "fees.json" [mkEntry "0xaa" "0xbb"] ["0xaa"]
               (fun n => node_keys n = ["0xaa"]) node_fee
               node_aa node_aa_synced
               (snd (run_ref fees_AA (SetFeeRecipients "fees.json") node_aa))
               reference_node_keeps_fee_recipients eq_refl eq_refl).
  - intros d d' [<-|[]] [<-|[]] _. reflexivity.
  - reflexivity.
Defined.

(** C3 as stated fails for a file that gives one validator two addresses:
    the first run succeeds and leaves the second address on the node, and
    the second run of the same file writes both addresses again. *)
Lemma second_run_may_write_again :
  let first := run_ref fees_twice (SetFeeRecipients "fees.json") node_aa in
  let second :=
    run_ref fees_twice (SetFeeRecipients "fees.json") (snd (fst first)) in
  fst (fst first) = Ok 0%Z
  /\ fst (fst second) = Ok 0%Z
  /\ writes (snd second)
     = [Http (build_request fee_args (fee_path "0xaa")
                (Some ("{" ++ q "ethaddress" ++ ": " ++ q "0xb1" ++ "}")));
        Http (build_request fee_args (fee_path "0xaa")
                (Some ("{" ++ q "ethaddress" ++ ": " ++ q "0xb2" ++ "}")))]
  /\ writes (snd second) <> [].
Proof. vm_compute. repeat split. discriminate. Qed.

(** ** Every run, on concrete inputs *)


Lemma scenario_A_writes_the_file_address :
  Forall (fun e =>
            is_write e = true ->
            exists d, In d [mkEntry "0xaa" "0xbb"]
                      /\ e = Http (fee_write_request fee_args
                                     (validating_pubkey d) (ethaddress d)))
         (snd (run_ref fees_AA (SetFeeRecipients "fees.json") node_aa)).
Proof.
  exact (synchronization_writes_come_from_the_file
           json_loads_ref set_iter_ref (read_text_ref fees_AA) node
           (serve_ref localhost) fee_args "fees.json"
           [mkEntry "0xaa" "0xbb"] node_aa eq_refl).
Defined.

(** The one entry of scenario A. *)
Lemma scenario_A_entry :
  sync_entry json_loads_ref (serve_ref localhost) fee_args
             (mkEntry "0xaa" "0xbb") node_aa
  = (Ok tt, node_aa_synced,
     [Stdout thematic_break;
      Http (fee_read_request fee_args "0xaa");
      Stdout "Configuring 0xaa...";
      Http (fee_write_request fee_args "0xaa" "0xbb");
      Stdout "Fee recipient updated. Previously 0xcc. Now 0xbb"]).
Proof.
  destruct (out_of_sync_entry_is_written_once
              json_loads_ref node (serve_ref localhost) fee_args
              (JDict [("validating_pubkey", JStr "0xAA");
                      ("ethaddress", JStr "0xBB")])
              (mkEntry "0xaa" "0xbb") "0xBB" "0xcc" node_aa node_aa)
    as (_ & _ & _ & _ & H).
  - reflexivity.
  - reflexivity.
  - split; [reflexivity|]. do 3 eexists. repeat split; reflexivity.
  - discriminate.
  - exact (H EmptyString node_aa_synced eq_refl).
Defined.

(** An entry without ethaddress: exit code 1, nothing sent. *)
Lemma incomplete_entry_sends_nothing :
  exists e,
    ref_main no_environ
             (mkCmdline (Some localhost) (Some "secret")
                        (SetFeeRecipients "fees.json"))
             fees_incomplete node_aa
    = (1%Z, node_aa, [Traceback e]).
Proof.
  destruct (malformed_fee_file_sends_nothing
              json_loads_ref set_iter_ref (read_text_ref fees_incomplete) node
              (serve_ref localhost) no_environ
              (mkCmdline (Some localhost) (Some "secret")
                         (SetFeeRecipients "fees.json"))
              "fees.json" node_aa eq_refl eq_refl eq_refl)
    as (e & _ & H).
  - right. right.
    exists ("[{" ++ q "validating_pubkey" ++ ":" ++ q "0xaa" ++ "}]").
    exists (JList [JDict [("validating_pubkey", JStr "0xaa")]]).
    split; [reflexivity|]. split; [reflexivity|]. right.
    exists [JDict [("validating_pubkey", JStr "0xaa")]].
    split; [reflexivity|]. left.
    intros (d & p & a & Hd & _ & Ha). injection Hd as <-. discriminate Ha.
  - exists e. exact H.
Defined.

Lemma two_entries_are_read_in_order :
  exists s' t,
    set_fee_recipients json_loads_ref set_iter_ref (read_text_ref fees_aa_bb)
                       (fixed_node ["0xaa"; "0xbb"] [] "0xcc") fee_args
                       "fees.json" tt
    = (Ok 0%Z, s', t)
    /\ reads t = [Http (listing_request fee_args);
                  Http (fee_read_request fee_args "0xaa");
                  Http (fee_read_request fee_args "0xbb")].
Proof.
  apply (synchronization_reads_in_file_order
           json_loads_ref set_iter_ref (read_text_ref fees_aa_bb) unit
           (fixed_node ["0xaa"; "0xbb"] [] "0xcc") fee_args "fees.json"
           [mkEntry "0xaa" "0xcc"; mkEntry "0xbb" "0xdd"]
           tt ["0xaa"; "0xbb"] tt eq_refl).
  - split; [reflexivity|]. do 2 eexists. repeat split; reflexivity.
  - repeat constructor.
  - intros [] d [<-|[<-|[]]]; exists "0xcc", tt;
      (split; [reflexivity|]); do 3 eexists; repeat split; reflexivity.
  - intros [] d _. exists EmptyString, tt. reflexivity.
Defined.

(** The node fails the read for 0xbb: 0xaa is processed, 0xbb is the end. *)
Lemma broken_read_stops_the_run :
  exists s' t,
    set_fee_recipients json_loads_ref set_iter_ref (read_text_ref fees_aa_bb)
                       (fixed_node ["0xaa"; "0xbb"] ["0xbb"] "0xcc") fee_args
                       "fees.json" tt
    = (Exn URLError, s',
       app t [Stdout thematic_break; Http (fee_read_request fee_args "0xbb")])
    /\ reads (app t [Stdout thematic_break;
                     Http (fee_read_request fee_args "0xbb")])
       = [Http (listing_request fee_args);
          Http (fee_read_request fee_args "0xaa");
          Http (fee_read_request fee_args "0xbb")].
Proof.
  destruct (failed_read_aborts_synchronization
              json_loads_ref set_iter_ref (read_text_ref fees_aa_bb) unit
              (fixed_node ["0xaa"; "0xbb"] ["0xbb"] "0xcc") fee_args
              "fees.json"
              [mkEntry "0xaa" "0xcc"] (mkEntry "0xbb" "0xdd") []
              tt ["0xaa"; "0xbb"] tt eq_refl)
    as (s' & t & Hrun & Hr).
  - split; [reflexivity|]. do 2 eexists. repeat split; reflexivity.
  - repeat constructor.
  - intros [] d [<-|[]]. exists "0xcc", tt.
    split; [reflexivity|]. do 3 eexists. repeat split; reflexivity.
  - intros [] d _. exists EmptyString, tt. reflexivity.
  - intros []. reflexivity.
  - exists s', t. split; [exact Hrun|exact Hr].
Defined.

(** A file that does not exist, between two that do: the first is sent, the
    third is not. *)
Lemma missing_keystore_stops_the_import :
  exists e s' t,
    import_keystores json_loads_ref set_iter_ref (read_text_ref two_keystores)
                     (serve_ref localhost) import_args "pw"
                     ["b.json"; "missing.json"; "a.json"] node_aa
    = (Exn e, s', app t [Stdout thematic_break])
    /\ filter is_http (app t [Stdout thematic_break])
       = [Http (listing_request import_args);
          Http (import_request import_args "pw" (keystore_text "0xbb"))].
Proof.
  apply (bad_keystore_aborts_import
           json_loads_ref set_iter_ref (read_text_ref two_keystores) node
           (serve_ref localhost) import_args "pw"
           ["b.json"] "missing.json" ["a.json"] node_aa ["0xaa"] node_aa
           node_aa_lists).
  - intros s p text pk [<-|[]] Hk Hm.
    vm_compute in Hk. injection Hk as <- <-. do 2 eexists. reflexivity.
  - repeat constructor; discriminate.
  - reflexivity.
Defined.

(** An empty response, which is no JSON, counts as imported. *)
Lemma empty_response_counts_as_imported :
  json_loads_ref EmptyString = None
  /\ import_file json_loads_ref (read_text_ref two_keystores)
                 (fixed_node ["0xaa"] [] "0xcc") import_args "pw" ["0xaa"]
                 "b.json" tt
     = (Ok tt, tt,
        [Stdout thematic_break;
         Stdout "Importing 0xbb...";
         Http (import_request import_args "pw" (keystore_text "0xbb"));
         Stdout "Keystore imported"]).
Proof.
  split; [reflexivity|].
  exact (import_ignores_the_response
           json_loads_ref (read_text_ref two_keystores)
           unit (fixed_node ["0xaa"] [] "0xcc") import_args "pw" ["0xaa"]
           "b.json" (keystore_text "0xbb") "0xbb" tt EmptyString tt
           eq_refl eq_refl eq_refl).
Defined.


(** Two entries for 0xaa: the node ends with the address of the second. *)
Lemma last_entry_of_the_file_wins :
  exists s' t,
    run_ref fees_twice (SetFeeRecipients "fees.json") node_aa = (Ok 0%Z, s', t)
    /\ lower (node_fee s' "0xaa") = "0xb2".
Proof.
  destruct (synchronization_sets_the_last_entry
              json_loads_ref set_iter_ref (read_text_ref fees_twice) node
              (serve_ref localhost) fee_args "fees.json"
              [mkEntry "0xaa" "0xb1"; mkEntry "0xaa" "0xb2"] ["0xaa"]
              (fun n => node_keys n = ["0xaa"]) node_fee node_aa
              reference_node_keeps_fee_recipients eq_refl eq_refl)
    as (s' & t & Hrun & _ & Hlast & _).
  - repeat constructor.
  - exists s', t. split; [exact Hrun|].
    apply (Hlast [mkEntry "0xaa" "0xb1"] (mkEntry "0xaa" "0xb2") []);
      [reflexivity|intros e []].
Defined.

(** The file says 0xABCD, the node 0xAbCd: the entry passes. *)
Lemma mixed_case_entry_passes_validation :
  exists managed,
    managed_set (JDict [("data", JList [JDict [("validating_pubkey",
                                               JStr "0xAbCd")]])])
    = Ok managed
    /\ unmanaged managed (mkEntry "0xabcd" "0xbb") = false.
Proof.
  destruct (fee_validation_ignores_letter_case
              (JDict [("data", JList [JDict [("validating_pubkey",
                                              JStr "0xAbCd")]])])
              [JDict [("validating_pubkey", JStr "0xAbCd")]] ["0xAbCd"]
              (JDict [("validating_pubkey", JStr "0xABCD");
                      ("ethaddress", JStr "0xBB")])
              (mkEntry "0xabcd" "0xbb") "0xABCD" eq_refl)
    as (managed & Hm & _ & Hiff).
  - repeat constructor.
  - reflexivity.
  - reflexivity.
  - exists managed. split; [exact Hm|]. apply Hiff.
    exists "0xAbCd". split; [now left|reflexivity].
Defined.

(** The prefix test is in lower case: 0XAB gets 0x in front. *)
Lemma capital_prefix_gets_another_prefix :
  keystore_pubkey (JDict [("pubkey", JStr "0XAB")]) = Ok "0x0XAB"
  /\ keystore_pubkey (JDict [("pubkey", JStr "0xab")]) = Ok "0xab".
Proof.
  split.
  - destruct (keystore_pubkey_starts_with_0x
                (JDict [("pubkey", JStr "0XAB")]) "0XAB" eq_refl)
      as (pk & H & _ & _ & Hadd & _).
    rewrite H. now rewrite (Hadd eq_refl).
  - destruct (keystore_pubkey_starts_with_0x
                (JDict [("pubkey", JStr "0xab")]) "0xab" eq_refl)
      as (pk & H & _ & Hsame & _).
    rewrite H. now rewrite (Hsame eq_refl).
Defined.

(** A node that cannot be reached: one request, then the exception; and a
    host given without http://: the exception, and no request at all. *)
Lemma unreachable_node_aborts_both :
  import_keystores json_loads_ref set_iter_ref
                   (read_text_ref two_keystores) unreachable import_args
                   "pw" ["a.json"; "b.json"] tt
  = (Exn URLError, tt, [Http (listing_request import_args)])
  /\ set_fee_recipients json_loads_ref set_iter_ref
                        (read_text_ref fees_AA) unreachable fee_args
                        "fees.json" tt
     = (Exn URLError, tt, [Http (listing_request fee_args)])
  /\ import_keystores json_loads_ref set_iter_ref
                      (read_text_ref two_keystores) (serve_ref "localhost")
                      bare_host_args "pw" ["a.json"; "b.json"] node_aa
     = (Exn ValueError, node_aa, []).
Proof.
  split; [|split].
  - apply (failed_listing_aborts
             json_loads_ref set_iter_ref (read_text_ref two_keystores)
             unit unreachable import_args tt
             (import_keystores json_loads_ref set_iter_ref
                               (read_text_ref two_keystores) unreachable
                               import_args "pw" ["a.json"; "b.json"])).
    + left. now exists "pw", ["a.json"; "b.json"].
    + reflexivity.
    + reflexivity.
  - apply (failed_listing_aborts
             json_loads_ref set_iter_ref (read_text_ref fees_AA)
             unit unreachable fee_args tt
             (set_fee_recipients json_loads_ref set_iter_ref
                                 (read_text_ref fees_AA) unreachable
                                 fee_args "fees.json")).
    + right. exists "fees.json", [mkEntry "0xaa" "0xbb"].
      split; reflexivity.
    + reflexivity.
    + reflexivity.
  - apply (failed_listing_aborts
             json_loads_ref set_iter_ref (read_text_ref two_keystores)
             node (serve_ref "localhost") bare_host_args node_aa
             (import_keystores json_loads_ref set_iter_ref
                               (read_text_ref two_keystores)
                               (serve_ref "localhost")
                               bare_host_args "pw" ["a.json"; "b.json"])).
    + left. now exists "pw", ["a.json"; "b.json"].
    + reflexivity.
Defined.

(** A fee recipient file that holds an empty object. *)
Lemma empty_object_is_synchronized :
  run_ref fees_object (SetFeeRecipients "fees.json") node_aa
  = (Ok 0%Z, node_aa,
     [Http (listing_request fee_args);
      Stdout "The node manages the following validators:";
      Stdout "0xaa";
      Stdout thematic_break;
      Stdout "Success. All fee recipients synchronized."]).
Proof.
  apply (empty_iteration_is_an_empty_file
           json_loads_ref set_iter_ref (read_text_ref fees_object) node
           (serve_ref localhost) fee_args "fees.json" "{}" (JDict [])
           node_aa ["0xaa"] node_aa eq_refl eq_refl).
  - right. now left.
  - split; [reflexivity|]. do 2 eexists. repeat split; reflexivity.
Defined.

